(** * PyLav: node penalties, REST calls, the client facade and the player
    registry, embedded from [src/pylav/node.py], [src/pylav/client.py] and
    [src/pylav/player_manager.py]; search queries from [src/pylav/query.py]
    and the choice of a Radio Browser server from
    [src/pylav/extension/radio/base_url.py]. *)

From Stdlib Require Import ZArith Floats Lia.
From stdpp Require Import base option list strings pretty gmap.

Set Warnings "-inexact-float,-register-all".
Open Scope Z_scope.

(** ** Python exceptions and results *)

(** The exception classes the embedded code raises or lets escape.  The two
    node errors carry the message they are constructed with; [OtherError]
    stands for a class of the hosting application, which may derive from
    [BaseException] only (as [asyncio.CancelledError] does). *)
Inductive exn : Type :=
| NodeException (msg : string)
| NoNodeAvailable (msg : string)
| Unauthorized
| IndexError
| KeyError
| TypeError
| AttributeError
| OverflowError
| ZeroDivisionError
| NotConnected
| OtherError (class_name : string) (derives_Exception : bool).

Inductive result (A : Type) : Type :=
| Ok (a : A)
| Raise (e : exn).
Arguments Ok {A} a.
Arguments Raise {A} e.

#[global] Instance result_ret : MRet result := @Ok.
#[global] Instance result_bind : MBind result :=
  fun A B f m => match m with Ok a => f a | Raise e => Raise e end.
#[global] Instance result_fmap : FMap result :=
  fun A B f m => match m with Ok a => Ok (f a) | Raise e => Raise e end.

Definition derives_Exception (e : exn) : bool :=
  match e with
  | OtherError _ b => b
  | _ => true
  end.

Definition is_ok {A} (r : result A) : bool :=
  match r with Ok _ => true | Raise _ => false end.

(** ** Python values

    The values that reach the embedded code come out of [ujson.loads]: JSON
    objects keep their keys as strings, in an association list. *)
Inductive pyval : Type :=
| PyNone
| PyBool (b : bool)
| PyInt (z : Z)
| PyFloat (f : float)
| PyStr (s : string)
| PyList (l : list pyval)
| PyDict (d : list (string * pyval)).

Fixpoint assoc {A} (k : string) (d : list (string * A)) : option A :=
  match d with
  | [] => None
  | (k', v) :: d' => if String.eqb k k' then Some v else assoc k d'
  end.

(** [bool] is a subclass of [int]: [True] counts as 1 in arithmetic. *)
Definition as_number (v : pyval) : option (Z + float) :=
  match v with
  | PyBool b => Some (inl (Z.b2z b))
  | PyInt z => Some (inl z)
  | PyFloat f => Some (inr f)
  | _ => None
  end.

(** ** Double-precision arithmetic as CPython performs it *)

(** [float(n)] for an int: correctly rounded (ties to even), [OverflowError]
    when the int is too large. *)
Definition int_to_float (z : Z) : result float :=
  let f := SF2Prim (binary_normalize prec emax z 0 false) in
  if is_infinity f then Raise OverflowError else Ok f.

Definition to_float (n : Z + float) : result float :=
  match n with
  | inl z => int_to_float z
  | inr f => Ok f
  end.

(** [a / b] on two ints: the correctly rounded quotient. *)
Definition int_truediv (a b : Z) : result float :=
  if b =? 0 then Raise ZeroDivisionError
  else
    let s := xorb (a <? 0) (b <? 0) in
    if a =? 0 then Ok (if s then neg_zero else zero)
    else
      let '(q, e, l) := SFdiv_core_binary prec emax (Z.abs a) 0 (Z.abs b) 0 in
      let f := SF2Prim (binary_round_aux prec emax s q e l) in
      if is_infinity f then Raise OverflowError else Ok f.

Definition float_truediv (x y : float) : result float :=
  if (y =? 0)%float then Raise ZeroDivisionError else Ok (x / y)%float.

(** The exact integer a float stands for, when it stands for one. *)
Definition float_as_int (f : float) : option Z :=
  match Prim2SF f with
  | S754_zero _ => Some 0
  | S754_finite s m e =>
      let z := if s then Z.neg m else Z.pos m in
      if 0 <=? e then Some (z * 2 ^ e)
      else if Z.pos m mod 2 ^ (- e) =? 0 then Some (z / 2 ^ (- e))
      else None
  | _ => None
  end.

(** [v == k] for an int literal [k]: ints and floats compare by exact value,
    every other JSON value differs from an int. *)
Definition py_eq_int (v : pyval) (k : Z) : bool :=
  match as_number v with
  | Some (inl z) => z =? k
  | Some (inr f) => match float_as_int f with Some z => z =? k | None => false end
  | None => false
  end.

Definition py_ne_int (v : pyval) (k : Z) : bool := negb (py_eq_int v k).

Fixpoint str_repeat (s : string) (n : nat) : string :=
  match n with
  | O => EmptyString
  | S n' => String.append s (str_repeat s n')
  end.

Fixpoint list_repeat {A} (l : list A) (n : nat) : list A :=
  match n with
  | O => []
  | S n' => l ++ list_repeat l n'
  end.

Section Arithmetic.

(** [x ** y] on two doubles (CPython's [float_pow], which calls the C
    library's [pow] and raises [OverflowError] on a range error). *)
Variable float_pow : float -> float -> result float.

Definition py_add (a b : pyval) : result pyval :=
  match as_number a, as_number b with
  | Some (inl x), Some (inl y) => Ok (PyInt (x + y))
  | Some x, Some y =>
      fx ← to_float x; fy ← to_float y; Ok (PyFloat (fx + fy)%float)
  | _, _ =>
      match a, b with
      | PyStr s, PyStr t => Ok (PyStr (String.append s t))
      | PyList l, PyList m => Ok (PyList (l ++ m))
      | _, _ => Raise TypeError
      end
  end.

Definition py_sub (a b : pyval) : result pyval :=
  match as_number a, as_number b with
  | Some (inl x), Some (inl y) => Ok (PyInt (x - y))
  | Some x, Some y =>
      fx ← to_float x; fy ← to_float y; Ok (PyFloat (fx - fy)%float)
  | _, _ => Raise TypeError
  end.

Definition py_mul (a b : pyval) : result pyval :=
  match as_number a, as_number b with
  | Some (inl x), Some (inl y) => Ok (PyInt (x * y))
  | Some x, Some y =>
      fx ← to_float x; fy ← to_float y; Ok (PyFloat (fx * fy)%float)
  | Some (inl n), None =>
      match b with
      | PyStr s => Ok (PyStr (str_repeat s (Z.to_nat n)))
      | PyList l => Ok (PyList (list_repeat l (Z.to_nat n)))
      | _ => Raise TypeError
      end
  | None, Some (inl n) =>
      match a with
      | PyStr s => Ok (PyStr (str_repeat s (Z.to_nat n)))
      | PyList l => Ok (PyList (list_repeat l (Z.to_nat n)))
      | _ => Raise TypeError
      end
  | _, _ => Raise TypeError
  end.

Definition py_truediv (a b : pyval) : result pyval :=
  match as_number a, as_number b with
  | Some (inl x), Some (inl y) => PyFloat <$> int_truediv x y
  | Some x, Some y =>
      fx ← to_float x; fy ← to_float y; PyFloat <$> float_truediv fx fy
  | _, _ => Raise TypeError
  end.

(** [a ** b]; two ints with a non-negative exponent stay an int. *)
Definition py_pow (a b : pyval) : result pyval :=
  match as_number a, as_number b with
  | Some (inl x), Some (inl y) =>
      if 0 <=? y then Ok (PyInt (x ^ y))
      else fx ← int_to_float x; fy ← int_to_float y; PyFloat <$> float_pow fx fy
  | Some x, Some y =>
      fx ← to_float x; fy ← to_float y; PyFloat <$> float_pow fx fy
  | _, _ => Raise TypeError
  end.

End Arithmetic.


(** ** Subscripts and [dict.get] on JSON values *)

Definition norm_index (i len : Z) : option nat :=
  let j := if i <? 0 then i + len else i in
  if (0 <=? j) && (j <? len) then Some (Z.to_nat j) else None.

(** [v[k]] *)
Definition py_getitem (v k : pyval) : result pyval :=
  match v with
  | PyDict d =>
      match k with
      | PyStr s => match assoc s d with Some x => Ok x | None => Raise KeyError end
      | PyList _ | PyDict _ => Raise TypeError
      | _ => Raise KeyError
      end
  | PyList l =>
      match as_number k with
      | Some (inl i) =>
          match norm_index i (Z.of_nat (length l)) with
          | Some j => match l !! j with Some x => Ok x | None => Raise IndexError end
          | None => Raise IndexError
          end
      | _ => Raise TypeError
      end
  | PyStr s =>
      match as_number k with
      | Some (inl i) =>
          match norm_index i (Z.of_nat (String.length s)) with
          | Some j =>
              match String.get j s with
              | Some c => Ok (PyStr (String c EmptyString))
              | None => Raise IndexError
              end
          | None => Raise IndexError
          end
      | _ => Raise TypeError
      end
  | _ => Raise TypeError
  end.

(** [v.get(key, default)]: only a dict has the method. *)
Definition py_get (v : pyval) (key : string) (default : pyval) : result pyval :=
  match v with
  | PyDict d => Ok (match assoc key d with Some x => x | None => default end)
  | _ => Raise AttributeError
  end.

(** ** [src/pylav/node.py] *)

Module Penalty.

Record t : Type := mk {
  player_penalty : pyval;
  cpu_penalty : pyval;
  null_frame_penalty : pyval;
  deficit_frame_penalty : pyval;
  total : pyval
}.

End Penalty.

Module Stats.

(** The slots [Stats.__init__] fills from the report before it computes the
    penalty; [Penalty.__init__] reads four of them.  The back reference
    [_node] is never read and is left out. *)
Record slots : Type := mk_slots {
  uptime : pyval;
  players : pyval;
  playing_players : pyval;
  memory_free : pyval;
  memory_used : pyval;
  memory_allocated : pyval;
  memory_reservable : pyval;
  cpu_cores : pyval;
  system_load : pyval;
  lavalink_load : pyval;
  frames_sent : pyval;
  frames_nulled : pyval;
  frames_deficit : pyval
}.

Record t : Type := mk {
  fields : slots;
  penalty : Penalty.t
}.

End Stats.

Section PenaltyModel.

Variable float_pow : float -> float -> result float.

Notation "a +! b" := (py_add a b) (at level 50, left associativity).
Notation "a -! b" := (py_sub a b) (at level 50, left associativity).
Notation "a *! b" := (py_mul a b) (at level 40, left associativity).
Notation "a /! b" := (py_truediv a b) (at level 40, left associativity).
Notation "a **! b" := (py_pow float_pow a b) (at level 30, right associativity).

(** [1.05 ** (100 * stats.system_load) * 10 - 10] *)
Definition cpu_penalty_of (stats : Stats.slots) : result pyval :=
  e ← PyInt 100 *! Stats.system_load stats;
  p ← PyFloat 1.05 **! e;
  m ← p *! PyInt 10;
  m -! PyInt 10.

(** [(1.03 ** (500 * (frames / 3000))) * scale - scale] *)
Definition frame_penalty_of (frames : pyval) (scale : Z) : result pyval :=
  q ← frames /! PyInt 3000;
  e ← PyInt 500 *! q;
  p ← PyFloat 1.03 **! e;
  m ← p *! PyInt scale;
  m -! PyInt scale.

(** [Penalty.__init__] *)
Definition Penalty__init__ (stats : Stats.slots) : result Penalty.t :=
  let player_penalty := Stats.playing_players stats in
  cpu_penalty ← cpu_penalty_of stats;
  null_frame_penalty ←
    (if py_ne_int (Stats.frames_nulled stats) (-1) then
       n ← frame_penalty_of (Stats.frames_nulled stats) 300;
       n *! PyInt 2
     else Ok (PyInt 0));
  deficit_frame_penalty ←
    (if py_ne_int (Stats.frames_deficit stats) (-1) then
       frame_penalty_of (Stats.frames_deficit stats) 600
     else Ok (PyInt 0));
  s1 ← player_penalty +! cpu_penalty;
  s2 ← s1 +! null_frame_penalty;
  total ← s2 +! deficit_frame_penalty;
  Ok (Penalty.mk player_penalty cpu_penalty null_frame_penalty
        deficit_frame_penalty total).

(** [Stats.__init__(node, data)] *)
Definition Stats__init__ (data : pyval) : result Stats.t :=
  uptime ← py_getitem data (PyStr "uptime");
  players ← py_getitem data (PyStr "players");
  playing_players ← py_getitem data (PyStr "playingPlayers");
  memory ← py_getitem data (PyStr "memory");
  memory_free ← py_getitem memory (PyStr "free");
  memory_used ← py_getitem memory (PyStr "used");
  memory_allocated ← py_getitem memory (PyStr "allocated");
  memory_reservable ← py_getitem memory (PyStr "reservable");
  cpu ← py_getitem data (PyStr "cpu");
  cpu_cores ← py_getitem cpu (PyStr "cores");
  system_load ← py_getitem cpu (PyStr "systemLoad");
  lavalink_load ← py_getitem cpu (PyStr "lavalinkLoad");
  frame_stats ← py_get data "frameStats" (PyDict []);
  frames_sent ← py_get frame_stats "sent" (PyInt (-1));
  frames_nulled ← py_get frame_stats "nulled" (PyInt (-1));
  frames_deficit ← py_get frame_stats "deficit" (PyInt (-1));
  let self :=
    Stats.mk_slots uptime players playing_players memory_free memory_used
      memory_allocated memory_reservable cpu_cores system_load lavalink_load
      frames_sent frames_nulled frames_deficit in
  penalty ← Penalty__init__ self;
  Ok (Stats.mk self penalty).

End PenaltyModel.

Module WebSocket.

(** Modelled from the spec: [pylav/websocket.py] is not among the sources.
    The session is the state machine of the specification's section 4.2:
    [Disconnected -> Connecting -> Connected -> (Resuming | Reconnecting) ->
    Connected | Disconnected (terminal if exhausted)].  A failed connect step
    is retried while the number of retries made so far is below
    [reconnect_attempts] ([-1] lifts the bound); a successful handshake
    resets the counter; exhausting the bound ends in the terminal state and
    emits the node-failure event. *)
Inductive state : Type :=
| Disconnected
| Connecting
| Connected
| Resuming
| Reconnecting
| Exhausted.

Inductive input : Type :=
| ConnectRequest
| HandshakeOk
| HandshakeFailed
| SocketClosed.

Inductive event : Type :=
| ReconnectAttempt (n : Z)
| NodeConnected
| NodeDisconnected.

(** Modelled from the spec: what a session is made with, its state and the
    number of retries made since the last successful handshake. *)
Record t : Type := mk {
  host : string;
  port : Z;
  password : string;
  resume_key : option string;
  resume_timeout : Z;
  reconnect_attempts : Z;
  ssl : bool;
  session_state : state;
  attempts : Z
}.

Definition set_state (ws : t) (s : state) (n : Z) : t :=
  mk (host ws) (port ws) (password ws) (resume_key ws) (resume_timeout ws)
     (reconnect_attempts ws) (ssl ws) s n.

(** Modelled from the spec: the session a node starts with, before any
    connect request. *)
Definition __init__ (host : string) (port : Z) (password : string)
    (resume_key : option string) (resume_timeout reconnect_attempts : Z)
    (ssl : bool) : t :=
  mk host port password resume_key resume_timeout reconnect_attempts ssl
     Disconnected 0.

(** Modelled from the spec: [WebSocket.connected]. *)
Definition connected (ws : t) : bool :=
  match session_state ws with Connected => true | _ => false end.

(** Modelled from the spec: the bound on retries, [-1] for none. *)
Definition may_retry (ws : t) : bool :=
  (reconnect_attempts ws =? -1) || (attempts ws <? reconnect_attempts ws).

(** Modelled from the spec: one transition of the session. *)
Definition step (ws : t) (i : input) : t * list event :=
  match session_state ws, i with
  | Disconnected, ConnectRequest => (set_state ws Connecting (attempts ws), [])
  | (Connecting | Resuming | Reconnecting), HandshakeOk =>
      (set_state ws Connected 0, [NodeConnected])
  | (Connecting | Resuming | Reconnecting), HandshakeFailed =>
      if may_retry ws
      then (set_state ws Reconnecting (attempts ws + 1),
            [ReconnectAttempt (attempts ws + 1)])
      else (set_state ws Exhausted (attempts ws), [NodeDisconnected])
  | Connected, SocketClosed =>
      match resume_key ws with
      | Some _ => (set_state ws Resuming (attempts ws), [])
      | None => (set_state ws Disconnected (attempts ws), [])
      end
  | _, _ => (ws, [])
  end.

(** Modelled from the spec: the session over a sequence of inputs, with the
    events it emits. *)
Fixpoint run (ws : t) (inputs : list input) : t * list event :=
  match inputs with
  | [] => (ws, [])
  | i :: rest =>
      let '(ws1, ev1) := step ws i in
      let '(ws2, ev2) := run ws1 rest in
      (ws2, ev1 ++ ev2)
  end.

End WebSocket.

Module Node.

Record t : Type := mk {
  _ssl : bool;
  _port : Z;
  _host : string;
  _password : string;
  _region : string;
  _name : string;
  _resume_key : option string;
  _resume_timeout : Z;
  _reconnect_attempts : Z;
  _search_only : bool;
  _stats : option Stats.t;
  _ws : WebSocket.t
}.

(** [Node.__init__]; the manager and its HTTP session are the environment of
    the REST calls below. *)
Definition __init__ (host password region : string)
    (resume_key : option string) (resume_timeout : Z) (port : option Z)
    (name : option string) (reconnect_attempts : Z) (ssl search_only : bool)
    : t :=
  let port' :=
    match port with
    | None => if ssl then 443 else 80
    | Some p => p
    end in
  let name' :=
    match name with
    | Some n => if String.eqb n EmptyString then region +:+ "-" +:+ host +:+ ":" +:+ pretty port' else n
    | None => region +:+ "-" +:+ host +:+ ":" +:+ pretty port'
    end in
  mk ssl port' host password region name' resume_key resume_timeout
     reconnect_attempts search_only None
     (WebSocket.__init__ host port' password resume_key resume_timeout
        reconnect_attempts ssl).

Definition search_only (self : t) : bool := _search_only self.
Definition port (self : t) : Z := _port self.
Definition ssl (self : t) : bool := _ssl self.
Definition connection_protocol (self : t) : string :=
  if ssl self then "https" else "http".
Definition host (self : t) : string := _host self.
Definition region (self : t) : string := _region self.
Definition name (self : t) : string := _name self.
Definition password (self : t) : string := _password self.
Definition reconnect_attempts (self : t) : Z := _reconnect_attempts self.
Definition stats (self : t) : option Stats.t := _stats self.

(** [available]: whether the websocket is connected. *)
Definition available (self : t) : bool := WebSocket.connected (_ws self).

(** [Node.penalty]; a [Stats] object is always truthy, [None] is not. *)
Definition penalty (self : t) : result pyval :=
  if negb (available self) || negb (bool_decide (is_Some (stats self)))
  then Ok (PyFloat 9e30)
  else
    match stats self with
    | Some st => Ok (Penalty.total (Stats.penalty st))
    | None => Raise AttributeError
    end.

(** *** REST calls *)

Record Request : Type := mk_request {
  http_method : string;
  destination : string;
  authorization : string;
  params : list (string * string);
  json_body : option pyval
}.

(** What the code reads from a response: the status and the outcome of
    [await res.json(loads=ujson.loads)]. *)
Record Response : Type := mk_response {
  status : Z;
  json : result pyval
}.

Definition endpoint (self : t) (path : string) : string :=
  connection_protocol self +:+ "://" +:+ host self +:+ ":" +:+ pretty (port self) +:+ path.

(** The requests the node issues. *)
Definition loadtracks_request (self : t) (query : string) : Request :=
  mk_request "GET" (endpoint self "/loadtracks") (password self)
    [("identifier", query)] None.

Definition decodetrack_request (self : t) (track : string) : Request :=
  mk_request "GET" (endpoint self "/decodetrack") (password self)
    [("track", track)] None.

Definition decodetracks_request (self : t) (tracks : list string) : Request :=
  mk_request "GET" (endpoint self "/decodetracks") (password self) []
    (Some (PyList (PyStr <$> tracks))).

Definition routeplanner_status_request (self : t) : Request :=
  mk_request "GET" (endpoint self "/routeplanner/status") (password self) [] None.

Definition routeplanner_free_address_request (self : t) (address : string) : Request :=
  mk_request "POST" (endpoint self "/route planner/free/address") (password self) []
    (Some (PyDict [("address", PyStr address)])).

Definition routeplanner_free_all_request (self : t) : Request :=
  mk_request "POST" (endpoint self "/route planner/free/all") (password self) [] None.

Section Rest.

(** The aiohttp session: the response a request is answered with. *)
Variable session : Request -> Response.

(** [session.post] as the two calls that free addresses use it: the
    response, or the exception the request itself fails with (a connection
    error, the timeout of the session). *)
Variable post : Request -> result Response.

Definition get_tracks (self : t) (query : string) (first : bool) : result pyval :=
  let res := session (loadtracks_request self query) in
  if status res =? 200 then
    result ← json res;
    if first then
      tracks ← py_get result "tracks" (PyList []);
      py_getitem tracks (PyInt 0)
    else Ok result
  else if (status res =? 401) || (status res =? 403) then Raise Unauthorized
  else Ok (PyList []).

Definition decode_track (self : t) (track : string) : result pyval :=
  let res := session (decodetrack_request self track) in
  if status res =? 200 then json res
  else if (status res =? 401) || (status res =? 403) then Raise Unauthorized
  else Ok PyNone.

Definition decode_tracks (self : t) (tracks : list string) : result pyval :=
  let res := session (decodetracks_request self tracks) in
  if status res =? 200 then json res
  else if (status res =? 401) || (status res =? 403) then Raise Unauthorized
  else Ok (PyList []).

Definition routeplanner_status (self : t) : result pyval :=
  let res := session (routeplanner_status_request self) in
  if status res =? 200 then json res
  else if (status res =? 401) || (status res =? 403) then Raise Unauthorized
  else Ok PyNone.

Definition routeplanner_free_address (self : t) (address : string) : result pyval :=
  res ← post (routeplanner_free_address_request self address);
  Ok (PyBool (status res =? 204)).

Definition routeplanner_free_all_failing (self : t) : result pyval :=
  res ← post (routeplanner_free_all_request self);
  Ok (PyBool (status res =? 204)).

End Rest.

End Node.

(** ** The shared world of the client facade and the player registry *)

Module NodeManager.

Record t : Type := mk { nodes : list Node.t }.

(** Modelled from the spec: [pylav/node_manager.py] is not among the
    sources.  [available_nodes] are the nodes whose session is connected. *)
Definition available_nodes (self : t) : list Node.t :=
  filter (fun n => Node.available n = true) (nodes self).

(** Modelled from the spec: [search_only_nodes] is the subset of the
    available nodes flagged search-only. *)
Definition search_only_nodes (self : t) : list Node.t :=
  filter (fun n => Node.search_only n = true) (available_nodes self).

End NodeManager.

Module Player.

(** The attributes of a player that [player_manager.py] and [node.py] read;
    [pylav/player.py] itself is not among the sources. *)
Record t : Type := mk {
  guild_id : Z;
  channel_id : Z;
  node : option Node.t;
  _original_node : option Node.t;
  is_connected : bool;
  is_playing : bool;
  paused : bool;
  is_empty : bool
}.

End Player.

(** A [discord.VoiceChannel]: its id and the id of its guild. *)
Record VoiceChannel : Type := mk_channel {
  channel_ident : Z;
  channel_guild : Z
}.

(** Players are objects: the registry and every caller hold references. *)
Definition ref : Type := positive.

Inductive Event : Type :=
| PlayerConnectedEvent (player : ref) (requester : option Z)
| OtherEvent (class_name : string).

Definition event_class_name (e : Event) : string :=
  match e with
  | PlayerConnectedEvent _ _ => "PlayerConnectedEvent"
  | OtherEvent n => n
  end.

Inductive level : Type := DEBUG | INFO | WARNING.

(** What the code does to the outside, in the order it does it. *)
Inductive effect : Type :=
| Log (logger : string) (lvl : level) (format : string) (args : list string)
| VoiceConnect (channel : VoiceChannel) (player : ref)
| VoiceMove (player : ref) (requester : option Z) (channel : Z) (self_deaf : bool)
| VoiceDisconnect (player : ref) (requester : option Z)
| Cleanup (player : ref)
| Sent (node : string) (op : string) (guild : Z)
| Dispatched (node : string) (event : Event).

Record World : Type := mk_world {
  (** [Client._node_manager] *)
  node_manager : NodeManager.t;
  (** [Client._connect_back] *)
  connect_back : bool;
  (** [Client._warned_about_no_search_nodes] *)
  warned_about_no_search_nodes : bool;
  (** [PlayerManager.players] *)
  players : gmap Z ref;
  (** the player objects, by reference, and the next free reference *)
  objects : ref -> Player.t;
  next_ref : ref;
  (** what [random.choice] will draw, call after call *)
  entropy : list nat;
  effects : list effect
}.

Definition set_node_manager (nm : NodeManager.t) (w : World) : World :=
  mk_world nm (connect_back w) (warned_about_no_search_nodes w) (players w)
    (objects w) (next_ref w) (entropy w) (effects w).

Definition set_warned (b : bool) (w : World) : World :=
  mk_world (node_manager w) (connect_back w) b (players w) (objects w)
    (next_ref w) (entropy w) (effects w).

Definition set_players (m : gmap Z ref) (w : World) : World :=
  mk_world (node_manager w) (connect_back w) (warned_about_no_search_nodes w)
    m (objects w) (next_ref w) (entropy w) (effects w).

Definition set_object (r : ref) (p : Player.t) (w : World) : World :=
  mk_world (node_manager w) (connect_back w) (warned_about_no_search_nodes w)
    (players w) (fun r' => if Pos.eqb r' r then p else objects w r')
    (next_ref w) (entropy w) (effects w).

Definition set_next_ref (r : ref) (w : World) : World :=
  mk_world (node_manager w) (connect_back w) (warned_about_no_search_nodes w)
    (players w) (objects w) r (entropy w) (effects w).

Definition set_entropy (l : list nat) (w : World) : World :=
  mk_world (node_manager w) (connect_back w) (warned_about_no_search_nodes w)
    (players w) (objects w) (next_ref w) l (effects w).

Definition add_effect (e : effect) (w : World) : World :=
  mk_world (node_manager w) (connect_back w) (warned_about_no_search_nodes w)
    (players w) (objects w) (next_ref w) (entropy w) (effects w ++ [e]).

(** Code that reads and writes the world and may raise: the world at the
    point of the [raise] is kept. *)
Definition M (A : Type) : Type := World -> result A * World.

#[global] Instance M_ret : MRet M := fun A a w => (Ok a, w).
#[global] Instance M_bind : MBind M := fun A B f m w =>
  match m w with
  | (Ok a, w') => f a w'
  | (Raise e, w') => (Raise e, w')
  end.

Definition raise {A} (e : exn) : M A := fun w => (Raise e, w).
Definition gets {A} (f : World -> A) : M A := fun w => (Ok (f w), w).
Definition modify (f : World -> World) : M unit := fun w => (Ok tt, f w).
Definition lift {A} (r : result A) : M A := fun w => (r, w).
Definition emit (e : effect) : M unit := modify (add_effect e).
Definition when (b : bool) (m : M unit) : M unit := if b then m else mret tt.

(** [random.choice(list(nodes))] on a non-empty list: the element at the
    drawn index. *)
Definition random_choice (nodes : list Node.t) : M Node.t := fun w =>
  let k := match entropy w with [] => O | k :: _ => k end in
  match nodes !! (k mod length nodes)%nat with
  | Some n => (Ok n, set_entropy (tail (entropy w)) w)
  | None => (Raise IndexError, w)
  end.

(** ** [src/pylav/client.py] *)

Module Client.

(** [Client.__init__]: no nodes and no players yet, nothing warned about. *)
Definition __init__ (connect_back : bool) (entropy : list nat) : World :=
  mk_world (NodeManager.mk []) connect_back false ∅
    (fun _ => Player.mk 0 0 None None false false false true) 1%positive entropy [].

Section Facade.

Variable session : Node.Request -> Node.Response.
Variable post : Node.Request -> result Node.Response.

Definition LOGGER : string := "red.PyLink.Client".

Definition no_search_nodes_warning : effect :=
  Log LOGGER WARNING
    "No search only nodes available, defaulting to all available nodes." [].

(** An empty list is falsy. *)
Definition falsy {A} (l : list A) : bool :=
  match l with [] => true | _ => false end.

(** [node or random.choice(list(nodes))] *)
Definition node_or_choice (node : option Node.t) (nodes : list Node.t) : M Node.t :=
  match node with
  | Some n => mret n
  | None => random_choice nodes
  end.

Definition get_tracks (query : string) (node : option Node.t)
    (search_only_nodes first : bool) : M pyval :=
  nodes ←
    (if search_only_nodes then
       nodes ← gets (fun w => NodeManager.search_only_nodes (node_manager w));
       if falsy nodes then
         warned ← gets warned_about_no_search_nodes;
         when (negb warned)
           (emit no_search_nodes_warning;; modify (set_warned true));;
         gets (fun w => NodeManager.available_nodes (node_manager w))
       else mret nodes
     else gets (fun w => NodeManager.available_nodes (node_manager w)));
  if falsy nodes then raise (NodeException "No available nodes!")
  else
    node ← node_or_choice node nodes;
    lift (Node.get_tracks session node query first).

Definition decode_track (track : string) (node : option Node.t) : M pyval :=
  nodes ← gets (fun w => NodeManager.available_nodes (node_manager w));
  if falsy nodes then raise (NodeException "No available nodes!")
  else
    nodes ← gets (fun w => NodeManager.available_nodes (node_manager w));
    node ← node_or_choice node nodes;
    lift (Node.decode_track session node track).

Definition decode_tracks (tracks : list string) (node : option Node.t) : M pyval :=
  nodes ← gets (fun w => NodeManager.available_nodes (node_manager w));
  if falsy nodes then raise (NodeException "No available nodes!")
  else
    nodes ← gets (fun w => NodeManager.available_nodes (node_manager w));
    node ← node_or_choice node nodes;
    lift (Node.decode_tracks session node tracks).

(** What happens to a client over its lifetime, as far as [get_tracks] is
    concerned: it is called, and in between the nodes come and go. *)
Inductive action : Type :=
| GetTracks (query : string) (node : option Node.t) (search_only_nodes first : bool)
| NodesChanged (nm : NodeManager.t).

Definition run_action (w : World) (a : action) : World :=
  match a with
  | GetTracks query node search_only_nodes first =>
      snd (get_tracks query node search_only_nodes first w)
  | NodesChanged nm => set_node_manager nm w
  end.

Definition run_actions (actions : list action) (w : World) : World :=
  fold_left run_action actions w.

Definition routeplanner_status (node : Node.t) : M pyval :=
  lift (Node.routeplanner_status session node).

Definition routeplanner_free_address (node : Node.t) (address : string) : M pyval :=
  lift (Node.routeplanner_free_address post node address).

Definition routeplanner_free_all_failing (node : Node.t) : M pyval :=
  lift (Node.routeplanner_free_all_failing post node).

End Facade.

Definition is_no_search_nodes_warning (e : effect) : bool :=
  match e with
  | Log logger WARNING format [] =>
      String.eqb logger LOGGER
      && String.eqb format
           "No search only nodes available, defaulting to all available nodes."
  | _ => false
  end.

(** How many times the warning has been logged so far. *)
Definition warnings_emitted (w : World) : nat :=
  length (List.filter is_no_search_nodes_warning (effects w)).

End Client.

(** ** [src/pylav/player_manager.py] *)

Module PlayerManager.

Definition LOGGER : string := "red.PyLink.PlayerManager".

(** Modelled from the spec: [Player.move_to] connects the player to the
    given channel. *)
Definition Player_move_to (p : ref) (requester : option Z) (channel : Z)
    (self_deaf : bool) : M unit :=
  emit (VoiceMove p requester channel self_deaf);;
  modify (fun w =>
    let pl := objects w p in
    set_object p
      (Player.mk (Player.guild_id pl) channel (Player.node pl)
         (Player._original_node pl) (Player.is_connected pl)
         (Player.is_playing pl) (Player.paused pl) (Player.is_empty pl)) w).

(** Modelled from the spec: [Player.cleanup] is local-only. *)
Definition Player_cleanup (p : ref) : M unit := emit (Cleanup p).

(** Modelled from the spec: [Player.post_init] binds the player to its
    node. *)
Definition Player_post_init (p : ref) (n : Node.t) : M unit :=
  modify (fun w =>
    let pl := objects w p in
    set_object p
      (Player.mk (Player.guild_id pl) (Player.channel_id pl) (Some n)
         (Player._original_node pl) (Player.is_connected pl)
         (Player.is_playing pl) (Player.paused pl) (Player.is_empty pl)) w).

(** Modelled from the spec: [channel.connect(cls=Player)] is the hosting
    bot's voice connection; it constructs the player object. *)
Definition channel_connect (channel : VoiceChannel) : M ref := fun w =>
  let r := next_ref w in
  let pl := Player.mk (channel_guild channel) (channel_ident channel)
              None None true false false true in
  (Ok r, add_effect (VoiceConnect channel r)
           (set_next_ref (Pos.succ r) (set_object r pl w))).

(** Modelled from the spec: [Node.send] writes to the session, and fails
    with [NotConnected] when the session is not connected. *)
Definition Node_send (n : Node.t) (op : string) (guild : Z) : M unit :=
  if Node.available n then emit (Sent (Node.name n) op guild)
  else raise NotConnected.

(** [Node.dispatch_event] hands the event to the client's hooks. *)
Definition Node_dispatch_event (n : Node.t) (e : Event) : M unit :=
  emit (Dispatched (Node.name n) e).

(** [destroy].  After the command is sent, the source calls
    [player.disconnect(requester=requester)] without [await]: [disconnect] is
    a coroutine function (a player is a [discord.VoiceProtocol]), so the call
    only builds a coroutine object, which is dropped; nothing of
    [disconnect] runs and the player stays as it is. *)
Definition destroy (guild_id : Z) (requester : option Z) : M unit :=
  found ← gets (fun w => players w !! guild_id);
  match found with
  | None => mret tt
  | Some player =>
      modify (fun w => set_players (delete guild_id (players w)) w);;
      node ← gets (fun w => Player.node (objects w player));
      match node with
      | Some n =>
          when (Node.available n)
            (gid ← gets (fun w => Player.guild_id (objects w player));
             Node_send n "destroy" gid)
      | None => mret tt
      end;;
      node ← gets (fun w => Player.node (objects w player));
      match node with
      | Some n =>
          emit (Log LOGGER DEBUG "[NODE-%s] Successfully destroyed player %s"
                  [Node.name n; pretty guild_id])
      | None => raise AttributeError
      end
  end.

Definition find_all (predicate : option (Player.t -> bool)) : M (list ref) :=
  gets (fun w =>
    let values := snd <$> map_to_list (players w) in
    match predicate with
    | None => values
    | Some f => List.filter (fun r => f (objects w r)) values
    end).

Definition remove (guild_id : Z) : M unit :=
  found ← gets (fun w => players w !! guild_id);
  match found with
  | Some player =>
      modify (fun w => set_players (delete guild_id (players w)) w);;
      Player_cleanup player
  | None => mret tt
  end.

Definition get (guild_id : Z) : M (option ref) :=
  gets (fun w => players w !! guild_id).

(** [self.players.values()]: the registered players, once per guild that
    holds one.  The list follows the keys of the map, not the order of
    insertion; what is stated about the views below holds in any order. *)
Definition values (w : World) : list ref := snd <$> map_to_list (players w).

Definition __len__ : M nat := gets (fun w => size (players w)).

Definition connected_players : M (list ref) :=
  gets (fun w => List.filter (fun p => Player.is_connected (objects w p)) (values w)).

Definition playing_players : M (list ref) :=
  gets (fun w => List.filter (fun p => Player.is_playing (objects w p)) (values w)).

Definition not_playing_players : M (list ref) :=
  gets (fun w => List.filter (fun p => negb (Player.is_playing (objects w p))) (values w)).

Definition paused_players : M (list ref) :=
  gets (fun w => List.filter (fun p => Player.paused (objects w p)) (values w)).

Definition empty_players : M (list ref) :=
  gets (fun w => List.filter (fun p => Player.is_empty (objects w p)) (values w)).

Section Create.

(** [NodeManager.get_region] and [NodeManager.find_best_node], which are not
    among the sources. *)
Variable get_region : option string -> string.
Variable find_best_node : NodeManager.t -> string -> option Node.t.

Definition create (channel : VoiceChannel) (endpoint : option string)
    (node : option Node.t) (self_deaf : bool) (requester : option Z) : M ref :=
  found ← gets (fun w => players w !! channel_guild channel);
  match found with
  | Some p =>
      cid ← gets (fun w => Player.channel_id (objects w p));
      when (negb (channel_ident channel =? cid))
        (Player_move_to p requester (channel_ident channel) self_deaf);;
      mret p
  | None =>
      let region := get_region endpoint in
      best_node ← gets (fun w =>
        match node with
        | Some n => Some n
        | None => find_best_node (node_manager w) region
        end);
      match best_node with
      | None => raise (NoNodeAvailable "No available nodes!")
      | Some best =>
          player ← channel_connect channel;
          Player_post_init player best;;
          cid ← gets (fun w => Player.channel_id (objects w player));
          Player_move_to player requester cid self_deaf;;
          Node_dispatch_event best (PlayerConnectedEvent player requester);;
          modify (fun w =>
            set_players (<[channel_guild channel := player]> (players w)) w);;
          emit (Log LOGGER INFO "[NODE-%s] Successfully created player for %s"
                  [Node.name best; pretty (channel_guild channel)]);;
          mret player
      end
  end.

End Create.

End PlayerManager.

(** ** Event hooks ([Client._event_hooks], [Client._dispatch_event]) *)

Module Hooks.

Section Dispatch.

(** The state of the hosting application, which the hooks read and write. *)
Variable App : Type.

Inductive outcome : Type :=
| Returned
| Raised (e : exn).

(** A coroutine between two suspension points: it is finished, or resuming
    it runs it atomically (the scheduler is cooperative) up to the next
    suspension.  [resume] is what that run does to the application state and
    [next] what is left of the coroutine. *)
Inductive coro : Type :=
| Done (o : outcome)
| Susp (resume : App -> App) (next : App -> coro).

(** A hook is a callable; [hook_id] is its identity as an object.  Calling a
    hook that is not a coroutine function, or that raises at once, gives
    [Done (Raised _)]. *)
Record Hook : Type := mk_hook {
  hook_id : positive;
  __name__ : string;
  call : Event -> coro
}.

Definition registry : Type := gmap string (list Hook).

(** [_event_hooks[key]] on a [defaultdict(list)]. *)
Definition hooks_for (hooks : registry) (key : string) : list Hook :=
  match hooks !! key with Some l => l | None => [] end.

(** [Client.add_event_hook] *)
Definition add_event_hook (hooks : registry) (hook : Hook) : registry :=
  if existsb (fun h => Pos.eqb (hook_id h) (hook_id hook)) (hooks_for hooks "Generic")
  then hooks
  else <["Generic" := hooks_for hooks "Generic" ++ [hook]]> hooks.

Record state : Type := mk_state {
  app : App;
  log : list effect
}.

Definition LOGGER : string := "red.PyLink.Client".

Definition hook_warning (name : string) : effect :=
  Log LOGGER WARNING "Event hook %s encountered an exception!" [name].

Definition hook_debug (name : string) : effect :=
  Log LOGGER DEBUG "Event hook %s encountered an exception!" [name].

Definition dispatched_debug (event : Event) : effect :=
  Log LOGGER DEBUG "Dispatched %s to all registered hooks" [event_class_name event].

(** A task running [_hook_wrapper(hook, event)]: still awaiting the hook's
    coroutine, or finished with the wrapper's own outcome. *)
Inductive task_state : Type :=
| Pending (c : coro)
| Finished (o : outcome).

Definition task : Type := (string * task_state)%type.

(** The [try ... except Exception] of [_hook_wrapper], at the point the hook
    settles.  An exception that does not derive from [Exception] escapes the
    wrapper and ends the task, which holds it; [SystemExit] and
    [KeyboardInterrupt] are moreover raised out of the event loop, see
    [stops_loop] and [wait]. *)
Definition settle (name : string) (o : outcome) (st : state) : task_state * state :=
  match o with
  | Returned => (Finished Returned, st)
  | Raised e =>
      if derives_Exception e
      then (Finished Returned,
            mk_state (app st) (log st ++ [hook_warning name; hook_debug name]))
      else (Finished (Raised e), st)
  end.

(** One uninterrupted run of a wrapper task, up to its next suspension. *)
Definition advance (name : string) (c : coro) (st : state) : task_state * state :=
  match c with
  | Done o => settle name o st
  | Susp resume next =>
      let st' := mk_state (resume (app st)) (log st) in
      match next (app st) with
      | Done o => settle name o st'
      | c' => (Pending c', st')
      end
  end.

Definition advance_nth (i : nat) (ts : list task) (st : state) : list task * state :=
  match ts !! i with
  | Some (name, Pending c) =>
      let '(t', st') := advance name c st in
      (<[i := (name, t')]> ts, st')
  | _ => (ts, st)
  end.

Definition settled (t : task) : bool :=
  match snd t with Finished _ => true | Pending _ => false end.

(** The exceptions a task does not keep to itself: asyncio stores
    [SystemExit] and [KeyboardInterrupt] in the task and raises them again,
    out of the event loop, which stops running. *)
Definition stops_loop (e : exn) : bool :=
  match e with
  | OtherError class_name false =>
      String.eqb class_name "SystemExit" || String.eqb class_name "KeyboardInterrupt"
  | _ => false
  end.

(** A task that has ended in such an exception. *)
Definition stopped (t : task) : bool :=
  match snd t with
  | Finished (Raised e) => stops_loop e
  | _ => false
  end.

(** [await asyncio.wait(tasks)], as asyncio runs it when handed coroutines
    (up to Python 3.10): each coroutine becomes a task, the event loop runs
    the tasks in the order [schedule] names them, and the wait returns as
    soon as all are done; the exception of a cancelled task stays in the
    task.  [None]: the wait does not return, because the schedule ends with
    the wait still pending or because a task has ended in an exception that
    stops the event loop, after which no task is run. *)
Fixpoint wait (schedule : list nat) (ts : list task) (st : state)
    : option (list task * state) :=
  if existsb stopped ts then None
  else if forallb settled ts then Some (ts, st)
  else
    match schedule with
    | [] => None
    | i :: schedule' =>
        let '(ts', st') := advance_nth i ts st in
        wait schedule' ts' st'
    end.

Definition tasks_of (hooks : list Hook) (event : Event) : list task :=
  (fun h => (__name__ h, Pending (call h event))) <$> hooks.

(** [Client._dispatch_event] *)
Definition _dispatch_event (hooks : registry) (event : Event)
    (schedule : list nat) (st : state) : option (result unit * state) :=
  let generic_hooks := hooks_for hooks "Generic" in
  let targeted_hooks := hooks_for hooks (event_class_name event) in
  match generic_hooks, targeted_hooks with
  | [], [] => Some (Ok tt, st)
  | _, _ =>
      let tasks := tasks_of (generic_hooks ++ targeted_hooks) event in
      match wait schedule tasks st with
      | Some (_, st') =>
          Some (Ok tt, mk_state (app st') (log st' ++ [dispatched_debug event]))
      | None => None
      end
  end.

(** The outcomes a coroutine can end with, over all the states it may be
    resumed in. *)
Inductive runs_to : coro -> outcome -> Prop :=
| runs_done o : runs_to (Done o) o
| runs_susp resume next a o : runs_to (next a) o -> runs_to (Susp resume next) o.

End Dispatch.

Arguments Done {App} o.
Arguments Susp {App} resume next.
Arguments Pending {App} c.
Arguments Finished {App} o.
Arguments mk_hook {App} hook_id __name__ call.
Arguments hook_id {App} h.
Arguments __name__ {App} h.
Arguments call {App} h e.
Arguments mk_state {App} app log.
Arguments app {App} s.
Arguments log {App} s.
Arguments hooks_for {App} hooks key.
Arguments add_event_hook {App} hooks hook.
Arguments settle {App} name o st.
Arguments advance {App} name c st.
Arguments advance_nth {App} i ts st.
Arguments settled {App} t.
Arguments stopped {App} t.
Arguments wait {App} schedule ts st.
Arguments tasks_of {App} hooks event.
Arguments _dispatch_event {App} hooks event schedule st.
Arguments runs_to {App} c o.
Arguments runs_done {App} o.
Arguments runs_susp {App} resume next a o.

End Hooks.

(** ** [src/pylav/query.py]: search queries *)

Module Query.

Record t : Type := mk {
  _query : string;
  source : string;
  _search : bool;
  start_time : Z;
  index : Z;
  _type : option string
}.

(** [Query.__init__]; the callers below pass the defaults ([search=False],
    [start_time=0], [index=0], [query_type=None]) explicitly. *)
Definition __init__ (query source : string) (search : bool)
    (start_time index : Z) (query_type : option string) : t :=
  mk query source search start_time index query_type.

Definition is_spotify (self : t) : bool := String.eqb (source self) "spotify".
Definition is_apple_music (self : t) : bool := String.eqb (source self) "applemusic".
Definition is_youtube (self : t) : bool := String.eqb (source self) "youtube".
Definition is_soundcloud (self : t) : bool := String.eqb (source self) "soundcloud".
Definition is_search (self : t) : bool := _search self.
Definition is_gctts (self : t) : bool := String.eqb (source self) "gctts".
Definition is_tts (self : t) : bool :=
  String.eqb (source self) "tts" || is_gctts self.

Definition query_string (self : t) : string :=
  if is_search self then
    if is_youtube self then "ytmsearch:" +:+ _query self
    else if is_spotify self then "spsearch:" +:+ _query self
    else if is_apple_music self then "amsearch:" +:+ _query self
    else if is_soundcloud self then "scsearch:" +:+ _query self
    else if is_tts self then
      if is_gctts self then "tts://" +:+ _query self
      else "speak:" +:+ _query self
    else "ytsearch:" +:+ _query self
  else _query self.

(** What is left of [s] after the literal [p], when [s] starts with it. *)
Fixpoint strip_prefix (p s : string) : option string :=
  match p, s with
  | EmptyString, _ => Some s
  | String a p', String b s' => if Ascii.eqb a b then strip_prefix p' s' else None
  | String _ _, EmptyString => None
  end.

Definition line_feed : Ascii.ascii := Ascii.ascii_of_nat 10.

(** What the tail of the pattern, any characters and then [$], accepts up
    to the end of the text: [.] matches every character but the line feed,
    and [$] the end of the text or the place just before a line feed that
    ends it. *)
Fixpoint single_line (s : string) : bool :=
  match s with
  | EmptyString => true
  | String c rest =>
      if Ascii.eqb c line_feed then String.eqb rest EmptyString
      else single_line rest
  end.

(** One alternative of [SEARCH_REGEX]: the text is [source], then
    [search:], then a single line. *)
Definition search_alternative (src query : string) : bool :=
  match strip_prefix (src +:+ "search:") query with
  | Some rest => single_line rest
  | None => false
  end.

(** [re.match(SEARCH_REGEX, query)], the pattern being the group [source]
    with the alternatives [yt|ytm|sp|sc|am], then [search:], then any
    characters up to [$]: the group [source] of the match, the alternatives
    being tried from left to right. *)
Definition SEARCH_REGEX (query : string) : option string :=
  List.find (fun src => search_alternative src query) ["yt"; "ytm"; "sp"; "sc"; "am"].

(** [Query.__process_search] *)
Definition __process_search (query : string) : option t :=
  match SEARCH_REGEX query with
  | Some src =>
      if String.eqb src "ytm" then Some (__init__ query "youtube" true 0 0 None)
      else if String.eqb src "sp" then Some (__init__ query "spotify" true 0 0 None)
      else if String.eqb src "sc" then Some (__init__ query "soundcloud" true 0 0 None)
      else if String.eqb src "am" then Some (__init__ query "applemusic" true 0 0 None)
      else Some (__init__ query "youtube" true 0 0 None)
  | None => None
  end.

End Query.

(** ** [src/pylav/extension/radio/base_url.py] *)

Module RadioBrowser.

Definition LOGGER : string := "PyLav.extension.RadioBrowser".

Inductive severity : Type := Warning | Verbose | Error.

Record record : Type := mk_record {
  lvl : severity;
  format : string;
  args : list string
}.

(** [", ".join(servers)] *)
Fixpoint join (sep : string) (l : list string) : string :=
  match l with
  | [] => EmptyString
  | [s] => s
  | s :: rest => s +:+ sep +:+ join sep rest
  end.

Section Pick.

(** The outcome of [await fetch_servers()]: the names of the servers, in
    the order the set is iterated in, or the exception that escapes it. *)
Variable fetch_servers : result (list string).

(** The outcome of [session.get(url)]: the status of the response, or the
    exception raised inside the [async with]. *)
Variable get : string -> result Z.

(** The [for host in servers] loop: [contextlib.suppress(Exception)] lets
    the loop go on after an exception that derives from [Exception]. *)
Fixpoint try_hosts (hosts : list string) (log : list record)
    : result (option string) * list record :=
  match hosts with
  | [] => (Ok None, log)
  | host :: rest =>
      match get ("https://" +:+ host +:+ "/json/stats") with
      | Ok status =>
          if status =? 200 then (Ok (Some ("https://" +:+ host)), log)
          else
            try_hosts rest
              (log ++ [mk_record Verbose "Error interacting with %s: %s"
                         [host; pretty status]])
      | Raise e =>
          if derives_Exception e then try_hosts rest log else (Raise e, log)
      end
  end.

Definition pick_base_url : result (option string) * list record :=
  match fetch_servers with
  | Raise e => (Raise e, [])
  | Ok [] =>
      (Ok None,
       [mk_record Warning
          "RadioBrowser API seems to be down at the moment, disabling Radio functionality."
          []])
  | Ok servers =>
      match try_hosts servers [] with
      | (Ok None, log) =>
          (Ok None,
           log ++ [mk_record Error
                     "All the following hosts for the RadioBrowser API are broken: %s"
                     [join ", " servers]])
      | r => r
      end
  end.

End Pick.

End RadioBrowser.

(** ** Notions used to state the properties *)

(** The world after the check for search-only nodes found none. *)
Definition after_warning (w : World) : World :=
  if warned_about_no_search_nodes w then w
  else set_warned true (add_effect Client.no_search_nodes_warning w).

Definition search_only_call (c : string * option Node.t * bool) : Client.action :=
  let '(query, node, first) := c in Client.GetTracks query node true first.

Section HookNotions.

Import Hooks.

Context {App : Type}.

(** What [_hook_wrapper] turns the hook's outcome into, and what it logs. *)
Definition wrapped (o : outcome) : outcome :=
  match o with
  | Returned => Returned
  | Raised e => if derives_Exception e then Returned else Raised e
  end.

Definition settle_log (name : string) (o : outcome) : list effect :=
  match o with
  | Returned => []
  | Raised e =>
      if derives_Exception e then [hook_warning name; hook_debug name] else []
  end.

(** A task of the dispatch belongs to its hook: it is still inside the
    hook's coroutine, or it has finished with the wrapped outcome of that
    coroutine and has logged what the wrapper logs. *)
Definition task_ok (event : Event) (st : state App) (h : Hook App)
    (t : task App) : Prop :=
  fst t = __name__ h
  /\ match snd t with
     | Pending c => forall o, runs_to c o -> runs_to (call h event) o
     | Finished o' =>
         exists o, runs_to (call h event) o
                   /\ o' = wrapped o
                   /\ forall x, x ∈ settle_log (__name__ h) o -> x ∈ log st
     end.




End HookNotions.

(** ** Sample inputs *)

(** A double power that is right where the exponent is zero ([x ** 0.0] is
    [1.0] for every [x]) and gives up elsewhere; enough to run the penalty
    of an idle node. *)
Definition pow_at_zero (x y : float) : result float :=
  if (y =? 0)%float then Ok 1%float else Raise OverflowError.

Definition idle_report : list (string * pyval) :=
  [("uptime", PyInt 1000); ("players", PyInt 3); ("playingPlayers", PyInt 2);
   ("memory", PyDict [("free", PyInt 10); ("used", PyInt 20);
                      ("allocated", PyInt 30); ("reservable", PyInt 40)]);
   ("cpu", PyDict [("cores", PyInt 4); ("systemLoad", PyFloat 0);
                   ("lavalinkLoad", PyFloat 0)])].

Definition idle_slots : Stats.slots :=
  Stats.mk_slots (PyInt 1000) (PyInt 3) (PyInt 2) (PyInt 10) (PyInt 20)
    (PyInt 30) (PyInt 40) (PyInt 4) (PyFloat 0) (PyFloat 0)
    (PyInt (-1)) (PyInt (-1)) (PyInt (-1)).

Definition idle_penalty : Penalty.t :=
  Penalty.mk (PyInt 2) (PyFloat 0) (PyInt 0) (PyInt 0) (PyFloat 2).

Definition fresh_node : Node.t :=
  Node.__init__ "lava.example" "youshallnotpass" "eu" None 60 (Some 2333) None 3
    false false.

Definition ready_node : Node.t :=
  Node.mk false 2333 "lava.example" "youshallnotpass" "eu" "eu-lava.example:2333"
    None 60 3 false (Some (Stats.mk idle_slots idle_penalty))
    (WebSocket.set_state (Node._ws fresh_node) WebSocket.Connected 0).

(** A second connected node, which has not reported stats yet. *)
Definition second_node : Node.t :=
  Node.mk false 2334 "lava2.example" "youshallnotpass" "us" "us-lava2.example:2334"
    None 60 3 false None
    (WebSocket.set_state (Node._ws fresh_node) WebSocket.Connected 0).

(** Bodies of [/loadtracks] answers, and sessions that answer every request
    alike. *)
Definition one_track_body : pyval :=
  PyDict [("loadType", PyStr "TRACK_LOADED");
          ("tracks", PyList [PyDict [("track", PyStr "QAAAjQIAJVJpY2sgQXN0bGV5")]])].

Definition no_matches_body : pyval :=
  PyDict [("loadType", PyStr "NO_MATCHES"); ("tracks", PyList [])].

Definition one_track_session (_ : Node.Request) : Node.Response :=
  Node.mk_response 200 (Ok one_track_body).

Definition no_matches_session (_ : Node.Request) : Node.Response :=
  Node.mk_response 200 (Ok no_matches_body).

Definition forbidden_session (_ : Node.Request) : Node.Response :=
  Node.mk_response 403 (Ok (PyDict [("error", PyStr "Forbidden")])).

Definition unavailable_session (_ : Node.Request) : Node.Response :=
  Node.mk_response 503 (Ok PyNone).

(** A client whose only node has not connected yet. *)
Definition lonely_world : World :=
  set_node_manager (NodeManager.mk [fresh_node]) (Client.__init__ false []).

(** Two connected general nodes and no search-only node. *)
Definition two_node_world : World :=
  set_node_manager (NodeManager.mk [ready_node; second_node])
    (Client.__init__ false [5; 2]%nat).

(** A registry with one player, in guild 42 and channel 7, on a node that
    is gone. *)
Definition orphan_player : Player.t :=
  Player.mk 42 7 None None true false false true.

Definition one_player_world : World :=
  set_next_ref 2%positive
    (set_players {[ 42 := 1%positive ]}
       (set_object 1%positive orphan_player two_node_world)).

Definition no_region (_ : option string) : string := EmptyString.
Definition no_best_node (_ : NodeManager.t) (_ : string) : option Node.t := None.

(** One hook that raises and one that counts, on an application whose state
    is a counter. *)
Definition raising_hook : Hooks.Hook nat :=
  Hooks.mk_hook 1 "on_track_start"
    (fun _ => Hooks.Susp (fun a => a)
                (fun _ => Hooks.Done (Hooks.Raised (OtherError "ValueError" true)))).

Definition counting_hook : Hooks.Hook nat :=
  Hooks.mk_hook 2 "count_events"
    (fun _ => Hooks.Susp S (fun _ => Hooks.Susp S (fun _ => Hooks.Done Hooks.Returned))).

Definition two_hooks : Hooks.registry nat :=
  <["TrackStartEvent" := [counting_hook]]>
    (Hooks.add_event_hook (Hooks.add_event_hook ∅ raising_hook) raising_hook).

Definition track_start : Event := OtherEvent "TrackStartEvent".

(** A node that reports its frame counters, all of them zero. *)
Definition zero_frames_slots : Stats.slots :=
  Stats.mk_slots (PyInt 1000) (PyInt 3) (PyInt 2) (PyInt 10) (PyInt 20)
    (PyInt 30) (PyInt 40) (PyInt 4) (PyFloat 0) (PyFloat 0)
    (PyInt 0) (PyInt 0) (PyInt 0).

(** Slots as [Stats.__init__] leaves them when the report carries
    [null] where a number is expected. *)
Definition null_load_slots : Stats.slots :=
  Stats.mk_slots (PyInt 1000) (PyInt 3) (PyInt 2) (PyInt 10) (PyInt 20)
    (PyInt 30) (PyInt 40) (PyInt 4) PyNone (PyFloat 0)
    (PyInt (-1)) (PyInt (-1)) (PyInt (-1)).

Definition null_counter_slots : Stats.slots :=
  Stats.mk_slots (PyInt 1000) (PyInt 3) (PyInt 2) (PyInt 10) (PyInt 20)
    (PyInt 30) (PyInt 40) (PyInt 4) (PyFloat 0) (PyFloat 0)
    (PyInt (-1)) PyNone (PyInt (-1)).

Definition null_deficit_slots : Stats.slots :=
  Stats.mk_slots (PyInt 1000) (PyInt 3) (PyInt 2) (PyInt 10) (PyInt 20)
    (PyInt 30) (PyInt 40) (PyInt 4) (PyFloat 0) (PyFloat 0)
    (PyInt 6000) (PyInt 0) PyNone.

Definition null_players_slots : Stats.slots :=
  Stats.mk_slots (PyInt 1000) (PyInt 3) PyNone (PyInt 10) (PyInt 20)
    (PyInt 30) (PyInt 40) (PyInt 4) (PyFloat 0) (PyFloat 0)
    (PyInt 6000) (PyInt 0) (PyInt 0).

(** A report whose [frameStats] block carries one counter only. *)
Definition partial_frames_report : list (string * pyval) :=
  idle_report ++ [("frameStats", PyDict [("sent", PyInt 6000)])].

(** A report whose [frameStats] is [null]. *)
Definition null_frames_report : list (string * pyval) :=
  idle_report ++ [("frameStats", PyNone)].

(** [/loadtracks] answers with status 200 whose body is not the object the
    code expects, or whose ["tracks"] is not a list. *)
Definition list_body_session (_ : Node.Request) : Node.Response :=
  Node.mk_response 200 (Ok (PyList [PyStr "QAAAjQIAJVJpY2sgQXN0bGV5"])).

Definition null_tracks_session (_ : Node.Request) : Node.Response :=
  Node.mk_response 200
    (Ok (PyDict [("loadType", PyStr "LOAD_FAILED"); ("tracks", PyNone)])).

(** POST requests that are answered with 204, answered with 403, and not
    answered in time. *)
Definition no_content_post (_ : Node.Request) : result Node.Response :=
  Ok (Node.mk_response 204 (Ok PyNone)).

Definition forbidden_post (_ : Node.Request) : result Node.Response :=
  Ok (Node.mk_response 403 (Ok (PyDict [("error", PyStr "Forbidden")]))).

Definition timed_out_post (_ : Node.Request) : result Node.Response :=
  Raise (OtherError "TimeoutError" true).

Section HookRecords.

Import Hooks.

Context {App : Type}.

(** A record the wrapper of one of the hooks [hs] writes: the warning or
    the debug record under the name of a hook whose coroutine has ended in an
    exception that derives from [Exception]. *)
Definition raised_record (event : Event) (hs : list (Hook App)) (x : effect) : Prop :=
  exists (h : Hook App) (e : exn),
    h ∈ hs
    /\ runs_to (call h event) (Raised e)
    /\ derives_Exception e = true
    /\ (x = hook_warning (__name__ h) \/ x = hook_debug (__name__ h)).

End HookRecords.

(** A registry whose only hook counts the track-start events. *)
Definition counting_only : Hooks.registry nat :=
  <["TrackStartEvent" := [counting_hook]]> ∅.

(** The node [create] settles on: the one given, or else the best node of
    the region the endpoint belongs to. *)
Definition chosen_node (get_region : option string -> string)
    (find_best_node : NodeManager.t -> string -> option Node.t)
    (endpoint : option string) (node : option Node.t) (w : World) : option Node.t :=
  match node with
  | Some n => Some n
  | None => find_best_node (node_manager w) (get_region endpoint)
  end.

(** A player of guild 42 on the first node, and a registry that holds it. *)
Definition hosted_player : Player.t :=
  Player.mk 42 7 (Some ready_node) None true true false false.

Definition hosted_world : World :=
  set_next_ref 2%positive
    (set_players {[ 42 := 1%positive ]}
       (set_object 1%positive hosted_player two_node_world)).


(** A double power that is right at the two points the samples below need:
    [x ** 0.0] is [1.0] for every [x], and [1.05 ** 50.0] is the double
    CPython computes, [11.4673997857537]; it gives up elsewhere. *)
Definition pow_sample (x y : float) : result float :=
  if (y =? 0)%float then Ok 1%float
  else if (x =? 1.05)%float && (y =? 50)%float then Ok 0x1.6ef4f0653f069p+3%float
  else Raise OverflowError.

(** A node at half load with two playing players, reporting no frame
    counters. *)
Definition busy_report : list (string * pyval) :=
  [("uptime", PyInt 1000); ("players", PyInt 3); ("playingPlayers", PyInt 2);
   ("memory", PyDict [("free", PyInt 10); ("used", PyInt 20);
                      ("allocated", PyInt 30); ("reservable", PyInt 40)]);
   ("cpu", PyDict [("cores", PyInt 4); ("systemLoad", PyFloat 0.5);
                   ("lavalinkLoad", PyFloat 0.25)])].

Definition busy_slots : Stats.slots :=
  Stats.mk_slots (PyInt 1000) (PyInt 3) (PyInt 2) (PyInt 10) (PyInt 20)
    (PyInt 30) (PyInt 40) (PyInt 4) (PyFloat 0.5) (PyFloat 0.25)
    (PyInt (-1)) (PyInt (-1)) (PyInt (-1)).

(** Its penalty: [1.05 ** 50.0 * 10 - 10] is [104.673997857537] and the
    total [106.673997857537]. *)
Definition busy_penalty : Penalty.t :=
  Penalty.mk (PyInt 2) (PyFloat 0x1.a2b22c7e8ec83p+6) (PyInt 0) (PyInt 0)
    (PyFloat 0x1.aab22c7e8ec83p+6).

(** A node with ten thousand billion billion billion playing players: its
    total is the double [1e31]. *)
Definition crowded_report : list (string * pyval) :=
  [("uptime", PyInt 1000); ("players", PyInt 10000000000000000000000000000000);
   ("playingPlayers", PyInt 10000000000000000000000000000000);
   ("memory", PyDict [("free", PyInt 10); ("used", PyInt 20);
                      ("allocated", PyInt 30); ("reservable", PyInt 40)]);
   ("cpu", PyDict [("cores", PyInt 4); ("systemLoad", PyFloat 0);
                   ("lavalinkLoad", PyFloat 0)])].

Definition crowded_slots : Stats.slots :=
  Stats.mk_slots (PyInt 1000) (PyInt 10000000000000000000000000000000)
    (PyInt 10000000000000000000000000000000) (PyInt 10) (PyInt 20)
    (PyInt 30) (PyInt 40) (PyInt 4) (PyFloat 0) (PyFloat 0)
    (PyInt (-1)) (PyInt (-1)) (PyInt (-1)).

Definition crowded_penalty : Penalty.t :=
  Penalty.mk (PyInt 10000000000000000000000000000000) (PyFloat 0) (PyInt 0)
    (PyInt 0) (PyFloat 1e31).

Definition crowded_node : Node.t :=
  Node.mk false 2333 "lava.example" "youshallnotpass" "eu" "eu-lava.example:2333"
    None 60 3 false (Some (Stats.mk crowded_slots crowded_penalty))
    (WebSocket.set_state (Node._ws fresh_node) WebSocket.Connected 0).

(** A search-only node that has not connected, and a session that answers
    every request with the address it was sent to. *)
Definition offline_search_node : Node.t :=
  Node.__init__ "search.example" "youshallnotpass" "eu" None 60 (Some 2333) None 3
    false true.

Definition echo_session (r : Node.Request) : Node.Response :=
  Node.mk_response 200 (Ok (PyStr (Node.destination r))).




(** * Properties *)

(** ** Sanity checks of the arithmetic against CPython's results *)

Example int_to_float_ties_even :
  int_to_float (2 ^ 53 + 1) = Ok (0x1p+53)%float
  /\ int_to_float (2 ^ 53 + 3) = Ok (0x1.0000000000002p+53)%float
  /\ int_to_float (10 ^ 30) = Ok (0x1.93e5939a08ceap+99)%float
  /\ int_to_float (10 ^ 400) = Raise OverflowError
  /\ int_to_float 0 = Ok 0%float.
Proof. repeat split; vm_compute; reflexivity. Qed.

Example int_truediv_rounds :
  int_truediv 1 3000 = Ok (0x1.5d867c3ece2a5p-12)%float
  /\ int_truediv 7 3000 = Ok (0x1.31d5acb6f4651p-9)%float
  /\ int_truediv (-1) 3000 = Ok (-0x1.5d867c3ece2a5p-12)%float
  /\ int_truediv 3000 3000 = Ok 1%float
  /\ int_truediv (2 ^ 70 + 1) 3 = Ok (0x1.5555555555555p+68)%float
  /\ int_truediv 3 (2 ^ 1075) = Ok (0x0.0000000000002p-1022)%float
  /\ int_truediv 1 (2 ^ 1075) = Ok 0%float
  /\ int_truediv (10 ^ 400) (10 ^ 399) = Ok 10%float
  /\ int_truediv (10 ^ 400) 3 = Raise OverflowError
  /\ int_truediv 0 (-3) = Ok neg_zero
  /\ int_truediv 1 0 = Raise ZeroDivisionError.
Proof. repeat split; vm_compute; reflexivity. Qed.

Example py_eq_int_exact :
  py_eq_int (PyFloat (-1)%float) (-1) = true
  /\ py_eq_int (PyInt (-1)) (-1) = true
  /\ py_eq_int (PyFloat (0x1p+53)%float) (2 ^ 53 + 1) = false
  /\ py_eq_int (PyFloat (-0.5)%float) (-1) = false
  /\ py_eq_int (PyStr "-1") (-1) = false
  /\ py_eq_int PyNone (-1) = false.
Proof. repeat split; vm_compute; reflexivity. Qed.

(** ** Penalties ([Penalty.__init__], [Stats.__init__], [Node.penalty]) *)

Section FloatZero.

(** Adding [0.0] changes a double only when it is the negative zero. *)
Lemma float_add_zero (x : float) :
  Prim2SF x <> S754_zero true -> (x + 0)%float = x.
Proof.
  intros Hx. apply Prim2SF_inj. rewrite add_spec.
  change (Prim2SF 0%float) with (S754_zero false).
  destruct (Prim2SF x) as [[]|[]| |s m e]; try reflexivity.
  now contradict Hx.
Qed.

(** *** Sums and differences of doubles are never a spurious negative zero *)

Lemma digits2_pos_bounds (p : positive) :
  2 ^ (Z.pos (digits2_pos p) - 1) <= Z.pos p < 2 ^ Z.pos (digits2_pos p).
Proof.
  induction p as [p IH|p IH|]; cbn [digits2_pos].
  - rewrite Pos2Z.inj_succ. replace (Z.succ (Z.pos (digits2_pos p)) - 1) with (Z.succ (Z.pos (digits2_pos p) - 1)) by lia.
    rewrite !Z.pow_succ_r by lia. lia.
  - rewrite Pos2Z.inj_succ. replace (Z.succ (Z.pos (digits2_pos p)) - 1) with (Z.succ (Z.pos (digits2_pos p) - 1)) by lia.
    rewrite !Z.pow_succ_r by lia. lia.
  - cbn. lia.
Qed.

Lemma shr_1_m (r : shr_record) :
  0 <= shr_m r -> shr_m (shr_1 r) = shr_m r / 2.
Proof.
  destruct r as [m b s]. cbn [shr_m]. intros Hm.
  destruct m as [|[p|p|]|p]; cbn [shr_1 shr_m]; try lia.
  - reflexivity.
  - rewrite Pos2Z.inj_xI. apply Z.div_unique with (r := 1); lia.
  - rewrite Pos2Z.inj_xO. apply Z.div_unique with (r := 0); lia.
  - reflexivity.
Qed.

Lemma shr_iter_m (p : positive) : forall r : shr_record,
  0 <= shr_m r -> shr_m (SpecFloat.iter_pos shr_1 p r) = shr_m r / 2 ^ Z.pos p.
Proof.
  induction p as [p IH|p IH|]; intros r Hr; cbn [SpecFloat.iter_pos].
  - assert (H1 : 0 <= shr_m (shr_1 r)) by (rewrite shr_1_m by lia; apply Z.div_pos; lia).
    assert (H2 : 0 <= shr_m (SpecFloat.iter_pos shr_1 p (shr_1 r)))
      by (rewrite IH by lia; apply Z.div_pos; lia).
    rewrite IH, IH, shr_1_m by lia.
    rewrite !Z.div_div by lia.
    f_equal. replace (Z.pos p~1) with (1 + Z.pos p + Z.pos p) by lia.
    rewrite !Z.pow_add_r by lia. lia.
  - assert (H2 : 0 <= shr_m (SpecFloat.iter_pos shr_1 p r))
      by (rewrite IH by lia; apply Z.div_pos; lia).
    rewrite IH, IH by lia.
    rewrite !Z.div_div by lia.
    f_equal. replace (Z.pos p~0) with (Z.pos p + Z.pos p) by lia.
    rewrite !Z.pow_add_r by lia. lia.
  - rewrite shr_1_m by lia. reflexivity.
Qed.

Lemma shr_record_of_loc_m (m : Z) (l : location) :
  shr_m (shr_record_of_loc m l) = m.
Proof. destruct l as [|[]]; reflexivity. Qed.

Lemma shr_fexp_pos (m e : Z) (l : location) :
  0 < m -> emin <= e ->
  0 < shr_m (fst (shr_fexp prec emax m e l))
  /\ emin <= snd (shr_fexp prec emax m e l).
Proof.
  intros Hm He. unfold shr_fexp, shr.
  destruct m as [|p|p]; try lia. cbn [Zdigits2].
  pose proof (digits2_pos_bounds p) as [Hlo _].
  set (d := Z.pos (digits2_pos p)) in *.
  assert (Hd : 1 <= d) by (unfold d; lia).
  assert (Hn : fexp prec emax (d + e) - e <= d - 1).
  { unfold fexp. change prec with 53 in *. change emin with (-1074) in *. lia. }
  destruct (fexp prec emax (d + e) - e) as [|n|n] eqn:En; cbn [fst snd];
    rewrite ?shr_record_of_loc_m; try (split; lia).
  rewrite shr_iter_m by (rewrite shr_record_of_loc_m; lia).
  rewrite shr_record_of_loc_m. split; [|lia].
  apply Z.div_str_pos. split; [apply Z.pow_pos_nonneg; lia|].
  etransitivity; [|exact Hlo]. apply Z.pow_le_mono_r; lia.
Qed.

Lemma round_nearest_even_pos (m : Z) (l : location) :
  0 < m -> 0 < round_nearest_even m l.
Proof.
  intros Hm. destruct l as [|[]]; cbn [round_nearest_even]; try lia.
  destruct (Z.even m); lia.
Qed.

(** Rounding a non-zero value whose exponent is at least [emin] never gives
    a zero: the sum of two doubles does not underflow. *)
Lemma binary_round_aux_nonzero (sx s : bool) (mx ex : Z) (lx : location) :
  0 < mx -> emin <= ex ->
  binary_round_aux prec emax sx mx ex lx <> S754_zero s.
Proof.
  intros Hm He. unfold binary_round_aux.
  destruct (shr_fexp_pos mx ex lx Hm He) as [H1 H1e].
  destruct (shr_fexp prec emax mx ex lx) as [mrs1 e1]. cbn [fst snd] in *.
  pose proof (round_nearest_even_pos (shr_m mrs1) (loc_of_shr_record mrs1) H1) as H2.
  destruct (shr_fexp_pos _ e1 loc_Exact H2 H1e) as [H3 _].
  destruct (shr_fexp prec emax _ e1 loc_Exact) as [mrs2 e2]. cbn [fst snd] in *.
  destruct (shr_m mrs2) as [|m|m]; try lia.
  destruct (e2 <=? emax - prec); discriminate.
Qed.

Lemma binary_round_nonzero (sx s : bool) (mx : positive) (ex : Z) :
  emin <= ex -> binary_round prec emax sx mx ex <> S754_zero s.
Proof.
  intros He. unfold binary_round, shl_align.
  set (e := fexp prec emax (Z.pos (digits2_pos mx) + ex)).
  assert (He' : emin <= e) by (unfold e, fexp; lia).
  destruct (e - ex); apply binary_round_aux_nonzero; lia.
Qed.

Lemma binary_normalize_not_neg_zero (m e : Z) :
  emin <= e -> binary_normalize prec emax m e false <> S754_zero true.
Proof.
  intros He. destruct m as [|p|p]; cbn [binary_normalize].
  - discriminate.
  - now apply binary_round_nonzero.
  - now apply binary_round_nonzero.
Qed.

Lemma valid_exponent (s : bool) (m : positive) (e : Z) :
  valid_binary (S754_finite s m e) = true -> emin <= e.
Proof.
  unfold SpecFloat.valid_binary, bounded, canonical_mantissa.
  intros H. apply andb_prop in H as [H _]. apply Z.eqb_eq in H.
  unfold fexp in H. lia.
Qed.

Lemma finite_exponent (x : float) (s : bool) (m : positive) (e : Z) :
  Prim2SF x = S754_finite s m e -> emin <= e.
Proof.
  intros Hx. apply (valid_exponent s m). rewrite <- Hx. apply Prim2SF_valid.
Qed.

(** A sum of doubles is the negative zero only when both terms are. *)
Lemma float_add_neg_zero (x y : float) :
  Prim2SF (x + y)%float = S754_zero true ->
  Prim2SF x = S754_zero true /\ Prim2SF y = S754_zero true.
Proof.
  rewrite add_spec. unfold SF64add, SFadd.
  destruct (Prim2SF x) as [[]|[]| |sx mx ex] eqn:Hx;
    destruct (Prim2SF y) as [[]|[]| |sy my ey] eqn:Hy;
    try discriminate; try (intros _; split; reflexivity).
  intros H. exfalso. revert H. apply binary_normalize_not_neg_zero.
  apply finite_exponent in Hx, Hy. lia.
Qed.

(** A difference of doubles is the negative zero only for [-0.0 - 0.0]. *)
Lemma float_sub_neg_zero (x y : float) :
  Prim2SF (x - y)%float = S754_zero true ->
  Prim2SF x = S754_zero true /\ Prim2SF y = S754_zero false.
Proof.
  rewrite sub_spec. unfold SF64sub, SFsub.
  destruct (Prim2SF x) as [[]|[]| |sx mx ex] eqn:Hx;
    destruct (Prim2SF y) as [[]|[]| |sy my ey] eqn:Hy;
    try discriminate; try (intros _; split; reflexivity).
  intros H. exfalso. revert H. apply binary_normalize_not_neg_zero.
  apply finite_exponent in Hx, Hy. lia.
Qed.

End FloatZero.

(** Inversion of the error monad. *)
Lemma bind_ok {A B} (m : result A) (k : A -> result B) (b : B) :
  (m ≫= k) = Ok b -> exists a, m = Ok a /\ k a = Ok b.
Proof. destruct m as [a|e]; [eauto | discriminate]. Qed.

Lemma fmap_ok {A B} (f : A -> B) (m : result A) (b : B) :
  f <$> m = Ok b -> exists a, m = Ok a /\ b = f a.
Proof.
  destruct m as [a|e]; cbn; [|discriminate].
  intros [= <-]. eauto.
Qed.

Ltac inv_ok :=
  repeat match goal with
  | H : Ok _ = Ok _ |- _ => injection H as H; subst
  | H : Raise _ = Ok _ |- _ => discriminate H
  | H : to_float (inr _) = Ok _ |- _ => cbn [to_float] in H
  | H : (_ ≫= _) = Ok _ |- _ =>
      let a := fresh "a" in let Ha := fresh "Ha" in
      apply bind_ok in H as (a & Ha & H)
  | H : (_ <$> _) = Ok _ |- _ =>
      let a := fresh "a" in let Ha := fresh "Ha" in
      apply fmap_ok in H as (a & Ha & H)
  end.

Section PenaltyFacts.

Variable float_pow : float -> float -> result float.

Lemma py_add_float_zero (x : float) :
  py_add (PyFloat x) (PyInt 0) = Ok (PyFloat (x + 0)%float).
Proof. reflexivity. Qed.

Lemma py_mul_float_l (f : float) (b r : pyval) :
  py_mul (PyFloat f) b = Ok r -> exists x, r = PyFloat x.
Proof.
  unfold py_mul. change (as_number (PyFloat f)) with (Some (@inr Z _ f)).
  destruct (as_number b) as [[z|g]|]; intros H; inv_ok; eauto.
Qed.

Lemma py_pow_float_l (f : float) (b r : pyval) :
  py_pow float_pow (PyFloat f) b = Ok r -> exists x, r = PyFloat x.
Proof.
  unfold py_pow. change (as_number (PyFloat f)) with (Some (@inr Z _ f)).
  destruct (as_number b) as [[z|g]|]; intros H; inv_ok; eauto.
Qed.

(** With both frame counters at [-1] the constructor computes the CPU
    penalty, adds it to the playing-player count and adds the integer zero
    twice. *)
Lemma Penalty_init_no_frames (stats : Stats.slots) :
  py_eq_int (Stats.frames_nulled stats) (-1) = true ->
  py_eq_int (Stats.frames_deficit stats) (-1) = true ->
  Penalty__init__ float_pow stats =
    (cpu ← cpu_penalty_of float_pow stats;
     s ← py_add (Stats.playing_players stats) cpu;
     s1 ← py_add s (PyInt 0);
     total ← py_add s1 (PyInt 0);
     Ok (Penalty.mk (Stats.playing_players stats) cpu (PyInt 0) (PyInt 0) total)).
Proof.
  intros Hn Hd. unfold Penalty__init__, py_ne_int. rewrite Hn, Hd. reflexivity.
Qed.

End PenaltyFacts.

Section PenaltyTotal.

Variable float_pow : float -> float -> result float.

(** The CPU penalty ends in [... - 10], which is never the negative zero. *)
Lemma cpu_penalty_not_neg_zero (stats : Stats.slots) (c : pyval) :
  cpu_penalty_of float_pow stats = Ok c ->
  exists x, c = PyFloat x /\ Prim2SF x <> S754_zero true.
Proof.
  unfold cpu_penalty_of. intros H.
  apply bind_ok in H as (e & _ & H).
  apply bind_ok in H as (p & Hp & H).
  apply bind_ok in H as (m & Hm & H).
  apply py_pow_float_l in Hp as (x & ->).
  apply py_mul_float_l in Hm as (y & ->).
  change (py_sub (PyFloat y) (PyInt 10)) with (Ok (PyFloat (y - 10)%float)) in H.
  injection H as <-. eexists; split; [reflexivity|].
  intros Hz. apply float_sub_neg_zero in Hz as [_ Hz]. discriminate Hz.
Qed.

(** Adding the players to a CPU penalty gives a double that the two integer
    zeros leave as it is. *)
Lemma sum_plus_zeros (a : pyval) (x : float) (s : pyval) :
  Prim2SF x <> S754_zero true ->
  py_add a (PyFloat x) = Ok s ->
  (s1 ← py_add s (PyInt 0); py_add s1 (PyInt 0)) = Ok s.
Proof.
  intros Hx Hs.
  assert (exists u, s = PyFloat u /\ Prim2SF u <> S754_zero true) as (u & -> & Hu).
  { revert Hs. unfold py_add.
    change (as_number (PyFloat x)) with (Some (@inr Z _ x)).
    destruct (as_number a) as [[z|g]|]; intros H; inv_ok.
    - eexists; split; [reflexivity|].
      intros Hz. apply float_add_neg_zero in Hz as [_ Hz]. exact (Hx Hz).
    - eexists; split; [reflexivity|].
      intros Hz. apply float_add_neg_zero in Hz as [_ Hz]. exact (Hx Hz).
    - destruct a; discriminate. }
  rewrite py_add_float_zero. cbn [mbind result_bind]. rewrite py_add_float_zero.
  now rewrite !float_add_zero by (rewrite ?float_add_zero; assumption).
Qed.

Lemma Penalty_init_total (stats : Stats.slots) :
  py_eq_int (Stats.frames_nulled stats) (-1) = true ->
  py_eq_int (Stats.frames_deficit stats) (-1) = true ->
  Penalty__init__ float_pow stats =
    (cpu ← cpu_penalty_of float_pow stats;
     total ← py_add (Stats.playing_players stats) cpu;
     Ok (Penalty.mk (Stats.playing_players stats) cpu (PyInt 0) (PyInt 0) total)).
Proof.
  intros Hn Hd. rewrite Penalty_init_no_frames by assumption.
  destruct (cpu_penalty_of float_pow stats) as [c|e] eqn:Hc; [|reflexivity].
  apply cpu_penalty_not_neg_zero in Hc as (x & -> & Hx). cbn.
  destruct (py_add (Stats.playing_players stats) (PyFloat x)) as [s|e] eqn:Hs;
    [|reflexivity].
  pose proof (sum_plus_zeros _ _ _ Hx Hs) as Hz. cbn.
  destruct (py_add s (PyInt 0)) as [s1|e1]; [|discriminate]. cbn in Hz |- *.
  now rewrite Hz.
Qed.

(** A report without a [frameStats] block leaves the three counters at
    their default. *)
Lemma Stats_init_no_frame_block (d : list (string * pyval)) (s : Stats.t) :
  assoc "frameStats" d = None ->
  Stats__init__ float_pow (PyDict d) = Ok s ->
  Stats.frames_sent (Stats.fields s) = PyInt (-1)
  /\ Stats.frames_nulled (Stats.fields s) = PyInt (-1)
  /\ Stats.frames_deficit (Stats.fields s) = PyInt (-1)
  /\ Penalty__init__ float_pow (Stats.fields s) = Ok (Stats.penalty s).
Proof.
  intros Hd. unfold Stats__init__, py_get. rewrite Hd. cbn [assoc].
  intros H. inv_ok. cbn. auto.
Qed.

End PenaltyTotal.

(** What a successful subscript by a string, and a successful [get], say
    about the value they are applied to. *)
Lemma py_getitem_str_ok (v : pyval) (k : string) (x : pyval) :
  py_getitem v (PyStr k) = Ok x -> exists d, v = PyDict d /\ assoc k d = Some x.
Proof.
  destruct v as [|b|z|f|s|l|d]; try discriminate.
  cbn. destruct (assoc k d) as [y|] eqn:Hy; [|discriminate].
  intros [= <-]. eauto.
Qed.

Lemma py_get_ok (v : pyval) (k : string) (default x : pyval) :
  py_get v k default = Ok x ->
  exists d, v = PyDict d
            /\ x = match assoc k d with Some y => y | None => default end.
Proof.
  destruct v as [|b|z|f|s|l|d]; try discriminate.
  cbn. intros [= <-]. eauto.
Qed.

Section PenaltyFormula.

Variable float_pow : float -> float -> result float.

(** The formula of the CPU penalty and of the total, on a load that is a
    double and a player count that is an int. *)
Lemma penalty_formula_doubles (players : Z) (load p fn : float) :
  float_pow 1.05%float (100 * load)%float = Ok p ->
  int_to_float players = Ok fn ->
  (e ← py_mul (PyInt 100) (PyFloat load);
   p ← py_pow float_pow (PyFloat 1.05) e;
   m ← py_mul p (PyInt 10);
   cpu ← py_sub m (PyInt 10);
   total ← py_add (PyInt players) cpu;
   Ok (Penalty.mk (PyInt players) cpu (PyInt 0) (PyInt 0) total))
  = Ok (Penalty.mk (PyInt players) (PyFloat (p * 10 - 10)%float) (PyInt 0) (PyInt 0)
          (PyFloat (fn + (p * 10 - 10))%float)).
Proof.
  intros Hp Hn.
  assert (E1 : py_mul (PyInt 100) (PyFloat load) = Ok (PyFloat (100 * load)%float))
    by reflexivity.
  rewrite E1. cbn [mbind result_bind].
  assert (E2 : py_pow float_pow (PyFloat 1.05) (PyFloat (100 * load)%float) = Ok (PyFloat p)).
  { unfold py_pow. cbn. now rewrite Hp. }
  rewrite E2. cbn [mbind result_bind].
  assert (E3 : py_mul (PyFloat p) (PyInt 10) = Ok (PyFloat (p * 10)%float)) by reflexivity.
  rewrite E3. cbn [mbind result_bind].
  assert (E4 : py_sub (PyFloat (p * 10)%float) (PyInt 10) = Ok (PyFloat (p * 10 - 10)%float))
    by reflexivity.
  rewrite E4. cbn [mbind result_bind].
  assert (E5 : py_add (PyInt players) (PyFloat (p * 10 - 10)%float)
               = Ok (PyFloat (fn + (p * 10 - 10))%float)).
  { unfold py_add. cbn. now rewrite Hn. }
  now rewrite E5.
Qed.

(** The slots of a [Stats] hold what the report has under
    [playingPlayers] and under [cpu.systemLoad]. *)
Lemma Stats_init_load_of_report (d : list (string * pyval)) (s : Stats.t) :
  Stats__init__ float_pow (PyDict d) = Ok s ->
  exists cpu : list (string * pyval),
    assoc "playingPlayers" d = Some (Stats.playing_players (Stats.fields s))
    /\ assoc "cpu" d = Some (PyDict cpu)
    /\ assoc "systemLoad" cpu = Some (Stats.system_load (Stats.fields s)).
Proof.
  unfold Stats__init__. intros H.
  apply bind_ok in H as (uptime & _ & H).
  apply bind_ok in H as (players & _ & H).
  apply bind_ok in H as (playing & Hpp & H).
  apply bind_ok in H as (memory & _ & H).
  apply bind_ok in H as (mfree & _ & H).
  apply bind_ok in H as (mused & _ & H).
  apply bind_ok in H as (malloc & _ & H).
  apply bind_ok in H as (mres & _ & H).
  apply bind_ok in H as (cpu & Hcpu & H).
  apply bind_ok in H as (cores & _ & H).
  apply bind_ok in H as (sload & Hsl & H).
  apply bind_ok in H as (lload & _ & H).
  apply bind_ok in H as (fstats & _ & H).
  apply bind_ok in H as (fsent & _ & H).
  apply bind_ok in H as (fnull & _ & H).
  apply bind_ok in H as (fdef & _ & H).
  apply bind_ok in H as (pen & _ & H).
  injection H as <-. cbn [Stats.fields Stats.playing_players Stats.system_load].
  apply py_getitem_str_ok in Hpp as (? & [= <-] & Hpp).
  apply py_getitem_str_ok in Hcpu as (? & [= <-] & Hcpu).
  apply py_getitem_str_ok in Hsl as (c & -> & Hsl).
  exists c. auto.
Qed.

End PenaltyFormula.

(** C1: when both frame counters are [-1], the null-frame and deficit-frame
    penalties are 0 and the total is exactly what Python computes for
    [playing_players + cpu_penalty] with
    [cpu_penalty = 1.05 ** (100 * system_load) * 10 - 10]; the constructor
    fails only where that expression does.  On a load that is a double and a
    player count that is an int, this is the double
    [float(playing_players) + (1.05 ** (100.0 * system_load) * 10.0 - 10.0)].
    A report without a [frameStats] block gets both counters at [-1], and its
    penalty is the one the formula gives on the report's own [playingPlayers]
    and [cpu.systemLoad]. *)
Theorem penalty_total_without_frame_counters
    (float_pow : float -> float -> result float) :
  (forall stats : Stats.slots,
     py_eq_int (Stats.frames_nulled stats) (-1) = true ->
     py_eq_int (Stats.frames_deficit stats) (-1) = true ->
     Penalty__init__ float_pow stats =
       (e ← py_mul (PyInt 100) (Stats.system_load stats);
        p ← py_pow float_pow (PyFloat 1.05) e;
        m ← py_mul p (PyInt 10);
        cpu ← py_sub m (PyInt 10);
        total ← py_add (Stats.playing_players stats) cpu;
        Ok (Penalty.mk (Stats.playing_players stats) cpu (PyInt 0) (PyInt 0) total)))
  /\ (forall (stats : Stats.slots) (players : Z) (load p fn : float),
        py_eq_int (Stats.frames_nulled stats) (-1) = true ->
        py_eq_int (Stats.frames_deficit stats) (-1) = true ->
        Stats.playing_players stats = PyInt players ->
        Stats.system_load stats = PyFloat load ->
        float_pow 1.05%float (100 * load)%float = Ok p ->
        int_to_float players = Ok fn ->
        Penalty__init__ float_pow stats =
          Ok (Penalty.mk (PyInt players) (PyFloat (p * 10 - 10)%float) (PyInt 0) (PyInt 0)
                (PyFloat (fn + (p * 10 - 10))%float)))
  /\ (forall (d : list (string * pyval)) (s : Stats.t),
        assoc "frameStats" d = None ->
        Stats__init__ float_pow (PyDict d) = Ok s ->
        exists (players load : pyval) (cpu : list (string * pyval)),
          assoc "playingPlayers" d = Some players
          /\ assoc "cpu" d = Some (PyDict cpu)
          /\ assoc "systemLoad" cpu = Some load
          /\ (e ← py_mul (PyInt 100) load;
              p ← py_pow float_pow (PyFloat 1.05) e;
              m ← py_mul p (PyInt 10);
              cpu_penalty ← py_sub m (PyInt 10);
              total ← py_add players cpu_penalty;
              Ok (Penalty.mk players cpu_penalty (PyInt 0) (PyInt 0) total))
             = Ok (Stats.penalty s)).
Proof.
  assert (H1 : forall stats : Stats.slots,
     py_eq_int (Stats.frames_nulled stats) (-1) = true ->
     py_eq_int (Stats.frames_deficit stats) (-1) = true ->
     Penalty__init__ float_pow stats =
       (e ← py_mul (PyInt 100) (Stats.system_load stats);
        p ← py_pow float_pow (PyFloat 1.05) e;
        m ← py_mul p (PyInt 10);
        cpu ← py_sub m (PyInt 10);
        total ← py_add (Stats.playing_players stats) cpu;
        Ok (Penalty.mk (Stats.playing_players stats) cpu (PyInt 0) (PyInt 0) total))).
  { intros stats Hn Hd. rewrite Penalty_init_total by assumption.
    unfold cpu_penalty_of.
    destruct (py_mul (PyInt 100) (Stats.system_load stats)) as [e|x]; [|reflexivity].
    cbn [mbind result_bind].
    destruct (py_pow float_pow (PyFloat 1.05) e) as [p|x]; [|reflexivity].
    cbn [mbind result_bind].
    destruct (py_mul p (PyInt 10)) as [m|x]; reflexivity. }
  split; [exact H1|]. split.
  - intros stats players load p fn Hn Hd Hpp Hl Hp Hfn.
    rewrite H1 by assumption. rewrite Hpp, Hl.
    now apply penalty_formula_doubles.
  - intros d s Hd Hs.
    destruct (Stats_init_no_frame_block float_pow d s Hd Hs) as (_ & Hn & Hf & Hp).
    destruct (Stats_init_load_of_report float_pow d s Hs) as (c & Hpp & Hc & Hl).
    exists (Stats.playing_players (Stats.fields s)),
      (Stats.system_load (Stats.fields s)), c.
    split; [exact Hpp|]. split; [exact Hc|]. split; [exact Hl|].
    rewrite <- Hp. symmetry. apply H1.
    + now rewrite Hn.
    + now rewrite Hf.
Qed.

Lemma penalty_total_without_frame_counters_witness :
  Penalty__init__ pow_sample busy_slots = Ok busy_penalty
  /\ Stats__init__ pow_sample (PyDict busy_report) = Ok (Stats.mk busy_slots busy_penalty)
  /\ exists (players load : pyval) (cpu : list (string * pyval)),
       assoc "playingPlayers" busy_report = Some players
       /\ assoc "cpu" busy_report = Some (PyDict cpu)
       /\ assoc "systemLoad" cpu = Some load
       /\ (e ← py_mul (PyInt 100) load;
           p ← py_pow pow_sample (PyFloat 1.05) e;
           m ← py_mul p (PyInt 10);
           cpu_penalty ← py_sub m (PyInt 10);
           total ← py_add players cpu_penalty;
           Ok (Penalty.mk players cpu_penalty (PyInt 0) (PyInt 0) total))
          = Ok busy_penalty.
Proof.
  destruct (penalty_total_without_frame_counters pow_sample) as (_ & Hp & Hs).
  split; [|split].
  - rewrite (Hp busy_slots 2 0.5%float 0x1.6ef4f0653f069p+3%float 2%float
               eq_refl eq_refl eq_refl eq_refl eq_refl eq_refl).
    reflexivity.
  - reflexivity.
  - exact (Hs busy_report (Stats.mk busy_slots busy_penalty) eq_refl eq_refl).
Defined.

(** With the counters reported, even as zero, the two frame penalties are
    doubles and no longer the integer [0]. *)
Example penalty_with_frame_counters :
  Penalty__init__ pow_at_zero
    (Stats.mk_slots (PyInt 1000) (PyInt 3) (PyInt 2) (PyInt 10) (PyInt 20)
       (PyInt 30) (PyInt 40) (PyInt 4) (PyFloat 0) (PyFloat 0)
       (PyInt 0) (PyInt 0) (PyInt 0))
  = Ok (Penalty.mk (PyInt 2) (PyFloat 0) (PyFloat 0) (PyFloat 0) (PyFloat 2)).
Proof. reflexivity. Qed.

(** C2, as amended: a node that is not available, or has no stats yet,
    reports the sentinel [9e30]; an available node with stats reports
    [stats.penalty.total], whatever it is; reading the property never
    raises. *)
Theorem node_penalty_sentinel (n : Node.t) :
  (Node.available n = false \/ Node.stats n = None ->
   Node.penalty n = Ok (PyFloat 9e30))
  /\ (forall st : Stats.t,
        Node.available n = true -> Node.stats n = Some st ->
        Node.penalty n = Ok (Penalty.total (Stats.penalty st)))
  /\ is_ok (Node.penalty n) = true.
Proof.
  unfold Node.penalty.
  destruct (Node.available n), (Node.stats n) as [st|]; cbn;
    repeat split; try reflexivity; try (intros [H|H]; congruence);
    intros ? ? ?; congruence.
Qed.

Lemma node_penalty_sentinel_witness :
  Node.penalty fresh_node = Ok (PyFloat 9e30)
  /\ Node.penalty ready_node = Ok (PyFloat 2).
Proof.
  split.
  - apply (proj1 (node_penalty_sentinel fresh_node)). left. reflexivity.
  - apply (proj1 (proj2 (node_penalty_sentinel ready_node)) (Stats.mk idle_slots idle_penalty));
      reflexivity.
Defined.

(** C2, as stated, fails: the sentinel is not larger than every penalty
    total.  The total has no upper bound; an available node whose report
    counts [10 ** 31] playing players has the total [1e31], which is what its
    [penalty] returns and which is above [9e30]. *)
Lemma penalty_total_can_exceed_the_sentinel :
  Stats__init__ pow_at_zero (PyDict crowded_report)
    = Ok (Stats.mk crowded_slots crowded_penalty)
  /\ Node.available crowded_node = true
  /\ Node.stats crowded_node = Some (Stats.mk crowded_slots crowded_penalty)
  /\ Node.penalty crowded_node = Ok (PyFloat 1e31)
  /\ (9e30 <? 1e31)%float = true.
Proof. split; [|split; [|split; [|split]]]; reflexivity. Qed.

Example fresh_node_name : Node.name fresh_node = "eu-lava.example:2333".
Proof. reflexivity. Qed.

(** ** REST calls of a node *)

Section RestFacts.

Variable session : Node.Request -> Node.Response.

Lemma get_tracks_first_track (self : Node.t) (query : string)
    (result t : pyval) (rest : list pyval) :
  Node.status (session (Node.loadtracks_request self query)) = 200 ->
  Node.json (session (Node.loadtracks_request self query)) = Ok result ->
  py_get result "tracks" (PyList []) = Ok (PyList (t :: rest)) ->
  Node.get_tracks session self query true = Ok t.
Proof.
  intros Hs Hj Ht. unfold Node.get_tracks. rewrite Hs, Hj. cbn.
  rewrite Ht. reflexivity.
Qed.

Lemma get_tracks_first_empty (self : Node.t) (query : string)
    (d : list (string * pyval)) :
  Node.status (session (Node.loadtracks_request self query)) = 200 ->
  Node.json (session (Node.loadtracks_request self query)) = Ok (PyDict d) ->
  assoc "tracks" d = None \/ assoc "tracks" d = Some (PyList []) ->
  Node.get_tracks session self query true = Raise IndexError.
Proof.
  intros Hs Hj Ht. unfold Node.get_tracks. rewrite Hs, Hj. cbn.
  destruct Ht as [-> | ->]; reflexivity.
Qed.

End RestFacts.

(** C7, as amended: for [get_tracks], [decode_track], [decode_tracks] and
    [routeplanner_status], a 401 or 403 response raises [Unauthorized], any
    status other than 200, 401 and 403 gives the empty result ([[]], or [None]
    for the single-object calls) without raising, and a 200 response gives
    the outcome of parsing the body; [get_tracks] with [first=True] gives
    instead the first entry of the result's ["tracks"] list, when the list has
    one. *)
Theorem rest_status_outcomes (session : Node.Request -> Node.Response)
    (self : Node.t) :
  (forall (query : string) (first : bool),
     let res := session (Node.loadtracks_request self query) in
     (Node.status res = 401 \/ Node.status res = 403 ->
      Node.get_tracks session self query first = Raise Unauthorized)
     /\ (Node.status res = 200 ->
         Node.get_tracks session self query false = Node.json res)
     /\ (forall (result t : pyval) (rest : list pyval),
           Node.status res = 200 -> Node.json res = Ok result ->
           py_get result "tracks" (PyList []) = Ok (PyList (t :: rest)) ->
           Node.get_tracks session self query true = Ok t)
     /\ (Node.status res <> 200 -> Node.status res <> 401 ->
         Node.status res <> 403 ->
         Node.get_tracks session self query first = Ok (PyList [])))
  /\ (forall track : string,
        let res := session (Node.decodetrack_request self track) in
        (Node.status res = 401 \/ Node.status res = 403 ->
         Node.decode_track session self track = Raise Unauthorized)
        /\ (Node.status res = 200 ->
            Node.decode_track session self track = Node.json res)
        /\ (Node.status res <> 200 -> Node.status res <> 401 ->
            Node.status res <> 403 ->
            Node.decode_track session self track = Ok PyNone))
  /\ (forall tracks : list string,
        let res := session (Node.decodetracks_request self tracks) in
        (Node.status res = 401 \/ Node.status res = 403 ->
         Node.decode_tracks session self tracks = Raise Unauthorized)
        /\ (Node.status res = 200 ->
            Node.decode_tracks session self tracks = Node.json res)
        /\ (Node.status res <> 200 -> Node.status res <> 401 ->
            Node.status res <> 403 ->
            Node.decode_tracks session self tracks = Ok (PyList [])))
  /\ (let res := session (Node.routeplanner_status_request self) in
      (Node.status res = 401 \/ Node.status res = 403 ->
       Node.routeplanner_status session self = Raise Unauthorized)
      /\ (Node.status res = 200 ->
          Node.routeplanner_status session self = Node.json res)
      /\ (Node.status res <> 200 -> Node.status res <> 401 ->
          Node.status res <> 403 ->
          Node.routeplanner_status session self = Ok PyNone)).
Proof.
  cbv zeta. repeat (intros; apply conj); intros;
    try (eapply get_tracks_first_track; eassumption);
    unfold Node.get_tracks, Node.decode_track, Node.decode_tracks,
      Node.routeplanner_status; cbv zeta;
    try (match goal with
         | H : _ = 401 \/ _ = 403 |- _ => destruct H as [-> | ->]; reflexivity
         end);
    try (match goal with
         | H : Node.status ?r = 200 |- _ => rewrite H; cbn;
             destruct (Node.json r); reflexivity
         end);
    match goal with
    | H2 : _ <> 200, H4 : _ <> 401, H3 : _ <> 403 |- _ =>
        apply Z.eqb_neq in H2, H4, H3; now rewrite H2, H4, H3
    end.
Qed.

Lemma rest_status_outcomes_witness :
  Node.get_tracks forbidden_session ready_node "song" false = Raise Unauthorized
  /\ Node.get_tracks one_track_session ready_node "song" false = Ok one_track_body
  /\ Node.get_tracks one_track_session ready_node "song" true
     = Ok (PyDict [("track", PyStr "QAAAjQIAJVJpY2sgQXN0bGV5")])
  /\ Node.get_tracks unavailable_session ready_node "song" true = Ok (PyList [])
  /\ Node.decode_track unavailable_session ready_node "QAAAjQ" = Ok PyNone.
Proof.
  pose proof (rest_status_outcomes forbidden_session ready_node) as (Hf & _).
  pose proof (rest_status_outcomes one_track_session ready_node) as (Ho & _).
  pose proof (rest_status_outcomes unavailable_session ready_node) as (Hu & Hd & _).
  split; [|split; [|split; [|split]]].
  - apply (Hf "song" false). right. reflexivity.
  - apply (Ho "song" false). reflexivity.
  - eapply (Ho "song" true); reflexivity.
  - apply (Hu "song" true); discriminate.
  - apply (Hd "QAAAjQ"); discriminate.
Defined.

(** C7, as stated, fails: a 200 response to [get_tracks(query, first=True)]
    is answered with the first track, not with the parsed body. *)
Lemma rest_200_first_is_not_the_parsed_body :
  Node.status (one_track_session (Node.loadtracks_request ready_node "song")) = 200
  /\ Node.get_tracks one_track_session ready_node "song" true
     <> Node.json (one_track_session (Node.loadtracks_request ready_node "song")).
Proof. split; [reflexivity | discriminate]. Qed.

(** C9: when the response has status 200 and the parsed body has an empty
    ["tracks"] list (or none), [get_tracks(query, first=True)] raises
    [IndexError], where [first=False] returns the body. *)
Theorem get_tracks_first_raises_IndexError
    (session : Node.Request -> Node.Response) (self : Node.t) (query : string)
    (d : list (string * pyval)) :
  Node.status (session (Node.loadtracks_request self query)) = 200 ->
  Node.json (session (Node.loadtracks_request self query)) = Ok (PyDict d) ->
  assoc "tracks" d = None \/ assoc "tracks" d = Some (PyList []) ->
  Node.get_tracks session self query true = Raise IndexError
  /\ Node.get_tracks session self query false = Ok (PyDict d).
Proof.
  intros Hs Hj Ht. split.
  - now apply get_tracks_first_empty with (d := d).
  - unfold Node.get_tracks. rewrite Hs, Hj. reflexivity.
Qed.

Lemma get_tracks_first_raises_IndexError_witness :
  Node.get_tracks no_matches_session ready_node "no such song" true = Raise IndexError
  /\ Node.get_tracks no_matches_session ready_node "no such song" false
     = Ok no_matches_body.
Proof.
  apply (get_tracks_first_raises_IndexError no_matches_session ready_node
           "no such song"
           [("loadType", PyStr "NO_MATCHES"); ("tracks", PyList [])]).
  - reflexivity.
  - reflexivity.
  - right. reflexivity.
Defined.

(** ** The client facade ([Client.get_tracks], [decode_track], [decode_tracks]) *)

Section ClientFacts.

Variable session : Node.Request -> Node.Response.

Lemma get_tracks_fallback (query : string) (node : option Node.t)
    (first : bool) (w : World) :
  NodeManager.search_only_nodes (node_manager w) = [] ->
  Client.get_tracks session query node true first w =
    match NodeManager.available_nodes (node_manager w) with
    | [] => (Raise (NodeException "No available nodes!"), after_warning w)
    | n :: ns =>
        match Client.node_or_choice node (n :: ns) (after_warning w) with
        | (Ok target, w') => (Node.get_tracks session target query first, w')
        | (Raise e, w') => (Raise e, w')
        end
    end.
Proof.
  intros Hs. unfold Client.get_tracks, after_warning, mbind, M_bind, gets.
  rewrite Hs. cbn.
  destruct (warned_about_no_search_nodes w) eqn:Hw; cbn;
    destruct (NodeManager.available_nodes (node_manager w)) as [|n ns]; cbn;
      reflexivity.
Qed.

Lemma get_tracks_general (query : string) (node : option Node.t)
    (first : bool) (w : World) :
  Client.get_tracks session query node false first w =
    match NodeManager.available_nodes (node_manager w) with
    | [] => (Raise (NodeException "No available nodes!"), w)
    | n :: ns =>
        match Client.node_or_choice node (n :: ns) w with
        | (Ok target, w') => (Node.get_tracks session target query first, w')
        | (Raise e, w') => (Raise e, w')
        end
    end.
Proof.
  unfold Client.get_tracks, mbind, M_bind, gets. cbn.
  destruct (NodeManager.available_nodes (node_manager w)) as [|n ns]; cbn;
    reflexivity.
Qed.

Lemma get_tracks_search_only (query : string) (node : option Node.t)
    (first : bool) (w : World) (n : Node.t) (ns : list Node.t) :
  NodeManager.search_only_nodes (node_manager w) = n :: ns ->
  Client.get_tracks session query node true first w =
    match Client.node_or_choice node (n :: ns) w with
    | (Ok target, w') => (Node.get_tracks session target query first, w')
    | (Raise e, w') => (Raise e, w')
    end.
Proof.
  intros Hs. unfold Client.get_tracks, mbind, M_bind, gets.
  rewrite Hs. cbn. reflexivity.
Qed.

(** [node or random.choice(list(nodes))] on a non-empty pool: the given
    node, or a member of the pool; only the entropy is consumed. *)
Lemma node_or_choice_spec (node : option Node.t) (nodes : list Node.t) (w : World) :
  nodes <> [] ->
  exists target w',
    Client.node_or_choice node nodes w = (Ok target, w')
    /\ match node with Some n => target = n | None => target ∈ nodes end
    /\ node_manager w' = node_manager w
    /\ warned_about_no_search_nodes w' = warned_about_no_search_nodes w
    /\ effects w' = effects w
    /\ players w' = players w.
Proof.
  intros Hne. destruct node as [n|]; cbn.
  - exists n, w. repeat split; reflexivity.
  - unfold random_choice.
    set (k := match entropy w with [] => O | k :: _ => k end).
    assert (Hlt : (k mod length nodes < length nodes)%nat).
    { apply Nat.mod_upper_bound. destruct nodes; [congruence | discriminate]. }
    apply lookup_lt_is_Some_2 in Hlt as [target Ht]. rewrite Ht.
    exists target, (set_entropy (tail (entropy w)) w).
    repeat split; try reflexivity.
    eapply list_elem_of_lookup_2; eassumption.
Qed.

Lemma decode_track_no_nodes (track : string) (node : option Node.t) (w : World) :
  NodeManager.available_nodes (node_manager w) = [] ->
  Client.decode_track session track node w
  = (Raise (NodeException "No available nodes!"), w).
Proof.
  intros Ha. unfold Client.decode_track, mbind, M_bind, gets. now rewrite Ha.
Qed.

Lemma decode_tracks_no_nodes (tracks : list string) (node : option Node.t) (w : World) :
  NodeManager.available_nodes (node_manager w) = [] ->
  Client.decode_tracks session tracks node w
  = (Raise (NodeException "No available nodes!"), w).
Proof.
  intros Ha. unfold Client.decode_tracks, mbind, M_bind, gets. now rewrite Ha.
Qed.

Lemma get_tracks_no_nodes (query : string) (node : option Node.t)
    (first : bool) (w : World) :
  NodeManager.available_nodes (node_manager w) = [] ->
  fst (Client.get_tracks session query node false first w)
  = Raise (NodeException "No available nodes!").
Proof. intros Ha. rewrite get_tracks_general. now rewrite Ha. Qed.

Lemma get_tracks_no_nodes_search_only (query : string) (node : option Node.t)
    (first : bool) (w : World) :
  NodeManager.search_only_nodes (node_manager w) = [] ->
  NodeManager.available_nodes (node_manager w) = [] ->
  fst (Client.get_tracks session query node true first w)
  = Raise (NodeException "No available nodes!").
Proof.
  intros Hs Ha. rewrite get_tracks_fallback by assumption. now rewrite Ha.
Qed.

(** *** The warning about missing search-only nodes *)

Lemma after_warning_spec (w : World) :
  node_manager (after_warning w) = node_manager w
  /\ warned_about_no_search_nodes (after_warning w) = true
  /\ effects (after_warning w)
     = effects w ++ (if warned_about_no_search_nodes w then []
                     else [Client.no_search_nodes_warning])
  /\ players (after_warning w) = players w.
Proof.
  unfold after_warning.
  destruct (warned_about_no_search_nodes w) eqn:Hw; cbn;
    rewrite ?app_nil_r; auto.
Qed.

Lemma warnings_emitted_app (w w' : World) (l : list effect) :
  effects w' = effects w ++ l ->
  Client.warnings_emitted w'
  = (Client.warnings_emitted w
     + length (List.filter Client.is_no_search_nodes_warning l))%nat.
Proof.
  unfold Client.warnings_emitted. intros ->.
  now rewrite List.filter_app, length_app.
Qed.

(** What one call does to the flag and to the log. *)
Lemma get_tracks_flag_and_log (query : string) (node : option Node.t)
    (search_only_nodes first : bool) (w : World) :
  let w' := snd (Client.get_tracks session query node search_only_nodes first w) in
  node_manager w' = node_manager w
  /\ ((warned_about_no_search_nodes w' = warned_about_no_search_nodes w
       /\ effects w' = effects w)
      \/ (search_only_nodes = true
          /\ NodeManager.search_only_nodes (node_manager w) = []
          /\ warned_about_no_search_nodes w = false
          /\ warned_about_no_search_nodes w' = true
          /\ effects w' = effects w ++ [Client.no_search_nodes_warning])).
Proof.
  cbv zeta. destruct search_only_nodes.
  - destruct (NodeManager.search_only_nodes (node_manager w)) as [|n ns] eqn:Hs.
    + rewrite get_tracks_fallback by assumption.
      destruct (after_warning_spec w) as (Hn & Hw & He & _).
      assert (Hcase :
        forall w', node_manager w' = node_manager (after_warning w) ->
          warned_about_no_search_nodes w'
          = warned_about_no_search_nodes (after_warning w) ->
          effects w' = effects (after_warning w) ->
          node_manager w' = node_manager w
          /\ ((warned_about_no_search_nodes w' = warned_about_no_search_nodes w
               /\ effects w' = effects w)
              \/ (true = true /\ @nil Node.t = []
                  /\ warned_about_no_search_nodes w = false
                  /\ warned_about_no_search_nodes w' = true
                  /\ effects w' = effects w ++ [Client.no_search_nodes_warning]))).
      { intros w' H1 H2 H3. rewrite H1, H2, H3, Hn, Hw, He. split; [reflexivity|].
        destruct (warned_about_no_search_nodes w); [left | right];
          rewrite ?app_nil_r; auto. }
      destruct (NodeManager.available_nodes (node_manager w)) as [|m ms] eqn:Ha.
      * cbn [snd]. now apply Hcase.
      * destruct (node_or_choice_spec node (m :: ms) (after_warning w))
          as (target & w' & -> & _ & H1 & H2 & H3 & _); [discriminate|].
        cbn [snd]. now apply Hcase.
    + rewrite (get_tracks_search_only _ _ _ _ n ns) by assumption.
      destruct (node_or_choice_spec node (n :: ns) w)
        as (target & w' & -> & _ & H1 & H2 & H3 & _); [discriminate|].
      cbn [snd]. auto.
  - rewrite get_tracks_general.
    destruct (NodeManager.available_nodes (node_manager w)) as [|m ms] eqn:Ha.
    + cbn [snd]. auto.
    + destruct (node_or_choice_spec node (m :: ms) w)
        as (target & w' & -> & _ & H1 & H2 & H3 & _); [discriminate|].
      cbn [snd]. auto.
Qed.

Lemma run_action_flag_and_log (a : Client.action) (w : World) :
  let w' := Client.run_action session w a in
  (warned_about_no_search_nodes w = true ->
   warned_about_no_search_nodes w' = true
   /\ Client.warnings_emitted w' = Client.warnings_emitted w)
  /\ (warned_about_no_search_nodes w = false ->
      (warned_about_no_search_nodes w' = false
       /\ Client.warnings_emitted w' = Client.warnings_emitted w)
      \/ (warned_about_no_search_nodes w' = true
          /\ Client.warnings_emitted w' = S (Client.warnings_emitted w))).
Proof.
  cbv zeta. destruct a as [query node so first | nm]; cbn [Client.run_action].
  - destruct (get_tracks_flag_and_log query node so first w)
      as (_ & [(Hw & He) | (_ & _ & Hw0 & Hw1 & He)]).
    + unfold Client.warnings_emitted. rewrite Hw, He. split; intros H; auto.
    + split; intros H; [congruence|]. right. split; [assumption|].
      rewrite (warnings_emitted_app w _ _ He). cbn. lia.
  - unfold Client.warnings_emitted. cbn. split; intros H; auto.
Qed.

(** Once the flag is set the warning is never logged again; before that it
    is logged at most once more. *)
Lemma run_actions_flag_and_log (actions : list Client.action) : forall w : World,
  (warned_about_no_search_nodes w = true ->
   Client.warnings_emitted (Client.run_actions session actions w)
   = Client.warnings_emitted w)
  /\ (Client.warnings_emitted (Client.run_actions session actions w)
      <= S (Client.warnings_emitted w))%nat.
Proof.
  induction actions as [|a actions IH]; intros w; cbn.
  - split; [reflexivity | lia].
  - destruct (run_action_flag_and_log a w) as (Ht & Hf). cbv zeta in Ht, Hf.
    destruct (IH (Client.run_action session w a)) as (IHt & IHle).
    destruct (warned_about_no_search_nodes w) eqn:Hw.
    + destruct (Ht eq_refl) as (Hw' & He').
      unfold Client.run_actions in *. rewrite (IHt Hw'), He'. split; [auto | lia].
    + split; [discriminate|].
      destruct (Hf eq_refl) as [(Hw' & He') | (Hw' & He')].
      * unfold Client.run_actions in *. lia.
      * unfold Client.run_actions in *. rewrite (IHt Hw'). lia.
Qed.

End ClientFacts.

Section ClientClaims.

Variable session : Node.Request -> Node.Response.

(** A call that finds no search-only node sets the flag, and logs the
    warning if the flag was not set. *)
Lemma get_tracks_fallback_world (query : string) (node : option Node.t)
    (first : bool) (w : World) :
  NodeManager.search_only_nodes (node_manager w) = [] ->
  let w' := snd (Client.get_tracks session query node true first w) in
  warned_about_no_search_nodes w' = true
  /\ effects w' = effects w ++ (if warned_about_no_search_nodes w then []
                                else [Client.no_search_nodes_warning]).
Proof.
  intros Hs. cbv zeta. rewrite get_tracks_fallback by assumption.
  destruct (after_warning_spec w) as (_ & Hw & He & _).
  destruct (NodeManager.available_nodes (node_manager w)) as [|m ms].
  - cbn [snd]. auto.
  - destruct (node_or_choice_spec node (m :: ms) (after_warning w))
      as (target & w' & -> & _ & _ & H2 & H3 & _); [discriminate|].
    cbn [snd]. rewrite H2, H3. auto.
Qed.

Lemma get_tracks_fallback_result (query : string) (node : option Node.t)
    (first : bool) (w : World) :
  NodeManager.search_only_nodes (node_manager w) = [] ->
  NodeManager.available_nodes (node_manager w) <> [] ->
  exists (target : Node.t) (w' : World),
    Client.get_tracks session query node true first w
    = (Node.get_tracks session target query first, w')
    /\ match node with
       | Some n => target = n
       | None => target ∈ NodeManager.available_nodes (node_manager w)
       end.
Proof.
  intros Hs Ha. rewrite get_tracks_fallback by assumption.
  destruct (NodeManager.available_nodes (node_manager w)) as [|m ms];
    [congruence|].
  destruct (node_or_choice_spec node (m :: ms) (after_warning w))
    as (target & w' & -> & Hin & _); [discriminate|].
  exists target, w'. split; [reflexivity | exact Hin].
Qed.

Lemma repeated_fallback_calls (calls : list (string * option Node.t * bool))
    (w : World) :
  calls <> [] ->
  NodeManager.search_only_nodes (node_manager w) = [] ->
  warned_about_no_search_nodes w = false ->
  Client.warnings_emitted
    (Client.run_actions session (search_only_call <$> calls) w)
  = S (Client.warnings_emitted w).
Proof.
  destruct calls as [|[[query node] first] rest]; [congruence|].
  intros _ Hs Hw.
  destruct (get_tracks_fallback_world query node first w Hs) as (Hw' & He').
  cbv zeta in Hw', He'. rewrite Hw in He'.
  change (Client.run_actions session
            (search_only_call <$> (query, node, first) :: rest) w)
    with (Client.run_actions session (search_only_call <$> rest)
            (snd (Client.get_tracks session query node true first w))).
  set (w1 := snd (Client.get_tracks session query node true first w)) in *.
  destruct (run_actions_flag_and_log session (search_only_call <$> rest) w1)
    as (Hkeep & _).
  rewrite (Hkeep Hw').
  rewrite (warnings_emitted_app w w1 _ He'). cbn. lia.
Qed.

End ClientClaims.

(** C3, as amended: [Client.get_tracks] fails with
    [NodeException("No available nodes!")] when the pool it draws from is
    empty: no available node, and with [search_only_nodes=True] no
    search-only node and no available node to fall back to;
    [Client.decode_track] and [Client.decode_tracks] fail the same way when no
    node is available. *)
Theorem no_available_nodes_raises_NodeException
    (session : Node.Request -> Node.Response) (w : World) :
  NodeManager.available_nodes (node_manager w) = [] ->
  (forall (query : string) (node : option Node.t) (first : bool),
     fst (Client.get_tracks session query node false first w)
     = Raise (NodeException "No available nodes!"))
  /\ (forall (query : string) (node : option Node.t) (first : bool),
        NodeManager.search_only_nodes (node_manager w) = [] ->
        fst (Client.get_tracks session query node true first w)
        = Raise (NodeException "No available nodes!"))
  /\ (forall (track : string) (node : option Node.t),
        fst (Client.decode_track session track node w)
        = Raise (NodeException "No available nodes!"))
  /\ (forall (tracks : list string) (node : option Node.t),
        fst (Client.decode_tracks session tracks node w)
        = Raise (NodeException "No available nodes!")).
Proof.
  intros Ha. repeat apply conj; intros.
  - now apply get_tracks_no_nodes.
  - now apply get_tracks_no_nodes_search_only.
  - now rewrite decode_track_no_nodes.
  - now rewrite decode_tracks_no_nodes.
Qed.

Lemma no_available_nodes_raises_NodeException_witness :
  fst (Client.get_tracks one_track_session "song" None true false lonely_world)
  = Raise (NodeException "No available nodes!")
  /\ fst (Client.decode_track one_track_session "QAAAjQ" (Some fresh_node) lonely_world)
     = Raise (NodeException "No available nodes!").
Proof.
  destruct (no_available_nodes_raises_NodeException one_track_session lonely_world
              eq_refl) as (_ & Hg & Hd & _).
  split; [apply Hg; reflexivity | apply Hd].
Defined.

(** C3, as stated, fails: the exception raised is a [NodeException], not
    the [NoNodeAvailable] that [PlayerManager.create] raises. *)
Lemma get_tracks_does_not_raise_NoNodeAvailable :
  NodeManager.available_nodes (node_manager lonely_world) = []
  /\ fst (Client.get_tracks one_track_session "song" None false false lonely_world)
     <> Raise (NoNodeAvailable "No available nodes!")
  /\ fst (Client.decode_track one_track_session "QAAAjQ" None lonely_world)
     <> Raise (NoNodeAvailable "No available nodes!")
  /\ fst (Client.decode_tracks one_track_session ["QAAAjQ"] None lonely_world)
     <> Raise (NoNodeAvailable "No available nodes!").
Proof. repeat apply conj; [reflexivity | discriminate ..]. Qed.

(** C4, as amended: a call with [search_only_nodes=True] that finds no
    search-only node but some available node is answered by the node passed
    in, whatever that node is, or else by one drawn from the available
    nodes, which is then a general node: a node of the manager that is
    available and not flagged search-only.  The call leaves the flag set and
    logs the warning only if the flag was not set; repeated such calls on a
    client that has not warned yet log it exactly once; and over any sequence
    of calls and node changes from [Client.__init__] it is logged at most
    once. *)
Theorem search_only_fallback_warns_once
    (session : Node.Request -> Node.Response) :
  (forall (query : string) (node : option Node.t) (first : bool) (w : World),
     NodeManager.search_only_nodes (node_manager w) = [] ->
     NodeManager.available_nodes (node_manager w) <> [] ->
     exists (target : Node.t) (w' : World),
       Client.get_tracks session query node true first w
       = (Node.get_tracks session target query first, w')
       /\ match node with
          | Some n => target = n
          | None =>
              target ∈ NodeManager.available_nodes (node_manager w)
              /\ target ∈ NodeManager.nodes (node_manager w)
              /\ Node.available target = true
              /\ Node.search_only target = false
          end
       /\ warned_about_no_search_nodes w' = true
       /\ effects w' = effects w ++ (if warned_about_no_search_nodes w then []
                                     else [Client.no_search_nodes_warning]))
  /\ (forall (calls : list (string * option Node.t * bool)) (w : World),
        calls <> [] ->
        NodeManager.search_only_nodes (node_manager w) = [] ->
        warned_about_no_search_nodes w = false ->
        Client.warnings_emitted
          (Client.run_actions session (search_only_call <$> calls) w)
        = S (Client.warnings_emitted w))
  /\ (forall (actions : list Client.action) (connect_back : bool)
             (entropy : list nat),
        (Client.warnings_emitted
           (Client.run_actions session actions (Client.__init__ connect_back entropy))
         <= 1)%nat).
Proof.
  split; [|split].
  - intros query node first w Hs Ha.
    destruct (get_tracks_fallback_result session query node first w Hs Ha)
      as (target & w' & Heq & Hin).
    destruct (get_tracks_fallback_world session query node first w Hs) as (Hw & He).
    cbv zeta in Hw, He. rewrite Heq in Hw, He. cbn [snd] in Hw, He.
    exists target, w'. split; [exact Heq|]. split; [|auto].
    destruct node as [n|]; [exact Hin|].
    split; [exact Hin|].
    pose proof Hin as Hav. unfold NodeManager.available_nodes in Hav.
    apply list_elem_of_filter in Hav as [Hav Hnodes].
    split; [exact Hnodes|]. split; [exact Hav|].
    destruct (Node.search_only target) eqn:Hso; [|reflexivity].
    assert (Hmem : target ∈ NodeManager.search_only_nodes (node_manager w)).
    { unfold NodeManager.search_only_nodes. apply list_elem_of_filter. auto. }
    rewrite Hs in Hmem. now apply elem_of_nil in Hmem.
  - intros calls w. apply repeated_fallback_calls.
  - intros actions connect_back entropy.
    destruct (run_actions_flag_and_log session actions
                (Client.__init__ connect_back entropy)) as (_ & Hle).
    exact Hle.
Qed.

Lemma search_only_fallback_warns_once_witness :
  (exists (target : Node.t) (w' : World),
     Client.get_tracks one_track_session "song" None true false two_node_world
     = (Node.get_tracks one_track_session target "song" false, w')
     /\ (target ∈ [ready_node; second_node]
         /\ target ∈ [ready_node; second_node]
         /\ Node.available target = true
         /\ Node.search_only target = false)
     /\ warned_about_no_search_nodes w' = true
     /\ effects w' = [Client.no_search_nodes_warning])
  /\ Client.warnings_emitted
       (Client.run_actions one_track_session
          (search_only_call <$> [("song", None, false); ("song", None, true);
                                 ("other", Some ready_node, false)])
          two_node_world) = 1%nat.
Proof.
  destruct (search_only_fallback_warns_once one_track_session) as (H1 & H2 & _).
  split.
  - apply (H1 "song" None false two_node_world); [reflexivity | discriminate].
  - apply (H2 [("song", None, false); ("song", None, true);
               ("other", Some ready_node, false)] two_node_world);
      [discriminate | reflexivity | reflexivity].
Defined.

(** C4, as stated, fails: the result need not come from a general node.
    With no search-only node available and two general nodes available, a
    call that passes a node which is flagged search-only and is not
    connected is answered by that node, not by one of the general nodes. *)
Lemma given_node_need_not_be_a_general_node :
  NodeManager.search_only_nodes (node_manager two_node_world) = []
  /\ NodeManager.available_nodes (node_manager two_node_world)
     = [ready_node; second_node]
  /\ Node.available offline_search_node = false
  /\ Node.search_only offline_search_node = true
  /\ fst (Client.get_tracks echo_session "song" (Some offline_search_node) true
            false two_node_world)
     = Ok (PyStr "http://search.example:2333/loadtracks")
  /\ Node.get_tracks echo_session ready_node "song" false
     = Ok (PyStr "http://lava.example:2333/loadtracks")
  /\ Node.get_tracks echo_session second_node "song" false
     = Ok (PyStr "http://lava2.example:2334/loadtracks").
Proof. repeat apply conj; reflexivity. Qed.

(** ** The player registry ([PlayerManager.create], [PlayerManager.destroy]) *)

Section PlayerManagerFacts.

Variable get_region : option string -> string.
Variable find_best_node : NodeManager.t -> string -> option Node.t.

Lemma create_existing_same_channel (w : World) (channel : VoiceChannel)
    (endpoint : option string) (node : option Node.t) (self_deaf : bool)
    (requester : option Z) (p : ref) :
  players w !! channel_guild channel = Some p ->
  Player.channel_id (objects w p) = channel_ident channel ->
  PlayerManager.create get_region find_best_node channel endpoint node
    self_deaf requester w = (Ok p, w).
Proof.
  intros Hp Hc.
  unfold PlayerManager.create, mbind, M_bind, gets. rewrite Hp. cbn.
  rewrite Hc, Z.eqb_refl. reflexivity.
Qed.

Lemma create_existing_other_channel (w : World) (channel : VoiceChannel)
    (endpoint : option string) (node : option Node.t) (self_deaf : bool)
    (requester : option Z) (p : ref) :
  players w !! channel_guild channel = Some p ->
  Player.channel_id (objects w p) <> channel_ident channel ->
  PlayerManager.create get_region find_best_node channel endpoint node
    self_deaf requester w
  = (Ok p,
     snd (PlayerManager.Player_move_to p requester (channel_ident channel)
            self_deaf w)).
Proof.
  intros Hp Hc.
  unfold PlayerManager.create, mbind, M_bind, gets. rewrite Hp. cbn.
  apply not_eq_sym, Z.eqb_neq in Hc. rewrite Hc. reflexivity.
Qed.

Lemma destroy_absent (w : World) (guild_id : Z) (requester : option Z) :
  players w !! guild_id = None ->
  PlayerManager.destroy guild_id requester w = (Ok tt, w).
Proof.
  intros Hp. unfold PlayerManager.destroy, mbind, M_bind, gets.
  now rewrite Hp.
Qed.

Lemma destroy_without_node (w : World) (guild_id : Z) (requester : option Z)
    (p : ref) :
  players w !! guild_id = Some p ->
  Player.node (objects w p) = None ->
  PlayerManager.destroy guild_id requester w
  = (Raise AttributeError, set_players (delete guild_id (players w)) w).
Proof.
  intros Hp Hn. unfold PlayerManager.destroy, mbind, M_bind, gets.
  rewrite Hp. cbn. rewrite Hn. cbn. rewrite Hn. reflexivity.
Qed.

End PlayerManagerFacts.

Section PlayerManagerCreate.

Variable get_region : option string -> string.
Variable find_best_node : NodeManager.t -> string -> option Node.t.

(** Creating a player for a guild that has none, on a given node. *)
Lemma create_fresh (w : World) (channel : VoiceChannel)
    (endpoint : option string) (best : Node.t) (self_deaf : bool)
    (requester : option Z) :
  players w !! channel_guild channel = None ->
  exists w' : World,
    PlayerManager.create get_region find_best_node channel endpoint (Some best)
      self_deaf requester w = (Ok (next_ref w), w')
    /\ players w' = <[channel_guild channel := next_ref w]> (players w)
    /\ Player.channel_id (objects w' (next_ref w)) = channel_ident channel
    /\ effects w'
       = effects w
         ++ [VoiceConnect channel (next_ref w);
             VoiceMove (next_ref w) requester (channel_ident channel) self_deaf;
             Dispatched (Node.name best)
               (PlayerConnectedEvent (next_ref w) requester);
             Log PlayerManager.LOGGER INFO
               "[NODE-%s] Successfully created player for %s"
               [Node.name best; pretty (channel_guild channel)]].
Proof.
  intros Hp. eexists. split.
  - unfold PlayerManager.create, mbind, M_bind, gets. rewrite Hp. reflexivity.
  - cbn. rewrite ?Pos.eqb_refl. cbn. rewrite ?Pos.eqb_refl.
    repeat split. now rewrite <- !app_assoc.
Qed.

(** Two calls with the same guild and channel: the second returns the
    player the first made and does nothing else. *)
Lemma create_twice (w : World) (channel : VoiceChannel)
    (endpoint : option string) (best : Node.t) (self_deaf : bool)
    (requester : option Z) :
  players w !! channel_guild channel = None ->
  exists (p : ref) (w' : World),
    PlayerManager.create get_region find_best_node channel endpoint (Some best)
      self_deaf requester w = (Ok p, w')
    /\ forall (endpoint' : option string) (node' : option Node.t)
              (self_deaf' : bool) (requester' : option Z),
         PlayerManager.create get_region find_best_node channel endpoint' node'
           self_deaf' requester' w' = (Ok p, w').
Proof.
  intros Hp.
  destruct (create_fresh w channel endpoint best self_deaf requester Hp)
    as (w' & Hc & Hpl & Hch & _).
  exists (next_ref w), w'. split; [exact Hc|]. intros.
  apply create_existing_same_channel; [|exact Hch].
  rewrite Hpl. apply lookup_insert_eq.
Qed.

End PlayerManagerCreate.

(** C5: when the registry already holds a player [p] for the guild,
    [create] returns [p].  If [p] is bound to the requested channel nothing
    else happens: the world, hence the registry, is unchanged and no effect
    (voice connect, [PlayerConnectedEvent]) is issued.  If the channel
    differs, [p] is moved to it: the only effect is the move, the registry is
    unchanged and no player object is constructed. *)
Theorem create_existing_player
    (get_region : option string -> string)
    (find_best_node : NodeManager.t -> string -> option Node.t)
    (w : World) (channel : VoiceChannel) (endpoint : option string)
    (node : option Node.t) (self_deaf : bool) (requester : option Z) (p : ref) :
  players w !! channel_guild channel = Some p ->
  (Player.channel_id (objects w p) = channel_ident channel ->
   PlayerManager.create get_region find_best_node channel endpoint node
     self_deaf requester w = (Ok p, w))
  /\ (Player.channel_id (objects w p) <> channel_ident channel ->
      exists w' : World,
        PlayerManager.create get_region find_best_node channel endpoint node
          self_deaf requester w = (Ok p, w')
        /\ players w' = players w
        /\ next_ref w' = next_ref w
        /\ effects w'
           = effects w ++ [VoiceMove p requester (channel_ident channel) self_deaf]
        /\ Player.channel_id (objects w' p) = channel_ident channel
        /\ forall q : ref, q <> p -> objects w' q = objects w q).
Proof.
  intros Hp. split; intros Hc.
  - now apply create_existing_same_channel.
  - eexists. split; [now apply create_existing_other_channel|].
    unfold PlayerManager.Player_move_to, emit, modify, mbind, M_bind.
    cbn. repeat split.
    + now rewrite Pos.eqb_refl.
    + intros q Hq. apply Pos.eqb_neq in Hq. now rewrite Hq.
Qed.

Lemma create_existing_player_witness :
  PlayerManager.create no_region no_best_node (mk_channel 7 42) None None false
    (Some 1001) one_player_world = (Ok 1%positive, one_player_world)
  /\ exists w' : World,
       PlayerManager.create no_region no_best_node (mk_channel 8 42) None None
         false (Some 1001) one_player_world = (Ok 1%positive, w')
       /\ players w' = players one_player_world
       /\ effects w' = [VoiceMove 1%positive (Some 1001) 8 false].
Proof.
  split.
  - apply (proj1 (create_existing_player no_region no_best_node one_player_world
                    (mk_channel 7 42) None None false (Some 1001) 1%positive
                    eq_refl)).
    reflexivity.
  - destruct (proj2 (create_existing_player no_region no_best_node one_player_world
                       (mk_channel 8 42) None None false (Some 1001) 1%positive
                       eq_refl)) as (w' & Hc & Hp & _ & He & _).
    + discriminate.
    + exists w'. auto.
Defined.

(** C10: [destroy] on a guild without a player returns and leaves the
    world as it is; on a player whose node is [None] it raises
    [AttributeError] after the player has left the registry, and the player
    stays removed. *)
Theorem destroy_without_node_raises_after_pop
    (w : World) (guild_id : Z) (requester : option Z) :
  (players w !! guild_id = None ->
   PlayerManager.destroy guild_id requester w = (Ok tt, w))
  /\ (forall p : ref,
        players w !! guild_id = Some p ->
        Player.node (objects w p) = None ->
        exists w' : World,
          PlayerManager.destroy guild_id requester w = (Raise AttributeError, w')
          /\ players w' = delete guild_id (players w)
          /\ players w' !! guild_id = None
          /\ effects w' = effects w).
Proof.
  split.
  - apply destroy_absent.
  - intros p Hp Hn. eexists. split; [now apply destroy_without_node with (p := p)|].
    cbn. repeat split. apply lookup_delete_eq.
Qed.

Lemma destroy_without_node_raises_after_pop_witness :
  PlayerManager.destroy 43 None one_player_world = (Ok tt, one_player_world)
  /\ exists w' : World,
       PlayerManager.destroy 42 (Some 1001) one_player_world
       = (Raise AttributeError, w')
       /\ players w' !! 42 = None.
Proof.
  destruct (destroy_without_node_raises_after_pop one_player_world 43 None)
    as (Ha & _).
  destruct (destroy_without_node_raises_after_pop one_player_world 42 (Some 1001))
    as (_ & Hd).
  split.
  - apply Ha. reflexivity.
  - destruct (Hd 1%positive eq_refl eq_refl) as (w' & He & _ & Hn & _).
    exists w'. auto.
Defined.

(** ** The reconnect bound of a node's session *)

Lemma run_app (ws : WebSocket.t) (l1 l2 : list WebSocket.input) :
  WebSocket.run ws (l1 ++ l2)
  = let '(ws1, ev1) := WebSocket.run ws l1 in
    let '(ws2, ev2) := WebSocket.run ws1 l2 in
    (ws2, ev1 ++ ev2).
Proof.
  revert ws. induction l1 as [|i l1 IH]; intros ws; cbn.
  - now destruct (WebSocket.run ws l2).
  - destruct (WebSocket.step ws i) as [ws1 ev1]. rewrite IH.
    destruct (WebSocket.run ws1 l1) as [ws2 ev2].
    destruct (WebSocket.run ws2 l2) as [ws3 ev3].
    now rewrite app_assoc.
Qed.

(** The terminal state absorbs every further failure. *)
Lemma run_exhausted (ws : WebSocket.t) (k : nat) :
  WebSocket.session_state ws = WebSocket.Exhausted ->
  WebSocket.run ws (repeat WebSocket.HandshakeFailed k) = (ws, []).
Proof.
  intros Hs. induction k as [|k IH]; cbn; [reflexivity|].
  unfold WebSocket.step. rewrite Hs. now rewrite IH.
Qed.

(** C8: a node made with [reconnect_attempts = 3] whose session is asked to
    connect and then fails every handshake makes exactly three reconnect
    attempts, then emits [NodeDisconnected] and stays in the terminal state:
    after [n] failures the events are the first [n] of
    [attempt 1, attempt 2, attempt 3, NodeDisconnected], whatever [n]. *)
Theorem three_reconnect_attempts_then_disconnected
    (host password region : string) (resume_key : option string)
    (resume_timeout : Z) (port : option Z) (name : option string)
    (ssl search_only : bool) (n : nat) :
  let node := Node.__init__ host password region resume_key resume_timeout
                port name 3 ssl search_only in
  let outcome := WebSocket.run (Node._ws node)
                   (WebSocket.ConnectRequest
                    :: repeat WebSocket.HandshakeFailed n) in
  WebSocket.reconnect_attempts (Node._ws node) = Node.reconnect_attempts node
  /\ snd outcome
     = take n [WebSocket.ReconnectAttempt 1; WebSocket.ReconnectAttempt 2;
               WebSocket.ReconnectAttempt 3; WebSocket.NodeDisconnected]
  /\ WebSocket.session_state (fst outcome)
     = match n with
       | 0%nat => WebSocket.Connecting
       | 1%nat | 2%nat | 3%nat => WebSocket.Reconnecting
       | _ => WebSocket.Exhausted
       end
  /\ WebSocket.connected (fst outcome) = false.
Proof.
  cbv zeta. split; [reflexivity|].
  destruct n as [|[|[|[|n]]]]; try (repeat split; reflexivity).
  assert (Hl : WebSocket.ConnectRequest
               :: repeat WebSocket.HandshakeFailed (S (S (S (S n))))
               = (WebSocket.ConnectRequest :: repeat WebSocket.HandshakeFailed 4)
                 ++ repeat WebSocket.HandshakeFailed n) by reflexivity.
  rewrite Hl, run_app.
  destruct (WebSocket.run _ (WebSocket.ConnectRequest :: repeat _ 4))
    as [ws4 ev4] eqn:H4.
  cbn in H4. injection H4 as <- <-.
  rewrite run_exhausted by reflexivity.
  repeat split. cbn. now destruct n.
Qed.

(** ** Event hooks ([Client._dispatch_event]) *)

Section HookFacts.

Import Hooks.

Context {App : Type}.

Abbreviation coro := (coro App).
Abbreviation Hook := (Hook App).
Abbreviation state := (state App).
Abbreviation task := (task App).

Lemma settle_spec (name : string) (o : outcome) (st : state) :
  settle name o st
  = (Finished (wrapped o), mk_state (app st) (log st ++ settle_log name o)).
Proof.
  destruct st as [a l]. destruct o as [|e]; cbn.
  - now rewrite app_nil_r.
  - destruct (derives_Exception e); cbn; now rewrite ?app_nil_r.
Qed.

Lemma task_ok_log (event : Event) (st st' : state) (h : Hook) (t : task) :
  (forall x, x ∈ log st -> x ∈ log st') ->
  task_ok event st h t -> task_ok event st' h t.
Proof.
  intros Hsub [Hn Ht]. split; [exact Hn|].
  destruct (snd t) as [c|o']; [exact Ht|].
  destruct Ht as (o & Hr & Ho & Hl). exists o. auto.
Qed.

Lemma advance_ok (event : Event) (st st' : state) (h : Hook) (c : coro)
    (s' : task_state App) :
  task_ok event st h (__name__ h, Pending c) ->
  advance (__name__ h) c st = (s', st') ->
  task_ok event st' h (__name__ h, s')
  /\ exists l, log st' = log st ++ l.
Proof.
  intros [_ Hc] Ha. cbn in Hc. destruct c as [o|resume next]; cbn in Ha.
  - rewrite settle_spec in Ha. injection Ha as <- <-. split.
    + split; [reflexivity|]. cbn. exists o. repeat split.
      * apply Hc. constructor.
      * intros x Hx. apply elem_of_app. now right.
    + eexists. reflexivity.
  - destruct (next (app st)) as [o|r n] eqn:Hn.
    + rewrite settle_spec in Ha. injection Ha as <- <-. split.
      * split; [reflexivity|]. cbn. exists o. repeat split.
        -- apply Hc. apply runs_susp with (a := app st). rewrite Hn. constructor.
        -- intros x Hx. apply elem_of_app. now right.
      * eexists. reflexivity.
    + injection Ha as <- <-. split.
      * split; [reflexivity|]. cbn. intros o Ho.
        apply Hc. apply runs_susp with (a := app st). now rewrite Hn.
      * exists []. cbn. now rewrite app_nil_r.
Qed.

Lemma advance_nth_ok (event : Event) (hs : list Hook) (i : nat)
    (ts ts' : list task) (st st' : state) :
  Forall2 (task_ok event st) hs ts ->
  advance_nth i ts st = (ts', st') ->
  Forall2 (task_ok event st') hs ts'.
Proof.
  intros Hall Ha. unfold advance_nth in Ha.
  destruct (ts !! i) as [[name [c|o]]|] eqn:Hi;
    try (injection Ha as <- <-; exact Hall).
  destruct (advance name c st) as [s' st1] eqn:Hadv.
  injection Ha as <- <-.
  destruct (Forall2_lookup_r _ _ _ _ _ Hall Hi) as (h & Hh & Hok).
  assert (Hname : name = __name__ h) by (destruct Hok as [Hn _]; exact Hn).
  subst name.
  destruct (advance_ok event st st1 h c s' Hok Hadv) as (Hok' & l & Hl).
  rewrite <- (list_insert_id hs i h Hh).
  apply Forall2_insert; [|exact Hok'].
  eapply Forall2_impl; [exact Hall|].
  intros h' t' Ht'. eapply task_ok_log; [|exact Ht'].
  intros x Hx. rewrite Hl. apply elem_of_app. now left.
Qed.



Lemma tasks_of_ok (event : Event) (st : state) (hs : list Hook) :
  Forall2 (task_ok event st) hs (tasks_of hs event).
Proof.
  induction hs as [|h hs IH]; cbn; constructor; [|exact IH].
  split; [reflexivity|]. cbn. auto.
Qed.

(** *** The wait does return *)



(** *** Tasks that cannot stop the event loop *)











End HookFacts.

Section HookClaims.

Import Hooks.

Context {App : Type}.



(** What [_dispatch_event] amounts to: nothing when no hook is registered,
    else the wait on one task per hook followed by the debug record. *)
Lemma dispatch_event_unfold (hooks : registry App) (event : Event)
    (schedule : list nat) (st : state App) :
  let hs := hooks_for hooks "Generic" ++ hooks_for hooks (event_class_name event) in
  _dispatch_event hooks event schedule st
  = match hs with
    | [] => Some (Ok tt, st)
    | _ =>
        match wait schedule (tasks_of hs event) st with
        | Some (_, st') =>
            Some (Ok tt, mk_state (app st') (log st' ++ [dispatched_debug event]))
        | None => None
        end
    end.
Proof.
  cbv zeta. unfold _dispatch_event.
  destruct (hooks_for hooks "Generic") as [|g gs];
    destruct (hooks_for hooks (event_class_name event)) as [|t ts]; reflexivity.
Qed.

End HookClaims.



(** ** More on [Penalty.__init__] and [Stats.__init__] *)

Section PenaltyShapes.

Variable float_pow : float -> float -> result float.

Lemma py_add_float_r (a : pyval) (x : float) (s : pyval) :
  py_add a (PyFloat x) = Ok s -> exists u, s = PyFloat u.
Proof.
  unfold py_add. change (as_number (PyFloat x)) with (Some (@inr Z _ x)).
  destruct (as_number a) as [[z|g]|]; intros H; inv_ok; eauto.
  destruct a; discriminate.
Qed.

Lemma py_add_float_l (x : float) (b s : pyval) :
  py_add (PyFloat x) b = Ok s -> exists u, s = PyFloat u.
Proof.
  unfold py_add. change (as_number (PyFloat x)) with (Some (@inr Z _ x)).
  destruct (as_number b) as [[z|g]|]; intros H; inv_ok; eauto.
Qed.

Lemma py_sub_float_l (x : float) (b s : pyval) :
  py_sub (PyFloat x) b = Ok s -> exists u, s = PyFloat u.
Proof.
  unfold py_sub. change (as_number (PyFloat x)) with (Some (@inr Z _ x)).
  destruct (as_number b) as [[z|g]|]; intros H; inv_ok; eauto.
Qed.

(** A frame penalty, when it can be computed, is a double. *)
Lemma frame_penalty_float (frames : pyval) (scale : Z) (r : pyval) :
  frame_penalty_of float_pow frames scale = Ok r -> exists f, r = PyFloat f.
Proof.
  unfold frame_penalty_of. intros H.
  apply bind_ok in H as (q & _ & H).
  apply bind_ok in H as (e & _ & H).
  apply bind_ok in H as (p & Hp & H).
  apply bind_ok in H as (m & Hm & H).
  apply py_pow_float_l in Hp as (x & ->).
  apply py_mul_float_l in Hm as (y & ->).
  now apply py_sub_float_l in H.
Qed.

(** A counter that is not a number cannot be divided. *)
Lemma frame_penalty_not_a_number (frames : pyval) (scale : Z) :
  as_number frames = None ->
  frame_penalty_of float_pow frames scale = Raise TypeError.
Proof.
  intros H. unfold frame_penalty_of, py_truediv. now rewrite H.
Qed.

Lemma cpu_penalty_not_a_number (stats : Stats.slots) :
  as_number (Stats.system_load stats) = None ->
  cpu_penalty_of float_pow stats = Raise TypeError.
Proof.
  intros H. unfold cpu_penalty_of.
  destruct (Stats.system_load stats) as [|b|z|f|s|l|d]; try discriminate H;
    reflexivity.
Qed.

Lemma py_eq_int_not_a_number (v : pyval) (k : Z) :
  as_number v = None -> py_eq_int v k = false.
Proof. intros H. unfold py_eq_int. now rewrite H. Qed.

Lemma py_add_not_a_number (a : pyval) (x : float) :
  as_number a = None -> py_add a (PyFloat x) = Raise TypeError.
Proof.
  intros H. unfold py_add. rewrite H. destruct a; try discriminate H; reflexivity.
Qed.

(** With the integer [0] reported, a frame penalty is the double [0.0],
    given that the power function is right at the exponent [0.0]. *)
Lemma frame_penalty_zero (scale : Z) :
  (forall x : float, float_pow x 0%float = Ok 1%float) ->
  scale = 300 \/ scale = 600 ->
  frame_penalty_of float_pow (PyInt 0) scale = Ok (PyFloat 0).
Proof.
  intros Hpow Hs. unfold frame_penalty_of.
  assert (E1 : py_truediv (PyInt 0) (PyInt 3000) = Ok (PyFloat 0)) by reflexivity.
  rewrite E1. cbn [mbind result_bind].
  assert (E2 : py_mul (PyInt 500) (PyFloat 0) = Ok (PyFloat 0)) by reflexivity.
  rewrite E2. cbn [mbind result_bind].
  assert (E3 : py_pow float_pow (PyFloat 1.03) (PyFloat 0) = Ok (PyFloat 1)).
  { unfold py_pow. cbn. now rewrite Hpow. }
  rewrite E3. cbn [mbind result_bind].
  destruct Hs as [-> | ->]; reflexivity.
Qed.

(** Adding the players to a CPU penalty gives a double that two [0.0]
    leave as it is. *)
Lemma sum_plus_float_zeros (a : pyval) (x : float) (s : pyval) :
  Prim2SF x <> S754_zero true ->
  py_add a (PyFloat x) = Ok s ->
  (s1 ← py_add s (PyFloat 0); py_add s1 (PyFloat 0)) = Ok s.
Proof.
  intros Hx Hs.
  assert (exists u, s = PyFloat u /\ Prim2SF u <> S754_zero true) as (u & -> & Hu).
  { revert Hs. unfold py_add.
    change (as_number (PyFloat x)) with (Some (@inr Z _ x)).
    destruct (as_number a) as [[z|g]|]; intros H; inv_ok.
    - eexists; split; [reflexivity|].
      intros Hz. apply float_add_neg_zero in Hz as [_ Hz]. exact (Hx Hz).
    - eexists; split; [reflexivity|].
      intros Hz. apply float_add_neg_zero in Hz as [_ Hz]. exact (Hx Hz).
    - destruct a; discriminate. }
  change (py_add (PyFloat u) (PyFloat 0)) with (Ok (PyFloat (u + 0)%float)).
  cbn [mbind result_bind].
  change (py_add (PyFloat (u + 0)) (PyFloat 0)) with (Ok (PyFloat (u + 0 + 0)%float)).
  now rewrite !float_add_zero by (rewrite ?float_add_zero; assumption).
Qed.

End PenaltyShapes.

(** X1: whenever [Penalty.__init__] succeeds, [player_penalty] is the
    reported number of playing players as it came, [cpu_penalty] and [total]
    are doubles, and each frame penalty is the integer [0] when its counter
    equals [-1] and a double otherwise. *)
Theorem Penalty_init_field_types
    (float_pow : float -> float -> result float)
    (stats : Stats.slots) (p : Penalty.t) :
  Penalty__init__ float_pow stats = Ok p ->
  Penalty.player_penalty p = Stats.playing_players stats
  /\ (exists c, Penalty.cpu_penalty p = PyFloat c)
  /\ (if py_eq_int (Stats.frames_nulled stats) (-1)
      then Penalty.null_frame_penalty p = PyInt 0
      else exists f, Penalty.null_frame_penalty p = PyFloat f)
  /\ (if py_eq_int (Stats.frames_deficit stats) (-1)
      then Penalty.deficit_frame_penalty p = PyInt 0
      else exists f, Penalty.deficit_frame_penalty p = PyFloat f)
  /\ (exists t, Penalty.total p = PyFloat t).
Proof.
  unfold Penalty__init__, py_ne_int. intros H.
  apply bind_ok in H as (cpu & Hcpu & H).
  apply bind_ok in H as (nul & Hnul & H).
  apply bind_ok in H as (def & Hdef & H).
  apply bind_ok in H as (s1 & Hs1 & H).
  apply bind_ok in H as (s2 & Hs2 & H).
  apply bind_ok in H as (tot & Htot & H).
  injection H as <-. cbn.
  apply cpu_penalty_not_neg_zero in Hcpu as (c & -> & _).
  apply py_add_float_r in Hs1 as (u1 & ->).
  apply py_add_float_l in Hs2 as (u2 & ->).
  apply py_add_float_l in Htot as (u3 & ->).
  split; [reflexivity|]. split; [eauto|]. split; [|split; [|eauto]].
  - destruct (py_eq_int (Stats.frames_nulled stats) (-1)); cbn in Hnul.
    + now injection Hnul as <-.
    + apply bind_ok in Hnul as (n & Hn & Hnul).
      apply frame_penalty_float in Hn as (f & ->).
      now apply py_mul_float_l in Hnul.
  - destruct (py_eq_int (Stats.frames_deficit stats) (-1)); cbn in Hdef.
    + now injection Hdef as <-.
    + now apply frame_penalty_float in Hdef.
Qed.

Lemma Penalty_init_field_types_witness :
  Penalty__init__ pow_at_zero zero_frames_slots
    = Ok (Penalty.mk (PyInt 2) (PyFloat 0) (PyFloat 0) (PyFloat 0) (PyFloat 2))
  /\ exists t, PyFloat 2 = PyFloat t.
Proof.
  split; [reflexivity|].
  exact (proj2 (proj2 (proj2 (proj2
    (Penalty_init_field_types pow_at_zero zero_frames_slots
       (Penalty.mk (PyInt 2) (PyFloat 0) (PyFloat 0) (PyFloat 0) (PyFloat 2))
       eq_refl))))).
Defined.

(** X2: a statistic that is present but not a number makes
    [Penalty.__init__] raise [TypeError]: the system load always; the counter
    of nulled frames once the CPU penalty has been computed; the counter of
    deficit frames once the CPU penalty and the null-frame penalty have been
    computed; the number of playing players once the three penalties have
    been computed. *)
Theorem Penalty_init_type_errors
    (float_pow : float -> float -> result float) (stats : Stats.slots) :
  (as_number (Stats.system_load stats) = None ->
   Penalty__init__ float_pow stats = Raise TypeError)
  /\ (forall c, cpu_penalty_of float_pow stats = Ok c ->
      as_number (Stats.frames_nulled stats) = None ->
      Penalty__init__ float_pow stats = Raise TypeError)
  /\ (forall c nul,
      cpu_penalty_of float_pow stats = Ok c ->
      (if py_ne_int (Stats.frames_nulled stats) (-1)
       then n ← frame_penalty_of float_pow (Stats.frames_nulled stats) 300;
            py_mul n (PyInt 2)
       else Ok (PyInt 0)) = Ok nul ->
      as_number (Stats.frames_deficit stats) = None ->
      Penalty__init__ float_pow stats = Raise TypeError)
  /\ (forall c nul def,
      cpu_penalty_of float_pow stats = Ok c ->
      (if py_ne_int (Stats.frames_nulled stats) (-1)
       then n ← frame_penalty_of float_pow (Stats.frames_nulled stats) 300;
            py_mul n (PyInt 2)
       else Ok (PyInt 0)) = Ok nul ->
      (if py_ne_int (Stats.frames_deficit stats) (-1)
       then frame_penalty_of float_pow (Stats.frames_deficit stats) 600
       else Ok (PyInt 0)) = Ok def ->
      as_number (Stats.playing_players stats) = None ->
      Penalty__init__ float_pow stats = Raise TypeError).
Proof.
  unfold Penalty__init__. split; [|split; [|split]].
  - intros H. now rewrite cpu_penalty_not_a_number.
  - intros c Hc H. rewrite Hc. cbn [mbind result_bind]. unfold py_ne_int.
    rewrite (py_eq_int_not_a_number (Stats.frames_nulled stats)) by assumption.
    cbn [negb].
    now rewrite (frame_penalty_not_a_number _ (Stats.frames_nulled stats)).
  - intros c nul Hc Hn H. rewrite Hc. cbn [mbind result_bind].
    rewrite Hn. cbn [mbind result_bind]. unfold py_ne_int.
    rewrite (py_eq_int_not_a_number (Stats.frames_deficit stats)) by assumption.
    cbn [negb].
    now rewrite (frame_penalty_not_a_number _ (Stats.frames_deficit stats)).
  - intros c nul def Hc Hn Hd H. rewrite Hc. cbn [mbind result_bind].
    rewrite Hn. cbn [mbind result_bind]. rewrite Hd. cbn [mbind result_bind].
    apply cpu_penalty_not_neg_zero in Hc as (x & -> & _).
    now rewrite py_add_not_a_number.
Qed.

Lemma Penalty_init_type_errors_witness :
  Penalty__init__ pow_at_zero null_load_slots = Raise TypeError
  /\ Penalty__init__ pow_at_zero null_counter_slots = Raise TypeError
  /\ Penalty__init__ pow_at_zero null_deficit_slots = Raise TypeError
  /\ Penalty__init__ pow_at_zero null_players_slots = Raise TypeError.
Proof.
  split; [|split; [|split]].
  - apply (proj1 (Penalty_init_type_errors pow_at_zero null_load_slots)).
    reflexivity.
  - apply (proj1 (proj2 (Penalty_init_type_errors pow_at_zero null_counter_slots))
             (PyFloat 0)); reflexivity.
  - apply (proj1 (proj2 (proj2
             (Penalty_init_type_errors pow_at_zero null_deficit_slots)))
             (PyFloat 0) (PyFloat 0)); reflexivity.
  - apply (proj2 (proj2 (proj2
             (Penalty_init_type_errors pow_at_zero null_players_slots)))
             (PyFloat 0) (PyFloat 0) (PyFloat 0)); reflexivity.
Defined.

(** X3: with [x ** 0.0 = 1.0] (as Python's [**] has it), a node that
    reports both frame counters as the integer [0] gets the same total as a
    node that does not report them, [playing_players + cpu_penalty]; the two
    frame penalties are then the double [0.0], not the integer [0]. *)
Theorem Penalty_init_zero_counters
    (float_pow : float -> float -> result float) (stats : Stats.slots) :
  (forall x : float, float_pow x 0%float = Ok 1%float) ->
  Stats.frames_nulled stats = PyInt 0 ->
  Stats.frames_deficit stats = PyInt 0 ->
  Penalty__init__ float_pow stats =
    (cpu ← cpu_penalty_of float_pow stats;
     total ← py_add (Stats.playing_players stats) cpu;
     Ok (Penalty.mk (Stats.playing_players stats) cpu (PyFloat 0) (PyFloat 0) total)).
Proof.
  intros Hpow Hn Hd. unfold Penalty__init__. rewrite Hn, Hd.
  change (py_ne_int (PyInt 0) (-1)) with true. cbv iota.
  rewrite !frame_penalty_zero by auto.
  cbn [mbind result_bind].
  change (py_mul (PyFloat 0) (PyInt 2)) with (Ok (PyFloat 0)).
  cbn [mbind result_bind].
  destruct (cpu_penalty_of float_pow stats) as [c|e] eqn:Hc; [|reflexivity].
  apply cpu_penalty_not_neg_zero in Hc as (x & -> & Hx). cbn [mbind result_bind].
  destruct (py_add (Stats.playing_players stats) (PyFloat x)) as [s|e] eqn:Hs;
    [|reflexivity].
  pose proof (sum_plus_float_zeros _ _ _ Hx Hs) as Hz. cbn [mbind result_bind] in Hz |- *.
  destruct (py_add s (PyFloat 0)) as [s1|e1]; [|discriminate]. cbn [mbind result_bind] in Hz |- *.
  now rewrite Hz.
Qed.

Lemma Penalty_init_zero_counters_witness :
  Penalty__init__ pow_at_zero zero_frames_slots
    = Ok (Penalty.mk (PyInt 2) (PyFloat 0) (PyFloat 0) (PyFloat 0) (PyFloat 2)).
Proof.
  rewrite (Penalty_init_zero_counters pow_at_zero zero_frames_slots).
  - reflexivity.
  - intros x. reflexivity.
  - reflexivity.
  - reflexivity.
Defined.

(** *** What [Stats.__init__] needs from a report *)

Lemma py_getitem_str_cases (v : pyval) (k : string) :
  (exists x, py_getitem v (PyStr k) = Ok x)
  \/ py_getitem v (PyStr k) = Raise KeyError
  \/ py_getitem v (PyStr k) = Raise TypeError.
Proof.
  destruct v as [|b|z|f|s|l|d]; cbn; auto.
  destruct (assoc k d); eauto.
Qed.

Ltac getitem_step :=
  match goal with
  | |- context [py_getitem ?v (PyStr ?k) ≫= _] =>
      destruct (py_getitem_str_cases v k) as [[? ->]|[->| ->]];
      cbn [mbind result_bind]; auto
  end.

(** X4: [Stats.__init__] succeeds only on a JSON object that has the keys
    [uptime], [players], [playingPlayers], [memory] and [cpu], the last two
    being objects with their own keys, and whose [frameStats], when present,
    is an object.  The slots hold the reported values as they came; a frame
    counter missing from [frameStats] is [-1], each on its own; and the
    penalty stored is the one [Penalty.__init__] computes from the slots. *)
Theorem Stats_init_reads_the_report
    (float_pow : float -> float -> result float) (data : pyval) (s : Stats.t) :
  Stats__init__ float_pow data = Ok s ->
  exists d memory cpu frame_stats : list (string * pyval),
    data = PyDict d
    /\ assoc "uptime" d = Some (Stats.uptime (Stats.fields s))
    /\ assoc "players" d = Some (Stats.players (Stats.fields s))
    /\ assoc "playingPlayers" d = Some (Stats.playing_players (Stats.fields s))
    /\ assoc "memory" d = Some (PyDict memory)
    /\ assoc "free" memory = Some (Stats.memory_free (Stats.fields s))
    /\ assoc "used" memory = Some (Stats.memory_used (Stats.fields s))
    /\ assoc "allocated" memory = Some (Stats.memory_allocated (Stats.fields s))
    /\ assoc "reservable" memory = Some (Stats.memory_reservable (Stats.fields s))
    /\ assoc "cpu" d = Some (PyDict cpu)
    /\ assoc "cores" cpu = Some (Stats.cpu_cores (Stats.fields s))
    /\ assoc "systemLoad" cpu = Some (Stats.system_load (Stats.fields s))
    /\ assoc "lavalinkLoad" cpu = Some (Stats.lavalink_load (Stats.fields s))
    /\ match assoc "frameStats" d with
       | Some v => v = PyDict frame_stats
       | None => frame_stats = []
       end
    /\ Stats.frames_sent (Stats.fields s)
       = default (PyInt (-1)) (assoc "sent" frame_stats)
    /\ Stats.frames_nulled (Stats.fields s)
       = default (PyInt (-1)) (assoc "nulled" frame_stats)
    /\ Stats.frames_deficit (Stats.fields s)
       = default (PyInt (-1)) (assoc "deficit" frame_stats)
    /\ Penalty__init__ float_pow (Stats.fields s) = Ok (Stats.penalty s).
Proof.
  unfold Stats__init__. intros H.
  apply bind_ok in H as (uptime & Hup & H).
  apply bind_ok in H as (players & Hpl & H).
  apply bind_ok in H as (playing & Hpp & H).
  apply bind_ok in H as (memory & Hmem & H).
  apply bind_ok in H as (mfree & Hmf & H).
  apply bind_ok in H as (mused & Hmu & H).
  apply bind_ok in H as (malloc & Hma & H).
  apply bind_ok in H as (mres & Hmr & H).
  apply bind_ok in H as (cpu & Hcpu & H).
  apply bind_ok in H as (cores & Hco & H).
  apply bind_ok in H as (sload & Hsl & H).
  apply bind_ok in H as (lload & Hll & H).
  apply bind_ok in H as (fstats & Hfs & H).
  apply bind_ok in H as (fsent & Hfsent & H).
  apply bind_ok in H as (fnull & Hfnull & H).
  apply bind_ok in H as (fdef & Hfdef & H).
  apply bind_ok in H as (pen & Hpen & H).
  injection H as <-. cbn [Stats.fields Stats.penalty].
  apply py_getitem_str_ok in Hup as (d & -> & Hup).
  apply py_getitem_str_ok in Hpl as (? & [= <-] & Hpl).
  apply py_getitem_str_ok in Hpp as (? & [= <-] & Hpp).
  apply py_getitem_str_ok in Hmem as (? & [= <-] & Hmem).
  apply py_getitem_str_ok in Hmf as (m & -> & Hmf).
  apply py_getitem_str_ok in Hmu as (? & [= <-] & Hmu).
  apply py_getitem_str_ok in Hma as (? & [= <-] & Hma).
  apply py_getitem_str_ok in Hmr as (? & [= <-] & Hmr).
  apply py_getitem_str_ok in Hcpu as (? & [= <-] & Hcpu).
  apply py_getitem_str_ok in Hco as (c & -> & Hco).
  apply py_getitem_str_ok in Hsl as (? & [= <-] & Hsl).
  apply py_getitem_str_ok in Hll as (? & [= <-] & Hll).
  apply py_get_ok in Hfs as (? & [= <-] & Hfs).
  apply py_get_ok in Hfsent as (fs & -> & ->).
  apply py_get_ok in Hfnull as (? & [= <-] & ->).
  apply py_get_ok in Hfdef as (? & [= <-] & ->).
  exists d, m, c, fs. cbn [Stats.uptime Stats.players Stats.playing_players
    Stats.memory_free Stats.memory_used Stats.memory_allocated
    Stats.memory_reservable Stats.cpu_cores Stats.system_load
    Stats.lavalink_load Stats.frames_sent Stats.frames_nulled
    Stats.frames_deficit].
  split; [reflexivity|].
  repeat (split; [assumption|]).
  split.
  - destruct (assoc "frameStats" d); congruence.
  - split; [now destruct (assoc "sent" fs)|].
    split; [now destruct (assoc "nulled" fs)|].
    split; [now destruct (assoc "deficit" fs)|].
    exact Hpen.
Qed.

Lemma Stats_init_reads_the_report_witness :
  Stats__init__ pow_at_zero (PyDict partial_frames_report)
    = Ok (Stats.mk
            (Stats.mk_slots (PyInt 1000) (PyInt 3) (PyInt 2) (PyInt 10) (PyInt 20)
               (PyInt 30) (PyInt 40) (PyInt 4) (PyFloat 0) (PyFloat 0)
               (PyInt 6000) (PyInt (-1)) (PyInt (-1)))
            idle_penalty)
  /\ exists d : list (string * pyval),
       PyDict partial_frames_report = PyDict d
       /\ assoc "uptime" d = Some (PyInt 1000).
Proof.
  split; [reflexivity|].
  destruct (Stats_init_reads_the_report pow_at_zero (PyDict partial_frames_report)
              (Stats.mk
                 (Stats.mk_slots (PyInt 1000) (PyInt 3) (PyInt 2) (PyInt 10)
                    (PyInt 20) (PyInt 30) (PyInt 40) (PyInt 4) (PyFloat 0)
                    (PyFloat 0) (PyInt 6000) (PyInt (-1)) (PyInt (-1)))
                 idle_penalty) eq_refl)
    as (d & _ & _ & _ & Hd & Hu & _).
  exists d. split; [exact Hd | exact Hu].
Defined.

(** X5: how [Stats.__init__] fails on a malformed report.  A report that
    is not a JSON object raises [TypeError]; an object that lacks one of
    [uptime], [players], [playingPlayers], [memory], [cpu] raises [KeyError]
    (or [TypeError], when a [memory] read before the missing key is not an
    object); a [frameStats] that is present but not an object, such as
    [null], makes the constructor raise [KeyError], [TypeError] or
    [AttributeError], the latter when the rest of the report is well
    formed.  No [Stats] object is built in any of these cases. *)
Theorem Stats_init_malformed_report
    (float_pow : float -> float -> result float) :
  (forall data : pyval,
     (forall d, data <> PyDict d) ->
     Stats__init__ float_pow data = Raise TypeError)
  /\ (forall (d : list (string * pyval)) (k : string),
        k ∈ ["uptime"; "players"; "playingPlayers"; "memory"; "cpu"] ->
        assoc k d = None ->
        Stats__init__ float_pow (PyDict d) = Raise KeyError
        \/ Stats__init__ float_pow (PyDict d) = Raise TypeError)
  /\ (forall (d : list (string * pyval)) (v : pyval),
        assoc "frameStats" d = Some v ->
        (forall fs, v <> PyDict fs) ->
        Stats__init__ float_pow (PyDict d) = Raise KeyError
        \/ Stats__init__ float_pow (PyDict d) = Raise TypeError
        \/ Stats__init__ float_pow (PyDict d) = Raise AttributeError).
Proof.
  split; [|split].
  - intros data Hd. unfold Stats__init__.
    destruct data as [|b|z|f|s|l|d]; try reflexivity.
    now destruct (Hd d).
  - intros d k Hk Hnone.
    assert (Hget : py_getitem (PyDict d) (PyStr k) = Raise KeyError).
    { cbn. now rewrite Hnone. }
    unfold Stats__init__.
    repeat (apply elem_of_cons in Hk as [-> | Hk]);
      [ .. | apply elem_of_nil in Hk; contradiction ];
      rewrite Hget; repeat getitem_step.
  - intros d v Hv Hnot.
    unfold Stats__init__. repeat getitem_step.
    cbn [py_get]. rewrite Hv. cbn [mbind result_bind].
    destruct v as [| | | | | |fs]; cbn; auto.
    now destruct (Hnot fs).
Qed.

Lemma Stats_init_malformed_report_witness :
  Stats__init__ pow_at_zero (PyList []) = Raise TypeError
  /\ (Stats__init__ pow_at_zero (PyDict [("uptime", PyInt 1000)]) = Raise KeyError
      \/ Stats__init__ pow_at_zero (PyDict [("uptime", PyInt 1000)]) = Raise TypeError)
  /\ (Stats__init__ pow_at_zero (PyDict null_frames_report) = Raise KeyError
      \/ Stats__init__ pow_at_zero (PyDict null_frames_report) = Raise TypeError
      \/ Stats__init__ pow_at_zero (PyDict null_frames_report) = Raise AttributeError).
Proof.
  destruct (Stats_init_malformed_report pow_at_zero) as (H1 & H2 & H3).
  split; [|split].
  - apply H1. discriminate.
  - apply (H2 [("uptime", PyInt 1000)] "cpu").
    + repeat constructor.
    + reflexivity.
  - apply (H3 null_frames_report PyNone).
    + reflexivity.
    + discriminate.
Defined.

(** ** More on the node: construction and the remaining REST calls *)

Lemma append_nonempty_r (s t : string) :
  t <> EmptyString -> s +:+ t <> EmptyString.
Proof.
  intros Ht. destruct s as [|a s]; [exact Ht | discriminate].
Qed.

(** X6: a node always has a name: the one given, or, when none or the
    empty string is given, [region-host:port] with the port the node ends up
    with (443 with SSL and 80 without when no port is given).  Passing the
    empty name is the same as passing none.  A node just constructed has no
    stats and reports the sentinel penalty [9e30]. *)
Theorem Node_init_defaults (host password region : string)
    (resume_key : option string) (resume_timeout : Z) (port : option Z)
    (name : option string) (reconnect_attempts : Z) (ssl search_only : bool) :
  let n := Node.__init__ host password region resume_key resume_timeout port
             name reconnect_attempts ssl search_only in
  Node.name n <> EmptyString
  /\ Node.name n
     = match name with
       | Some (String a s) => String a s
       | _ => region +:+ "-" +:+ host +:+ ":" +:+ pretty (Node.port n)
       end
  /\ Node.port n
     = match port with
       | Some p => p
       | None => if ssl then 443 else 80
       end
  /\ Node.__init__ host password region resume_key resume_timeout port
       (Some EmptyString) reconnect_attempts ssl search_only
     = Node.__init__ host password region resume_key resume_timeout port
         None reconnect_attempts ssl search_only
  /\ Node.stats n = None
  /\ Node.penalty n = Ok (PyFloat 9e30).
Proof.
  cbv zeta. split; [|split; [|split; [|split; [|split]]]].
  - unfold Node.name, Node.__init__. cbn [Node._name].
    destruct name as [[|a s]|]; cbn [String.eqb]; try discriminate;
      apply append_nonempty_r; discriminate.
  - unfold Node.name, Node.port, Node.__init__. cbn [Node._name Node._port].
    now destruct name as [[|a s]|].
  - reflexivity.
  - reflexivity.
  - reflexivity.
  - unfold Node.penalty, Node.stats, Node.__init__. cbn [Node._stats].
    rewrite bool_decide_false by (intros [x Hx]; discriminate Hx).
    now rewrite orb_true_r.
Qed.

(** X7: the two route-planner calls that free addresses raise only what
    the POST request itself fails with.  Once the request is answered they
    return a boolean whatever the status: [True] exactly when it is 204, and
    [False] on a 401 or 403, where [routeplanner_status] raises
    [Unauthorized].  The client's wrappers hand the call to the given node
    without looking at the pool of available nodes and leave the client as
    it is. *)
Theorem routeplanner_free_outcomes
    (session : Node.Request -> Node.Response)
    (post : Node.Request -> result Node.Response) (self : Node.t)
    (address : string) (w : World) :
  (forall res : Node.Response,
     post (Node.routeplanner_free_address_request self address) = Ok res ->
     Client.routeplanner_free_address post self address w
     = (Ok (PyBool (Node.status res =? 204)), w)
     /\ (Node.status res = 401 \/ Node.status res = 403 ->
         Client.routeplanner_free_address post self address w
         = (Ok (PyBool false), w)))
  /\ (forall e : exn,
        post (Node.routeplanner_free_address_request self address) = Raise e ->
        Client.routeplanner_free_address post self address w = (Raise e, w))
  /\ (forall res : Node.Response,
        post (Node.routeplanner_free_all_request self) = Ok res ->
        Client.routeplanner_free_all_failing post self w
        = (Ok (PyBool (Node.status res =? 204)), w)
        /\ (Node.status res = 401 \/ Node.status res = 403 ->
            Client.routeplanner_free_all_failing post self w
            = (Ok (PyBool false), w)))
  /\ (forall e : exn,
        post (Node.routeplanner_free_all_request self) = Raise e ->
        Client.routeplanner_free_all_failing post self w = (Raise e, w))
  /\ (Node.status (session (Node.routeplanner_status_request self)) = 401
      \/ Node.status (session (Node.routeplanner_status_request self)) = 403 ->
      Client.routeplanner_status session self w = (Raise Unauthorized, w)).
Proof.
  unfold Client.routeplanner_free_address, Client.routeplanner_free_all_failing,
    Client.routeplanner_status, lift, Node.routeplanner_free_address,
    Node.routeplanner_free_all_failing, Node.routeplanner_status.
  split; [|split; [|split; [|split]]].
  - intros res ->. cbn [mbind result_bind]. split; [reflexivity|].
    intros [H | H]; now rewrite H.
  - now intros e ->.
  - intros res ->. cbn [mbind result_bind]. split; [reflexivity|].
    intros [H | H]; now rewrite H.
  - now intros e ->.
  - now intros [-> | ->].
Qed.

Lemma routeplanner_free_outcomes_witness :
  Client.routeplanner_free_address forbidden_post ready_node "1.2.3.4" lonely_world
    = (Ok (PyBool false), lonely_world)
  /\ Client.routeplanner_status forbidden_session ready_node lonely_world
     = (Raise Unauthorized, lonely_world)
  /\ Client.routeplanner_free_all_failing no_content_post ready_node lonely_world
     = (Ok (PyBool true), lonely_world)
  /\ Client.routeplanner_free_address timed_out_post ready_node "1.2.3.4" lonely_world
     = (Raise (OtherError "TimeoutError" true), lonely_world).
Proof.
  destruct (routeplanner_free_outcomes forbidden_session forbidden_post ready_node
              "1.2.3.4" lonely_world) as (Ha & _ & _ & _ & Hs).
  destruct (routeplanner_free_outcomes forbidden_session no_content_post ready_node
              "1.2.3.4" lonely_world) as (_ & _ & Hall & _).
  destruct (routeplanner_free_outcomes forbidden_session timed_out_post ready_node
              "1.2.3.4" lonely_world) as (_ & Hraise & _).
  split; [|split; [|split]].
  - apply (proj2 (Ha _ eq_refl)). right. reflexivity.
  - apply Hs. right. reflexivity.
  - exact (proj1 (Hall _ eq_refl)).
  - exact (Hraise _ eq_refl).
Defined.

(** X8: [get_tracks(query, first=True)] on a 200 answer that is not what
    the code expects.  A body that is not a JSON object raises
    [AttributeError]; an object whose ["tracks"] is [null], a number or a
    boolean raises [TypeError], and one whose ["tracks"] is an object raises
    [KeyError].  With [first=False] the same body is returned as it is. *)
Theorem get_tracks_first_on_unexpected_body
    (session : Node.Request -> Node.Response) (self : Node.t) (query : string)
    (body : pyval) :
  Node.status (session (Node.loadtracks_request self query)) = 200 ->
  Node.json (session (Node.loadtracks_request self query)) = Ok body ->
  Node.get_tracks session self query false = Ok body
  /\ ((forall d, body <> PyDict d) ->
      Node.get_tracks session self query true = Raise AttributeError)
  /\ (forall (d : list (string * pyval)) (v : pyval),
        body = PyDict d -> assoc "tracks" d = Some v ->
        (v = PyNone \/ (exists b, v = PyBool b) \/ (exists z, v = PyInt z)
         \/ (exists f, v = PyFloat f) ->
         Node.get_tracks session self query true = Raise TypeError)
        /\ ((exists o, v = PyDict o) ->
            Node.get_tracks session self query true = Raise KeyError)).
Proof.
  intros Hs Hj. unfold Node.get_tracks. rewrite Hs, Hj. cbn.
  split; [reflexivity|]. split.
  - intros Hb. destruct body as [| | | | | |d]; try reflexivity.
    now destruct (Hb d).
  - intros d v -> Hv. cbn. rewrite Hv. split.
    + intros [-> | [[b ->] | [[z ->] | [f ->]]]]; reflexivity.
    + intros [o ->]. reflexivity.
Qed.

Lemma get_tracks_first_on_unexpected_body_witness :
  Node.get_tracks list_body_session ready_node "song" true = Raise AttributeError
  /\ Node.get_tracks null_tracks_session ready_node "song" true = Raise TypeError
  /\ Node.get_tracks null_tracks_session ready_node "song" false
     = Ok (PyDict [("loadType", PyStr "LOAD_FAILED"); ("tracks", PyNone)]).
Proof.
  split; [|split].
  - apply (proj1 (proj2 (get_tracks_first_on_unexpected_body list_body_session
                           ready_node "song" _ eq_refl eq_refl))).
    discriminate.
  - apply (proj1 (proj2 (proj2 (get_tracks_first_on_unexpected_body
                                  null_tracks_session ready_node "song" _
                                  eq_refl eq_refl)) _ PyNone eq_refl eq_refl)).
    left. reflexivity.
  - apply (proj1 (get_tracks_first_on_unexpected_body null_tracks_session
                    ready_node "song" _ eq_refl eq_refl)).
Defined.

(** ** More on the client facade: which node answers *)

Section ClientTargets.

Variable session : Node.Request -> Node.Response.

(** What [random.choice] draws from a non-empty pool. *)
Lemma random_choice_spec (nodes : list Node.t) (w : World) :
  nodes <> [] ->
  exists target,
    random_choice nodes w = (Ok target, set_entropy (tail (entropy w)) w)
    /\ target ∈ nodes.
Proof.
  intros Hne. unfold random_choice.
  set (k := match entropy w with [] => O | k :: _ => k end).
  assert (Hlt : (k mod length nodes < length nodes)%nat).
  { apply Nat.mod_upper_bound. destruct nodes; [congruence | discriminate]. }
  apply lookup_lt_is_Some_2 in Hlt as [target Ht]. rewrite Ht.
  exists target. split; [reflexivity|].
  eapply list_elem_of_lookup_2; eassumption.
Qed.

Lemma available_nodes_spec (nm : NodeManager.t) (n : Node.t) :
  n ∈ NodeManager.available_nodes nm ->
  n ∈ NodeManager.nodes nm /\ Node.available n = true.
Proof.
  unfold NodeManager.available_nodes. intros H.
  apply list_elem_of_filter in H as [Ha Hn]. auto.
Qed.

Lemma decode_track_unfold (track : string) (node : option Node.t) (w : World) :
  NodeManager.available_nodes (node_manager w) <> [] ->
  Client.decode_track session track node w
  = match Client.node_or_choice node (NodeManager.available_nodes (node_manager w)) w with
    | (Ok target, w') => (Node.decode_track session target track, w')
    | (Raise e, w') => (Raise e, w')
    end.
Proof.
  intros Hne. unfold Client.decode_track, mbind, M_bind, gets.
  destruct (NodeManager.available_nodes (node_manager w)) as [|n ns] eqn:Ha;
    [congruence|].
  cbn [Client.falsy]. rewrite Ha. reflexivity.
Qed.

Lemma decode_tracks_unfold (tracks : list string) (node : option Node.t) (w : World) :
  NodeManager.available_nodes (node_manager w) <> [] ->
  Client.decode_tracks session tracks node w
  = match Client.node_or_choice node (NodeManager.available_nodes (node_manager w)) w with
    | (Ok target, w') => (Node.decode_tracks session target tracks, w')
    | (Raise e, w') => (Raise e, w')
    end.
Proof.
  intros Hne. unfold Client.decode_tracks, mbind, M_bind, gets.
  destruct (NodeManager.available_nodes (node_manager w)) as [|n ns] eqn:Ha;
    [congruence|].
  cbn [Client.falsy]. rewrite Ha. reflexivity.
Qed.

End ClientTargets.

(** X9: when a node is passed to [decode_track], [decode_tracks] or
    [get_tracks] and the pool the call draws from is not empty, the call is
    answered by that very node, whether or not it belongs to the pool, is
    connected or is flagged search-only; nothing is drawn at random and the
    client is left as it is. *)
Theorem given_node_answers
    (session : Node.Request -> Node.Response) (n : Node.t) (w : World) :
  NodeManager.available_nodes (node_manager w) <> [] ->
  (forall track,
     Client.decode_track session track (Some n) w
     = (Node.decode_track session n track, w))
  /\ (forall tracks,
        Client.decode_tracks session tracks (Some n) w
        = (Node.decode_tracks session n tracks, w))
  /\ (forall query first,
        Client.get_tracks session query (Some n) false first w
        = (Node.get_tracks session n query first, w))
  /\ (forall query first,
        NodeManager.search_only_nodes (node_manager w) <> [] ->
        Client.get_tracks session query (Some n) true first w
        = (Node.get_tracks session n query first, w)).
Proof.
  intros Hne. split; [|split; [|split]].
  - intros track. now rewrite decode_track_unfold.
  - intros tracks. now rewrite decode_tracks_unfold.
  - intros query first. rewrite get_tracks_general.
    destruct (NodeManager.available_nodes (node_manager w)); [congruence|].
    reflexivity.
  - intros query first Hs.
    destruct (NodeManager.search_only_nodes (node_manager w)) as [|m ms] eqn:Hm;
      [congruence|].
    now rewrite (get_tracks_search_only session query (Some n) first w m ms Hm).
Qed.

Lemma given_node_answers_witness :
  Node.available fresh_node = false
  /\ Client.get_tracks one_track_session "song" (Some fresh_node) false false
       two_node_world
     = (Ok one_track_body, two_node_world)
  /\ Client.decode_track unavailable_session "QAAAjQ" (Some fresh_node) two_node_world
     = (Ok PyNone, two_node_world).
Proof.
  split; [reflexivity|].
  destruct (given_node_answers one_track_session fresh_node two_node_world)
    as (_ & _ & Hg & _); [discriminate|].
  destruct (given_node_answers unavailable_session fresh_node two_node_world)
    as (Hd & _); [discriminate|].
  split.
  - rewrite Hg. reflexivity.
  - rewrite Hd. reflexivity.
Defined.

(** X10: when no node is passed and the pool is not empty, the call is
    answered by a node of the pool, hence a node of the manager that is
    available (and flagged search-only when [get_tracks] draws from a
    non-empty search-only pool); the one draw of [random.choice] is all that
    changes in the client: nothing is logged and the warning flag stays. *)
Theorem drawn_node_is_available
    (session : Node.Request -> Node.Response) (w : World) :
  NodeManager.available_nodes (node_manager w) <> [] ->
  (exists target : Node.t,
     target ∈ NodeManager.nodes (node_manager w)
     /\ Node.available target = true
     /\ (forall track,
           Client.decode_track session track None w
           = (Node.decode_track session target track,
              set_entropy (tail (entropy w)) w))
     /\ (forall tracks,
           Client.decode_tracks session tracks None w
           = (Node.decode_tracks session target tracks,
              set_entropy (tail (entropy w)) w))
     /\ (forall query first,
           Client.get_tracks session query None false first w
           = (Node.get_tracks session target query first,
              set_entropy (tail (entropy w)) w)))
  /\ (NodeManager.search_only_nodes (node_manager w) <> [] ->
      exists target : Node.t,
        target ∈ NodeManager.nodes (node_manager w)
        /\ Node.available target = true
        /\ Node.search_only target = true
        /\ forall query first,
             Client.get_tracks session query None true first w
             = (Node.get_tracks session target query first,
                set_entropy (tail (entropy w)) w)).
Proof.
  intros Hne. split.
  - destruct (random_choice_spec _ w Hne) as (target & Hc & Hin).
    apply available_nodes_spec in Hin as [Hin Hav].
    exists target. split; [exact Hin|]. split; [exact Hav|].
    split; [|split].
    + intros track. rewrite decode_track_unfold by assumption.
      cbn [Client.node_or_choice]. now rewrite Hc.
    + intros tracks. rewrite decode_tracks_unfold by assumption.
      cbn [Client.node_or_choice]. now rewrite Hc.
    + intros query first. rewrite get_tracks_general.
      destruct (NodeManager.available_nodes (node_manager w)) as [|m ms] eqn:Ha;
        [congruence|].
      cbn [Client.node_or_choice]. now rewrite Hc.
  - intros Hs.
    destruct (random_choice_spec _ w Hs) as (target & Hc & Hin).
    unfold NodeManager.search_only_nodes in Hin.
    apply list_elem_of_filter in Hin as [Hso Hin].
    apply available_nodes_spec in Hin as [Hin Hav].
    exists target. split; [exact Hin|]. split; [exact Hav|]. split; [exact Hso|].
    intros query first.
    destruct (NodeManager.search_only_nodes (node_manager w)) as [|m ms] eqn:Hm;
      [congruence|].
    rewrite (get_tracks_search_only session query None first w m ms Hm).
    cbn [Client.node_or_choice]. now rewrite Hc.
Qed.

Lemma drawn_node_is_available_witness :
  exists target : Node.t,
    target ∈ [ready_node; second_node]
    /\ Node.available target = true
    /\ Client.decode_track unavailable_session "QAAAjQ" None two_node_world
       = (Node.decode_track unavailable_session target "QAAAjQ",
          set_entropy [2%nat] two_node_world).
Proof.
  destruct (drawn_node_is_available unavailable_session two_node_world)
    as ((target & Hin & Hav & Hd & _) & _); [discriminate|].
  exists target. split; [exact Hin|]. split; [exact Hav|]. apply Hd.
Defined.

(** ** More on the event hooks: registration and what a dispatch logs *)

Section HookRegistration.

Import Hooks.

Context {App : Type}.

Lemma hooks_for_insert (hooks : registry App) (k : string) (l : list (Hook App)) :
  hooks_for (<[k := l]> hooks) k = l.
Proof. unfold hooks_for, registry in *. now rewrite lookup_insert_eq. Qed.

Lemma hooks_for_insert_ne (hooks : registry App) (k k' : string) (l : list (Hook App)) :
  k <> k' -> hooks_for (<[k := l]> hooks) k' = hooks_for hooks k'.
Proof.
  intros H. unfold hooks_for, registry in *. now rewrite lookup_insert_ne.
Qed.

Lemma existsb_hook_id (l : list (Hook App)) (hook : Hook App) :
  existsb (fun h => Pos.eqb (hook_id h) (hook_id hook)) l = true
  <-> hook_id hook ∈ hook_id <$> l.
Proof.
  rewrite existsb_exists, list_elem_of_fmap. split.
  - intros (h & Hin & Heq). apply Pos.eqb_eq in Heq.
    exists h. split; [now symmetry|]. now apply list_elem_of_In.
  - intros (h & Heq & Hin). exists h. split; [now apply list_elem_of_In|].
    apply Pos.eqb_eq. now symmetry.
Qed.

End HookRegistration.

(** X11: [add_event_hook] registers a hook among the generic hooks once:
    afterwards the hook is there, adding it again changes nothing, the hooks
    registered before keep their places ahead of it, the hooks registered
    for an event class are untouched, and generic hooks that were pairwise
    distinct stay so. *)
Theorem add_event_hook_registers_once {App : Type}
    (hooks : Hooks.registry App) (hook : Hooks.Hook App) :
  let hooks' := Hooks.add_event_hook hooks hook in
  Hooks.hook_id hook ∈ Hooks.hook_id <$> Hooks.hooks_for hooks' "Generic"
  /\ Hooks.add_event_hook hooks' hook = hooks'
  /\ (Hooks.hooks_for hooks' "Generic" = Hooks.hooks_for hooks "Generic"
      \/ Hooks.hooks_for hooks' "Generic" = Hooks.hooks_for hooks "Generic" ++ [hook])
  /\ (forall key, key <> "Generic" ->
        Hooks.hooks_for hooks' key = Hooks.hooks_for hooks key)
  /\ (NoDup (Hooks.hook_id <$> Hooks.hooks_for hooks "Generic") ->
      NoDup (Hooks.hook_id <$> Hooks.hooks_for hooks' "Generic")).
Proof.
  cbv zeta. unfold Hooks.add_event_hook.
  destruct (existsb _ (Hooks.hooks_for hooks "Generic")) eqn:He.
  - split; [now apply existsb_hook_id|]. rewrite He. auto.
  - assert (Hnew : existsb
               (fun h => Pos.eqb (Hooks.hook_id h) (Hooks.hook_id hook))
               (Hooks.hooks_for hooks "Generic" ++ [hook]) = true).
    { rewrite existsb_app. cbn. rewrite Pos.eqb_refl. now rewrite orb_true_r. }
    rewrite !hooks_for_insert. rewrite Hnew.
    split; [now apply existsb_hook_id|]. split; [reflexivity|].
    split; [now right|]. split.
    + intros key Hk. apply hooks_for_insert_ne. congruence.
    + intros Hnd. rewrite fmap_app. apply NoDup_app. split; [exact Hnd|].
      split; [|cbn; apply NoDup_singleton].
      intros x Hx Hx'. cbn in Hx'. apply list_elem_of_singleton in Hx'. subst x.
      apply existsb_hook_id in Hx. congruence.
Qed.

Section HookLogs.

Import Hooks.

Context {App : Type}.

Lemma settle_log_raised (event : Event) (h : Hook App) (o : outcome) (x : effect) :
  runs_to (call h event) o ->
  x ∈ settle_log (__name__ h) o ->
  exists e, runs_to (call h event) (Raised e)
            /\ derives_Exception e = true
            /\ (x = hook_warning (__name__ h) \/ x = hook_debug (__name__ h)).
Proof.
  intros Hr Hx. destruct o as [|e]; cbn in Hx.
  - now apply elem_of_nil in Hx.
  - destruct (derives_Exception e) eqn:Hd; [|now apply elem_of_nil in Hx].
    exists e. split; [exact Hr|]. split; [exact Hd|].
    apply elem_of_cons in Hx as [-> | Hx]; [now left|].
    apply list_elem_of_singleton in Hx. now right.
Qed.

(** One run of a wrapper task writes nothing, or the two records of its
    hook when the hook has just raised. *)
Lemma advance_records (event : Event) (st st' : state App) (h : Hook App)
    (c : coro App) (s' : task_state App) :
  task_ok event st h (__name__ h, Pending c) ->
  advance (__name__ h) c st = (s', st') ->
  exists l, log st' = log st ++ l
            /\ forall x, x ∈ l -> raised_record event [h] x.
Proof.
  intros [_ Hc] Ha. cbn in Hc.
  assert (Hrec : forall o x, runs_to c o -> x ∈ settle_log (__name__ h) o ->
                             raised_record event [h] x).
  { intros o x Ho Hx.
    destruct (settle_log_raised event h o x (Hc o Ho) Hx) as (e & He & Hd & Hw).
    exists h, e. split; [apply list_elem_of_here|]. auto. }
  destruct c as [o|resume next]; cbn in Ha.
  - rewrite settle_spec in Ha. injection Ha as <- <-.
    eexists. split; [reflexivity|]. intros x Hx. eapply Hrec; [|exact Hx].
    constructor.
  - destruct (next (app st)) as [o|r n] eqn:Hn.
    + rewrite settle_spec in Ha. injection Ha as <- <-.
      eexists. split; [reflexivity|]. intros x Hx. eapply Hrec; [|exact Hx].
      apply runs_susp with (a := app st). rewrite Hn. constructor.
    + injection Ha as <- <-. exists []. split; [cbn; now rewrite app_nil_r|].
      intros x Hx. now apply elem_of_nil in Hx.
Qed.

Lemma raised_record_mono (event : Event) (h : Hook App) (hs : list (Hook App))
    (x : effect) :
  h ∈ hs -> raised_record event [h] x -> raised_record event hs x.
Proof.
  intros Hin (h' & e & Hh & Hr). apply list_elem_of_singleton in Hh. subst h'.
  exists h, e. auto.
Qed.

Lemma advance_nth_records (event : Event) (hs : list (Hook App)) (i : nat)
    (ts ts' : list (task App)) (st st' : state App) :
  Forall2 (task_ok event st) hs ts ->
  advance_nth i ts st = (ts', st') ->
  exists l, log st' = log st ++ l
            /\ forall x, x ∈ l -> raised_record event hs x.
Proof.
  intros Hall Ha. unfold advance_nth in Ha.
  assert (Hnil : exists l, log st = log st ++ l
                           /\ forall x, x ∈ l -> raised_record event hs x).
  { exists []. split; [now rewrite app_nil_r|].
    intros x Hx. now apply elem_of_nil in Hx. }
  destruct (ts !! i) as [[name [c|o]]|] eqn:Hi;
    try (injection Ha as <- <-; exact Hnil).
  destruct (advance name c st) as [s' st1] eqn:Hadv.
  injection Ha as <- <-.
  destruct (Forall2_lookup_r _ _ _ _ _ Hall Hi) as (h & Hh & Hok).
  assert (Hname : name = __name__ h) by (destruct Hok as [Hn _]; exact Hn).
  subst name.
  destruct (advance_records event st st1 h c s' Hok Hadv) as (l & Hl & Hrec).
  exists l. split; [exact Hl|]. intros x Hx.
  eapply raised_record_mono; [|now apply Hrec].
  eapply list_elem_of_lookup_2; eassumption.
Qed.

(** The wait only adds to the log, and what it adds are records of hooks
    that raised. *)
Lemma wait_records (event : Event) (hs : list (Hook App)) (schedule : list nat) :
  forall (ts ts' : list (task App)) (st st' : state App),
    Forall2 (task_ok event st) hs ts ->
    wait schedule ts st = Some (ts', st') ->
    exists l, log st' = log st ++ l
              /\ forall x, x ∈ l -> raised_record event hs x.
Proof.
  assert (Hnil : forall st : state App,
            exists l, log st = log st ++ l
                      /\ forall x, x ∈ l -> raised_record event hs x).
  { intros st. exists []. split; [now rewrite app_nil_r|].
    intros x Hx. now apply elem_of_nil in Hx. }
  induction schedule as [|i schedule IH]; intros ts ts' st st' Hall Hw; cbn in Hw.
  - destruct (existsb stopped ts); [discriminate|].
    destruct (forallb settled ts); [|discriminate].
    injection Hw as <- <-. apply Hnil.
  - destruct (existsb stopped ts); [discriminate|].
    destruct (forallb settled ts).
    + injection Hw as <- <-. apply Hnil.
    + destruct (advance_nth i ts st) as [ts1 st1] eqn:Ha.
      destruct (advance_nth_records event hs i ts ts1 st st1 Hall Ha)
        as (l1 & Hl1 & Hr1).
      pose proof (advance_nth_ok event hs i ts ts1 st st1 Hall Ha) as Hall1.
      destruct (IH ts1 ts' st1 st' Hall1 Hw) as (l2 & Hl2 & Hr2).
      exists (l1 ++ l2). split.
      * now rewrite Hl2, Hl1, app_assoc.
      * intros x Hx. apply elem_of_app in Hx as [Hx | Hx]; auto.
Qed.

End HookLogs.

(** X12: what a dispatch writes to the log.  With no hook registered for
    the event, neither generic nor for its class, [_dispatch_event] returns
    at once and leaves everything as it is, the log included.  Otherwise the
    log it leaves is the log it found, then records written for hooks that
    raised an exception deriving from [Exception] (the warning or the debug
    record under the hook's name), then the one record that the event was
    dispatched: nothing is removed and nothing else is logged. *)
Theorem dispatch_event_log {App : Type}
    (hooks : Hooks.registry App) (event : Event) (schedule : list nat)
    (st st' : Hooks.state App) (r : result unit) :
  Hooks._dispatch_event hooks event schedule st = Some (r, st') ->
  match Hooks.hooks_for hooks "Generic"
        ++ Hooks.hooks_for hooks (event_class_name event) with
  | [] => st' = st
  | hs =>
      exists l : list effect,
        Hooks.log st' = Hooks.log st ++ l ++ [Hooks.dispatched_debug event]
        /\ forall x, x ∈ l -> raised_record event hs x
  end.
Proof.
  intros H. rewrite dispatch_event_unfold in H. cbv zeta in H.
  destruct (Hooks.hooks_for hooks "Generic"
            ++ Hooks.hooks_for hooks (event_class_name event)) as [|h hs].
  - now injection H as _ <-.
  - destruct (Hooks.wait schedule (Hooks.tasks_of (h :: hs) event) st)
      as [[ts' st'']|] eqn:Hw; [|discriminate].
    injection H as _ <-. cbn [Hooks.log].
    destruct (wait_records event (h :: hs) schedule _ _ _ _
                (tasks_of_ok event st (h :: hs)) Hw) as (l & Hl & Hrec).
    exists l. split; [|exact Hrec]. now rewrite Hl, app_assoc.
Qed.

Lemma dispatch_event_log_witness :
  exists l : list effect,
    [Hooks.hook_warning "on_track_start"; Hooks.hook_debug "on_track_start";
     Hooks.dispatched_debug track_start]
    = [] ++ l ++ [Hooks.dispatched_debug track_start]
    /\ forall x, x ∈ l -> raised_record track_start [raising_hook; counting_hook] x.
Proof.
  exact (dispatch_event_log two_hooks track_start [1; 0; 1]%nat
           (Hooks.mk_state 0%nat [])
           (Hooks.mk_state 2%nat
              [Hooks.hook_warning "on_track_start";
               Hooks.hook_debug "on_track_start";
               Hooks.dispatched_debug track_start])
           (Ok tt) eq_refl).
Defined.

(** X13: when none of the hooks registered for the event can end in an
    exception that derives from [Exception], a dispatch that returns has
    logged exactly one record, the debug record that the event was
    dispatched.  A hook that ends in an exception deriving from
    [BaseException] only, as a cancelled hook does, leaves no record. *)
Theorem dispatch_event_logs_only_failures {App : Type}
    (hooks : Hooks.registry App) (event : Event) (schedule : list nat)
    (st st' : Hooks.state App) (r : result unit) :
  Hooks.hooks_for hooks "Generic"
    ++ Hooks.hooks_for hooks (event_class_name event) <> [] ->
  (forall h e,
     h ∈ Hooks.hooks_for hooks "Generic"
         ++ Hooks.hooks_for hooks (event_class_name event) ->
     Hooks.runs_to (Hooks.call h event) (Hooks.Raised e) ->
     derives_Exception e = false) ->
  Hooks._dispatch_event hooks event schedule st = Some (r, st') ->
  Hooks.log st' = Hooks.log st ++ [Hooks.dispatched_debug event].
Proof.
  intros Hne Hquiet H. rewrite dispatch_event_unfold in H. cbv zeta in H.
  destruct (Hooks.hooks_for hooks "Generic"
            ++ Hooks.hooks_for hooks (event_class_name event)) as [|h hs];
    [congruence|].
  destruct (Hooks.wait schedule (Hooks.tasks_of (h :: hs) event) st)
    as [[ts' st'']|] eqn:Hw; [|discriminate].
  injection H as _ <-. cbn [Hooks.log].
  destruct (wait_records event (h :: hs) schedule _ _ _ _
              (tasks_of_ok event st (h :: hs)) Hw) as (l & Hl & Hrec).
  destruct l as [|x l].
  - now rewrite Hl, app_nil_r.
  - destruct (Hrec x (list_elem_of_here _ _)) as (h' & e & Hin & Hr & Hd & _).
    rewrite (Hquiet h' e Hin Hr) in Hd. discriminate Hd.
Qed.

Lemma dispatch_event_logs_only_failures_witness :
  Hooks._dispatch_event counting_only track_start [0; 0]%nat (Hooks.mk_state 0%nat [])
    = Some (Ok tt, Hooks.mk_state 2%nat [Hooks.dispatched_debug track_start])
  /\ [Hooks.dispatched_debug track_start] = [] ++ [Hooks.dispatched_debug track_start].
Proof.
  split; [reflexivity|].
  apply (dispatch_event_logs_only_failures counting_only track_start [0; 0]%nat
           (Hooks.mk_state 0%nat [])
           (Hooks.mk_state 2%nat [Hooks.dispatched_debug track_start]) (Ok tt)).
  - discriminate.
  - intros h e Hin Hr. apply list_elem_of_singleton in Hin. subst h.
    cbn in Hr. inversion Hr as [|? ? ? ? Hr1]; subst.
    inversion Hr1 as [|? ? ? ? Hr2]; subst. inversion Hr2.
  - reflexivity.
Defined.

(** ** More on the player registry *)

Section RegistryFacts.

Lemma filter_partition {A} (f : A -> bool) (l : list A) :
  List.filter f l ++ List.filter (fun x => negb (f x)) l ≡ₚ l.
Proof.
  induction l as [|x l IH]; cbn; [reflexivity|].
  destruct (f x); cbn.
  - now rewrite IH.
  - rewrite <- Permutation_middle. now rewrite IH.
Qed.

Lemma values_spec (w : World) (p : ref) :
  p ∈ PlayerManager.values w <-> exists g, players w !! g = Some p.
Proof.
  unfold PlayerManager.values. rewrite list_elem_of_fmap. split.
  - intros ([g q] & -> & Hin). exists g. now apply elem_of_map_to_list in Hin.
  - intros (g & Hg). exists (g, p). split; [reflexivity|].
    now apply elem_of_map_to_list.
Qed.

End RegistryFacts.

(** X14: [remove] only touches the cache: the guild's player, if there is
    one, leaves the registry and its [cleanup] is called, which is all that
    [remove] does: it sends nothing to a node and affects no other guild.
    Afterwards [get] finds no player for the guild, and a second [remove]
    does nothing. *)
Theorem remove_is_local (w : World) (guild_id : Z) :
  exists w' : World,
    PlayerManager.remove guild_id w = (Ok tt, w')
    /\ players w' = delete guild_id (players w)
    /\ effects w'
       = effects w ++ match players w !! guild_id with
                      | Some p => [Cleanup p]
                      | None => []
                      end
    /\ PlayerManager.get guild_id w' = (Ok None, w')
    /\ (forall g, g <> guild_id ->
          fst (PlayerManager.get g w') = fst (PlayerManager.get g w))
    /\ PlayerManager.remove guild_id w' = (Ok tt, w').
Proof.
  unfold PlayerManager.remove, PlayerManager.get, PlayerManager.Player_cleanup,
    emit, modify, mbind, M_bind, gets.
  destruct (players w !! guild_id) as [p|] eqn:Hp; cbn.
  - eexists. split; [reflexivity|]. cbn.
    rewrite lookup_delete_eq.
    repeat split. intros g Hg. cbn. now rewrite lookup_delete_ne.
  - exists w. rewrite Hp. repeat split.
    + now rewrite delete_id.
    + now rewrite app_nil_r.
Qed.

Section DestroyFacts.

Lemma destroy_with_node_unfold (w : World) (guild_id : Z) (requester : option Z)
    (p : ref) (n : Node.t) :
  players w !! guild_id = Some p ->
  Player.node (objects w p) = Some n ->
  PlayerManager.destroy guild_id requester w
  = (Ok tt,
     add_effect
       (Log PlayerManager.LOGGER DEBUG "[NODE-%s] Successfully destroyed player %s"
          [Node.name n; pretty guild_id])
       (if Node.available n
        then add_effect
               (Sent (Node.name n) "destroy" (Player.guild_id (objects w p)))
               (set_players (delete guild_id (players w)) w)
        else set_players (delete guild_id (players w)) w)).
Proof.
  intros Hp Hn.
  unfold PlayerManager.destroy, PlayerManager.Node_send,
    when, emit, modify, mbind, M_bind, gets.
  rewrite Hp. cbn. rewrite Hn.
  destruct (Node.available n) eqn:Ha; cbn; rewrite Hn; reflexivity.
Qed.

End DestroyFacts.

(** X15: [destroy] on a player that has a node.  When the node is
    available it is sent the [destroy] command for the player's own guild id
    and then the success is logged; when the node is not available nothing
    is sent and only the log record is written.  Either way the player
    leaves the registry and the player object is left as it is: its
    [disconnect] is called without [await], so it does not run and no
    disconnect is issued. *)
Theorem destroy_with_node (w : World) (guild_id : Z) (requester : option Z)
    (p : ref) (n : Node.t) :
  players w !! guild_id = Some p ->
  Player.node (objects w p) = Some n ->
  exists w' : World,
    PlayerManager.destroy guild_id requester w = (Ok tt, w')
    /\ players w' = delete guild_id (players w)
    /\ effects w'
       = effects w
         ++ (if Node.available n
             then [Sent (Node.name n) "destroy" (Player.guild_id (objects w p))]
             else [])
         ++ [Log PlayerManager.LOGGER DEBUG
               "[NODE-%s] Successfully destroyed player %s"
               [Node.name n; pretty guild_id]]
    /\ objects w' = objects w
    /\ (forall q r, VoiceDisconnect q r ∈ effects w' -> VoiceDisconnect q r ∈ effects w).
Proof.
  intros Hp Hn. eexists.
  split; [exact (destroy_with_node_unfold w guild_id requester p n Hp Hn)|].
  destruct (Node.available n); cbn.
  - split; [reflexivity|]. split; [now rewrite <- !app_assoc|].
    split; [reflexivity|]. intros q r Hin.
    rewrite !elem_of_app in Hin. destruct Hin as [[Hin | Hin] | Hin]; [exact Hin| |];
      apply list_elem_of_singleton in Hin; discriminate Hin.
  - split; [reflexivity|]. split; [reflexivity|].
    split; [reflexivity|]. intros q r Hin.
    rewrite elem_of_app in Hin. destruct Hin as [Hin | Hin]; [exact Hin|].
    apply list_elem_of_singleton in Hin. discriminate Hin.
Qed.

Lemma destroy_with_node_witness :
  exists w' : World,
    PlayerManager.destroy 42 (Some 1001) hosted_world = (Ok tt, w')
    /\ players w' = delete 42 (players hosted_world)
    /\ effects w'
       = [Sent "eu-lava.example:2333" "destroy" 42;
          Log PlayerManager.LOGGER DEBUG "[NODE-%s] Successfully destroyed player %s"
            ["eu-lava.example:2333"; "42"]]
    /\ Player.is_connected (objects w' 1%positive) = true.
Proof.
  destruct (destroy_with_node hosted_world 42 (Some 1001) 1%positive ready_node
              eq_refl eq_refl) as (w' & Hd & Hp & He & Ho & _).
  exists w'. split; [exact Hd|]. split; [exact Hp|]. split; [exact He|].
  now rewrite Ho.
Defined.

(** X16: whatever its outcome, [destroy] leaves the registry without a
    player for the guild ([get] finds none) and with every other guild's
    player in place.  When it returns normally, either the guild had no
    player and nothing has changed, or its player had a node. *)
Theorem destroy_outcomes (w : World) (guild_id : Z) (requester : option Z) :
  let r := fst (PlayerManager.destroy guild_id requester w) in
  let w' := snd (PlayerManager.destroy guild_id requester w) in
  players w' = delete guild_id (players w)
  /\ fst (PlayerManager.get guild_id w') = Ok None
  /\ (forall g, g <> guild_id ->
        fst (PlayerManager.get g w') = fst (PlayerManager.get g w))
  /\ (r = Ok tt ->
      (players w !! guild_id = None /\ w' = w)
      \/ exists p n, players w !! guild_id = Some p
                     /\ Player.node (objects w p) = Some n).
Proof.
  cbv zeta.
  assert (Hpost : forall w' : World,
            players w' = delete guild_id (players w) ->
            fst (PlayerManager.get guild_id w') = Ok None
            /\ forall g, g <> guild_id ->
                 fst (PlayerManager.get g w') = fst (PlayerManager.get g w)).
  { intros w' Hw'. unfold PlayerManager.get, gets. cbn. rewrite Hw'. split.
    - now rewrite lookup_delete_eq.
    - intros g Hg. now rewrite lookup_delete_ne. }
  destruct (players w !! guild_id) as [p|] eqn:Hp.
  - destruct (Player.node (objects w p)) as [n|] eqn:Hn.
    + rewrite (destroy_with_node_unfold w guild_id requester p n Hp Hn).
      assert (Hpl : players
                (snd (Ok tt,
                      add_effect
                        (Log PlayerManager.LOGGER DEBUG
                           "[NODE-%s] Successfully destroyed player %s"
                           [Node.name n; pretty guild_id])
                        (if Node.available n
                         then add_effect
                                (Sent (Node.name n) "destroy"
                                   (Player.guild_id (objects w p)))
                                (set_players (delete guild_id (players w)) w)
                         else set_players (delete guild_id (players w)) w)))
              = delete guild_id (players w)).
      { now destruct (Node.available n). }
      split; [exact Hpl|]. destruct (Hpost _ Hpl) as [Hg Ho].
      split; [exact Hg|]. split; [exact Ho|]. intros _. right. eauto.
    + rewrite (destroy_without_node w guild_id requester p Hp Hn).
      destruct (Hpost (set_players (delete guild_id (players w)) w) eq_refl)
        as [Hg Ho].
      split; [reflexivity|]. split; [exact Hg|]. split; [exact Ho|].
      discriminate.
  - rewrite (destroy_absent w guild_id requester Hp).
    assert (Hpl : players w = delete guild_id (players w))
      by (symmetry; now apply delete_id).
    destruct (Hpost w Hpl) as [Hg Ho].
    split; [exact Hpl|]. split; [exact Hg|]. split; [exact Ho|].
    intros _. left. auto.
Qed.

Section CreateFacts.

Variable get_region : option string -> string.
Variable find_best_node : NodeManager.t -> string -> option Node.t.

Lemma create_without_node (w : World) (channel : VoiceChannel)
    (endpoint : option string) (node : option Node.t) (self_deaf : bool)
    (requester : option Z) :
  players w !! channel_guild channel = None ->
  chosen_node get_region find_best_node endpoint node w = None ->
  PlayerManager.create get_region find_best_node channel endpoint node
    self_deaf requester w
  = (Raise (NoNodeAvailable "No available nodes!"), w).
Proof.
  intros Hp Hn. unfold PlayerManager.create, mbind, M_bind, gets.
  rewrite Hp. unfold chosen_node in Hn. now rewrite Hn.
Qed.

(** Creating a player for a guild that has none, on the node settled on. *)
Lemma create_on_chosen_node (w : World) (channel : VoiceChannel)
    (endpoint : option string) (node : option Node.t) (self_deaf : bool)
    (requester : option Z) (best : Node.t) :
  players w !! channel_guild channel = None ->
  chosen_node get_region find_best_node endpoint node w = Some best ->
  exists w' : World,
    PlayerManager.create get_region find_best_node channel endpoint node
      self_deaf requester w = (Ok (next_ref w), w')
    /\ players w' = <[channel_guild channel := next_ref w]> (players w)
    /\ node_manager w' = node_manager w
    /\ Player.node (objects w' (next_ref w)) = Some best
    /\ Player.guild_id (objects w' (next_ref w)) = channel_guild channel
    /\ Player.channel_id (objects w' (next_ref w)) = channel_ident channel
    /\ (forall q, q <> next_ref w -> objects w' q = objects w q)
    /\ effects w'
       = effects w
         ++ [VoiceConnect channel (next_ref w);
             VoiceMove (next_ref w) requester (channel_ident channel) self_deaf;
             Dispatched (Node.name best)
               (PlayerConnectedEvent (next_ref w) requester);
             Log PlayerManager.LOGGER INFO
               "[NODE-%s] Successfully created player for %s"
               [Node.name best; pretty (channel_guild channel)]].
Proof.
  intros Hp Hn. unfold chosen_node in Hn. eexists. split.
  - unfold PlayerManager.create, mbind, M_bind, gets. rewrite Hp, Hn.
    reflexivity.
  - cbn. rewrite ?Pos.eqb_refl. cbn. rewrite ?Pos.eqb_refl.
    repeat split.
    + intros q Hq. apply Pos.eqb_neq in Hq. now rewrite Hq.
    + now rewrite <- !app_assoc.
Qed.

End CreateFacts.



(** X18: what [create] guarantees.  Whenever it returns a player, that
    player is the one registered for the channel's guild and is bound to the
    channel asked for, every other guild keeps its player and the effects
    issued so far are still there.  For a guild without a player, when no
    node is given and no best node is found, it raises [NoNodeAvailable]
    before anything has happened: no voice connection is attempted and the
    client is as it was. *)
Theorem create_outcomes
    (get_region : option string -> string)
    (find_best_node : NodeManager.t -> string -> option Node.t)
    (w : World) (channel : VoiceChannel) (endpoint : option string)
    (node : option Node.t) (self_deaf : bool) (requester : option Z) :
  (forall (p : ref) (w' : World),
     PlayerManager.create get_region find_best_node channel endpoint node
       self_deaf requester w = (Ok p, w') ->
     players w' !! channel_guild channel = Some p
     /\ Player.channel_id (objects w' p) = channel_ident channel
     /\ (forall g, g <> channel_guild channel -> players w' !! g = players w !! g)
     /\ exists l, effects w' = effects w ++ l)
  /\ (players w !! channel_guild channel = None ->
      node = None ->
      find_best_node (node_manager w) (get_region endpoint) = None ->
      PlayerManager.create get_region find_best_node channel endpoint node
        self_deaf requester w
      = (Raise (NoNodeAvailable "No available nodes!"), w)).
Proof.
  split.
  - intros p0 w0.
    destruct (players w !! channel_guild channel) as [p|] eqn:Hp.
    + destruct (Z.eq_dec (Player.channel_id (objects w p)) (channel_ident channel))
        as [Hc | Hc].
      * rewrite (create_existing_same_channel get_region find_best_node w channel
                   endpoint node self_deaf requester p Hp Hc).
        intros [= <- <-].
        split; [exact Hp|]. split; [exact Hc|]. split; [reflexivity|].
        exists []. now rewrite app_nil_r.
      * rewrite (create_existing_other_channel get_region find_best_node w channel
                   endpoint node self_deaf requester p Hp Hc).
        intros [= <- <-].
        unfold PlayerManager.Player_move_to, emit, modify, mbind, M_bind. cbn.
        rewrite Pos.eqb_refl.
        split; [exact Hp|]. split; [reflexivity|]. split; [reflexivity|].
        eexists. reflexivity.
    + destruct (chosen_node get_region find_best_node endpoint node w)
        as [best|] eqn:Hn.
      * destruct (create_on_chosen_node get_region find_best_node w channel
                    endpoint node self_deaf requester best Hp Hn)
          as (w' & -> & Hpl & _ & _ & _ & Hch & _ & Heff).
        intros [= <- <-].
        split; [now rewrite Hpl, lookup_insert_eq|]. split; [exact Hch|].
        split; [intros g Hg; rewrite Hpl; now apply lookup_insert_ne|].
        eexists. exact Heff.
      * rewrite (create_without_node get_region find_best_node w channel endpoint
                   node self_deaf requester Hp Hn).
        discriminate.
  - intros Hp -> Hn.
    now apply create_without_node.
Qed.

Lemma create_outcomes_witness :
  PlayerManager.create no_region no_best_node (mk_channel 7 42) None None false
    (Some 1001) two_node_world
  = (Raise (NoNodeAvailable "No available nodes!"), two_node_world)
  /\ players one_player_world !! 42 = Some 1%positive.
Proof.
  destruct (create_outcomes no_region no_best_node two_node_world
              (mk_channel 7 42) None None false (Some 1001)) as (_ & Hraise).
  destruct (create_outcomes no_region no_best_node one_player_world
              (mk_channel 7 42) None None false (Some 1001)) as (Hok & _).
  split.
  - apply Hraise; reflexivity.
  - exact (proj1 (Hok 1%positive one_player_world eq_refl)).
Defined.



(** X20: the views of the registry.  [find_all] without a predicate
    lists the registered players, once per guild that has one, and [len]
    counts them; [find_all] with a predicate and the five player lists keep
    the players the predicate or the flag holds for, so each is a sub-list
    of all players; the playing and the not-playing players together are
    all the players, and no player is in both. *)
Theorem player_views (w : World) :
  let all := PlayerManager.values w in
  PlayerManager.find_all None w = (Ok all, w)
  /\ (forall p, p ∈ all <-> exists g, players w !! g = Some p)
  /\ PlayerManager.__len__ w = (Ok (length all), w)
  /\ (forall f, PlayerManager.find_all (Some f) w
                = (Ok (List.filter (fun p => f (objects w p)) all), w))
  /\ PlayerManager.connected_players w
     = PlayerManager.find_all (Some Player.is_connected) w
  /\ PlayerManager.paused_players w = PlayerManager.find_all (Some Player.paused) w
  /\ PlayerManager.empty_players w = PlayerManager.find_all (Some Player.is_empty) w
  /\ exists playing not_playing : list ref,
       PlayerManager.playing_players w = (Ok playing, w)
       /\ PlayerManager.not_playing_players w = (Ok not_playing, w)
       /\ playing ++ not_playing ≡ₚ all
       /\ forall p, p ∈ playing -> p ∉ not_playing.
Proof.
  cbv zeta. split; [reflexivity|]. split; [apply values_spec|].
  split.
  - unfold PlayerManager.__len__, PlayerManager.values, gets.
    now rewrite length_fmap, length_map_to_list.
  - split; [reflexivity|]. split; [reflexivity|]. split; [reflexivity|].
    split; [reflexivity|].
    eexists. eexists. split; [reflexivity|]. split; [reflexivity|].
    split; [apply filter_partition|].
    intros p Hin Hout.
    apply list_elem_of_In, filter_In in Hin as [_ Hin].
    apply list_elem_of_In, filter_In in Hout as [_ Hout].
    rewrite Hin in Hout. discriminate Hout.
Qed.

(** ** Search queries ([Query.__process_search], [Query.query_string]) *)

Lemma strip_prefix_spec (p : string) : forall s r : string,
  Query.strip_prefix p s = Some r -> s = p +:+ r.
Proof.
  induction p as [|a p IH]; intros s r H; cbn in H.
  - now injection H as ->.
  - destruct s as [|b s]; [discriminate|].
    destruct (Ascii.eqb a b) eqn:Hab; [|discriminate].
    apply Ascii.eqb_eq in Hab. subst b.
    change (String a p +:+ r) with (String a (p +:+ r)). f_equal. now apply IH.
Qed.

(** X21: a text that [__process_search] accepts starts with one of the
    prefixes [ytsearch:], [ytmsearch:], [spsearch:], [scsearch:],
    [amsearch:], and the query made of it keeps the whole text, prefix
    included, and is flagged as a search.  [query_string] then puts a search
    prefix in front of it once more, [ytmsearch:] for both YouTube
    prefixes: the identifier handed on for [ytsearch:abc] is
    [ytmsearch:ytsearch:abc]. *)
Theorem search_query_keeps_its_prefix (query : string) (q : Query.t) :
  Query.__process_search query = Some q ->
  exists src rest : string,
    src ∈ ["yt"; "ytm"; "sp"; "sc"; "am"]
    /\ query = (src +:+ "search:") +:+ rest
    /\ Query._query q = query
    /\ Query.is_search q = true
    /\ Query.query_string q
       = ((if String.eqb src "yt" then "ytm" else src) +:+ "search:") +:+ query.
Proof.
  unfold Query.__process_search, Query.SEARCH_REGEX. intros H.
  destruct (List.find _ _) as [src|] eqn:Hf; [|discriminate].
  apply find_some in Hf as [Hin Halt].
  unfold Query.search_alternative in Halt.
  destruct (Query.strip_prefix (src +:+ "search:") query) as [rest|] eqn:Hs;
    [|discriminate].
  apply strip_prefix_spec in Hs.
  exists src, rest. split; [now apply list_elem_of_In|]. split; [exact Hs|].
  cbn in Hin.
  destruct Hin as [<- | [<- | [<- | [<- | [<- | []]]]]]; cbn in H;
    injection H as <-; repeat split.
Qed.

Lemma search_query_keeps_its_prefix_witness :
  Query.__process_search "ytsearch:abc"
    = Some (Query.__init__ "ytsearch:abc" "youtube" true 0 0 None)
  /\ exists src rest : string,
       "ytsearch:abc" = (src +:+ "search:") +:+ rest
       /\ Query.query_string (Query.__init__ "ytsearch:abc" "youtube" true 0 0 None)
          = ((if String.eqb src "yt" then "ytm" else src) +:+ "search:")
            +:+ "ytsearch:abc".
Proof.
  split; [reflexivity|].
  destruct (search_query_keeps_its_prefix "ytsearch:abc"
              (Query.__init__ "ytsearch:abc" "youtube" true 0 0 None) eq_refl)
    as (src & rest & _ & Hq & _ & _ & Hs).
  exists src, rest. split; [exact Hq | exact Hs].
Defined.

(** ** Picking a Radio Browser server ([pick_base_url]) *)

Section PickFacts.

Variable get : string -> result Z.

Lemma try_hosts_spec (hosts : list string) :
  forall log : list RadioBrowser.record,
    match RadioBrowser.try_hosts get hosts log with
    | (Ok (Some url), log') =>
        exists (pre : list string) (host : string) (post : list string),
          hosts = pre ++ host :: post
          /\ url = "https://" +:+ host
          /\ get ("https://" +:+ host +:+ "/json/stats") = Ok 200
          /\ forall h, h ∈ pre -> get ("https://" +:+ h +:+ "/json/stats") <> Ok 200
    | (Ok None, log') =>
        forall h, h ∈ hosts -> get ("https://" +:+ h +:+ "/json/stats") <> Ok 200
    | (Raise e, log') =>
        derives_Exception e = false
        /\ exists h, h ∈ hosts /\ get ("https://" +:+ h +:+ "/json/stats") = Raise e
    end.
Proof.
  induction hosts as [|host rest IH]; intros log; cbn.
  - intros h Hh. now apply elem_of_nil in Hh.
  - destruct (get ("https://" +:+ host +:+ "/json/stats")) as [status|e] eqn:Hg.
    + destruct (status =? 200) eqn:Hs.
      * apply Z.eqb_eq in Hs. subst status.
        exists [], host, rest. repeat split; try assumption.
        intros h Hh. now apply elem_of_nil in Hh.
      * apply Z.eqb_neq in Hs.
        assert (Hhost : get ("https://" +:+ host +:+ "/json/stats") <> Ok 200)
          by (rewrite Hg; congruence).
        specialize (IH (log ++ [RadioBrowser.mk_record RadioBrowser.Verbose
                                  "Error interacting with %s: %s"
                                  [host; pretty status]])).
        destruct (RadioBrowser.try_hosts get rest _) as [[[url|]|e] log'].
        -- destruct IH as (pre & h & post & -> & -> & Hok & Hpre).
           exists (host :: pre), h, post. repeat split; try assumption.
           intros x Hx. apply elem_of_cons in Hx as [-> | Hx]; auto.
        -- intros x Hx. apply elem_of_cons in Hx as [-> | Hx]; auto.
        -- destruct IH as (Hd & h & Hh & Hr). split; [exact Hd|].
           exists h. split; [now apply list_elem_of_further | exact Hr].
    + assert (Hhost : get ("https://" +:+ host +:+ "/json/stats") <> Ok 200)
        by (rewrite Hg; congruence).
      destruct (derives_Exception e) eqn:Hd.
      * specialize (IH log).
        destruct (RadioBrowser.try_hosts get rest log) as [[[url|]|e'] log'].
        -- destruct IH as (pre & h & post & -> & -> & Hok & Hpre).
           exists (host :: pre), h, post. repeat split; try assumption.
           intros x Hx. apply elem_of_cons in Hx as [-> | Hx]; auto.
        -- intros x Hx. apply elem_of_cons in Hx as [-> | Hx]; auto.
        -- destruct IH as (Hd' & h & Hh & Hr). split; [exact Hd'|].
           exists h. split; [now apply list_elem_of_further | exact Hr].
      * split; [exact Hd|]. exists host. split; [apply list_elem_of_here | exact Hg].
Qed.

End PickFacts.

(** X22: every outcome of [pick_base_url].  It returns the base URL
    [https://host] of the first server, in the order the servers are gone
    through, whose [/json/stats] answers with status 200; servers that
    answer with another status or fail with an exception deriving from
    [Exception] are passed over.  It returns [None] when no server answers
    with 200, with a warning logged when there is no server at all and an
    error logged last otherwise.  It raises only what [fetch_servers]
    raises, or an exception of a server's request that does not derive from
    [Exception]. *)
Theorem pick_base_url_outcomes
    (fetch_servers : result (list string)) (get : string -> result Z) :
  match RadioBrowser.pick_base_url fetch_servers get with
  | (Ok (Some url), log) =>
      exists (pre : list string) (host : string) (post : list string),
        fetch_servers = Ok (pre ++ host :: post)
        /\ url = "https://" +:+ host
        /\ get ("https://" +:+ host +:+ "/json/stats") = Ok 200
        /\ forall h, h ∈ pre -> get ("https://" +:+ h +:+ "/json/stats") <> Ok 200
  | (Ok None, log) =>
      exists servers : list string,
        fetch_servers = Ok servers
        /\ (forall h, h ∈ servers ->
              get ("https://" +:+ h +:+ "/json/stats") <> Ok 200)
        /\ match servers with
           | [] => exists r, log = [r] /\ RadioBrowser.lvl r = RadioBrowser.Warning
           | _ => exists l r, log = l ++ [r]
                              /\ RadioBrowser.lvl r = RadioBrowser.Error
                              /\ RadioBrowser.args r = [RadioBrowser.join ", " servers]
           end
  | (Raise e, log) =>
      fetch_servers = Raise e
      \/ (derives_Exception e = false
          /\ exists servers h,
               fetch_servers = Ok servers /\ h ∈ servers
               /\ get ("https://" +:+ h +:+ "/json/stats") = Raise e)
  end.
Proof.
  unfold RadioBrowser.pick_base_url.
  destruct fetch_servers as [[|s servers]|e]; [| |now left].
  - exists []. split; [reflexivity|]. split.
    + intros h Hh. now apply elem_of_nil in Hh.
    + eexists. split; reflexivity.
  - pose proof (try_hosts_spec get (s :: servers) []) as H.
    destruct (RadioBrowser.try_hosts get (s :: servers) []) as [[[url|]|e] log].
    + destruct H as (pre & host & post & -> & Hrest). eauto 10.
    + exists (s :: servers). split; [reflexivity|]. split; [exact H|].
      eexists. eexists. split; [reflexivity|]. split; reflexivity.
    + right. destruct H as (Hd & h & Hh & Hr). eauto 10.
Qed.
